(** * streamem: the shared-frame bus of [src/memory.py]

    A verification development for [SharedFrame], the single-slot
    publish/subscribe cell of the repository: the metadata record
    ([numbers_sum], [_serialize], [_deserialize]), the subscriber registry
    ([signin], [signout], [_crea_sem], [_crex_sem]) and the frame protocol
    ([write], [read]).

    The methods are embedded as programs over the atomic operations they
    perform on the objects that several processes share (named POSIX
    semaphores, the four shared-memory regions, the control message queue).
    A program can be run to completion on a state of those objects, or a few
    operations at a time, so that the operations of a publisher and of a
    subscriber can be put in any order. *)

From Stdlib Require Import ZArith Ascii String DecimalString DecimalPos Lia.
From stdpp Require Import gmap strings list fin_maps.

Local Open Scope Z_scope.

(** * Python text and bytes *)

(** A [bytes] object or a shared-memory buffer is a list of bytes. A [str] is
    a [string]; the model covers ASCII text, for which the UTF-8 encoding of a
    [str] is the sequence of its characters. *)
Abbreviation bytes := (list ascii).

Module Py.

(** The exceptions that the modelled code can raise. *)
Inductive exn : Type :=
| ValueError
| OverflowError
| KeyError
| AttributeError
| TypeError
| IndexError
| UnicodeDecodeError
| ExistentialError.

#[global] Instance exn_eq_dec : EqDecision exn.
Proof. solve_decision. Defined.

(** ** [str] operations *)

(** [c * n] for a one-character string [c]. *)
Fixpoint repeat_char (c : ascii) (n : nat) : string :=
  match n with
  | O => ""
  | S n' => String c (repeat_char c n')
  end.

(** [s.ljust(width, fill)]: pads on the right, never truncates. *)
Definition ljust (s : string) (width : nat) (fill : ascii) : string :=
  s +:+ repeat_char fill (width - String.length s)%nat.

(** [sep.join(parts)]. *)
Fixpoint join (sep : string) (parts : list string) : string :=
  match parts with
  | [] => ""
  | [p] => p
  | p :: rest => p +:+ sep +:+ join sep rest
  end.

(** [s.replace(c, "")] for a one-character [c]. *)
Fixpoint remove_char (c : ascii) (s : string) : string :=
  match s with
  | EmptyString => ""
  | String a r =>
      if Ascii.eqb a c then remove_char c r else String a (remove_char c r)
  end.

(** [s.split(c)] for a one-character separator: always at least one part. *)
Fixpoint split (c : ascii) (s : string) : list string :=
  match s with
  | EmptyString => [""]
  | String a r =>
      if Ascii.eqb a c then "" :: split c r
      else match split c r with
           | h :: t => String a h :: t
           | [] => [String a ""]
           end
  end.

(** [c in s]. *)
Fixpoint contains (c : ascii) (s : string) : bool :=
  match s with
  | EmptyString => false
  | String a r => Ascii.eqb a c || contains c r
  end.

(** [all(p(c) for c in s)]. *)
Fixpoint all_chars (p : ascii -> bool) (s : string) : bool :=
  match s with
  | EmptyString => true
  | String a r => p a && all_chars p r
  end.

(** [s.isascii()]. *)
Definition isascii (s : string) : bool :=
  all_chars (fun a => (N_of_ascii a <? 128)%N) s.

(** [str(n)] for an [int]. *)
Definition str (n : Z) : string := NilEmpty.string_of_int (Z.to_int n).

Definition is_digit (a : ascii) : bool :=
  let n := N_of_ascii a in (48 <=? n)%N && (n <=? 57)%N.

(** The characters [int()] strips around a literal. *)
Definition is_space (a : ascii) : bool :=
  let n := N_of_ascii a in
  ((9 <=? n)%N && (n <=? 13)%N) || ((28 <=? n)%N && (n <=? 32)%N).

Fixpoint lstrip (s : string) : string :=
  match s with
  | String a r => if is_space a then lstrip r else s
  | EmptyString => ""
  end.

(** Drops trailing white space. *)
Fixpoint rstrip (s : string) : string :=
  match s with
  | EmptyString => ""
  | String a r =>
      match rstrip r with
      | EmptyString => if is_space a then "" else String a ""
      | r' => String a r'
      end
  end.

Definition strip (s : string) : string := rstrip (lstrip s).

(** The digit part of an integer literal: digits, with single underscores
    allowed between two digits. [prev] tells whether the previous character
    was a digit. Returns the digits without the underscores. *)
Fixpoint digit_part (prev : bool) (s : string) : option string :=
  match s with
  | EmptyString => if prev then Some "" else None
  | String a r =>
      if is_digit a then String a <$> digit_part true r
      else if Ascii.eqb a "_" && prev then digit_part false r
      else None
  end.

(** [int(s)] for a [str] (base 10): [None] stands for [ValueError]. *)
Definition int (s : string) : option Z :=
  let t := strip s in
  let (neg, body) :=
    match t with
    | String a r =>
        if Ascii.eqb a "-" then (true, r)
        else if Ascii.eqb a "+" then (false, r)
        else (false, t)
    | EmptyString => (false, t)
    end in
  match digit_part false body with
  | Some ds =>
      match NilEmpty.uint_of_string ds with
      | Some d =>
          let v := Z.of_N (N.of_uint d) in
          Some (if neg then - v else v)
      | None => None
      end
  | None => None
  end.

(** [n.to_bytes(length, "little")]: [None] stands for [OverflowError]
    (negative, or too big for [length] bytes). *)
Fixpoint le_bytes (length : nat) (n : Z) : bytes :=
  match length with
  | O => []
  | S l => ascii_of_N (Z.to_N (n mod 256)) :: le_bytes l (n / 256)
  end.

Definition to_bytes (n : Z) (length : nat) : option bytes :=
  if (0 <=? n) && (n <? 256 ^ Z.of_nat length) then Some (le_bytes length n)
  else None.

(** [int.from_bytes(b, "little")]. *)
Fixpoint from_bytes (b : bytes) : Z :=
  match b with
  | [] => 0
  | a :: r => Z.of_N (N_of_ascii a) + 256 * from_bytes r
  end.

(** [b.decode("utf-8")] on ASCII input, the part of UTF-8 that the model
    covers: a byte above 127 is taken to be undecodable. *)
Definition decode (b : bytes) : option string :=
  if forallb (fun a => (N_of_ascii a <? 128)%N) b
  then Some (string_of_list_ascii b) else None.

(** [bytes(s, "utf-8")] on ASCII text. *)
Definition encode (s : string) : bytes := list_ascii_of_string s.

End Py.

(** * The metadata record *)

(** [numbers_sum(tot, n)]: [tot] split in [n] parts that differ by at most
    one, the larger parts first. *)
Definition numbers_sum (tot n : Z) : list Z :=
  if (tot <=? 0) || (n <=? 0) then []
  else
    let number := tot / n in
    let remainder := tot mod n in
    replicate (Z.to_nat remainder) (number + 1)
      ++ replicate (Z.to_nat (n - remainder)) number.

(** * The objects shared between processes *)

(** A handle on a named semaphore: the name it was opened under and the
    kernel object it refers to. Unlinking removes the name; the object lives
    on for the handles that are open. *)
Record sem : Type := Sem { sem_name : string; sem_id : nat }.

#[global] Instance sem_eq_dec : EqDecision sem.
Proof. solve_decision. Defined.

(** Flags of [Semaphore(name, flags)]; the initial value is left at its
    default, 0. *)
Inductive oflag : Type := O_NONE | O_CREAT | O_CREX.

(** A control message, [{"r_id": ..., "command": ...}]. *)
Record message : Type := Msg { msg_r_id : string; msg_command : string }.

(** [platform.system()], as far as the code looks at it: ["Darwin"], or
    anything else, for which [Linux] stands. *)
Inductive platform : Type := Darwin | Linux.

Record world : Type := World {
  sem_names : gmap string nat;   (* semaphore name -> kernel object *)
  sem_vals : gmap nat nat;       (* kernel object -> count *)
  ram : bytes;                   (* frame region, [ram-T] *)
  stm : bytes;                   (* timestamp region, [stm-T] *)
  cnt : Z;                       (* reader counter, [cnt-T], one int32 *)
  mat : bytes;                   (* metadata region, [mat-T] *)
  mq : list message;             (* control channel, oldest first *)
}.

Definition set_sems (w : world) (n : gmap string nat) (v : gmap nat nat) : world :=
  World n v (ram w) (stm w) (cnt w) (mat w) (mq w).
Definition set_vals (w : world) (v : gmap nat nat) : world :=
  World (sem_names w) v (ram w) (stm w) (cnt w) (mat w) (mq w).
Definition set_ram (w : world) (b : bytes) : world :=
  World (sem_names w) (sem_vals w) b (stm w) (cnt w) (mat w) (mq w).
Definition set_stm (w : world) (b : bytes) : world :=
  World (sem_names w) (sem_vals w) (ram w) b (cnt w) (mat w) (mq w).
Definition set_cnt (w : world) (c : Z) : world :=
  World (sem_names w) (sem_vals w) (ram w) (stm w) c (mat w) (mq w).
Definition set_mat (w : world) (b : bytes) : world :=
  World (sem_names w) (sem_vals w) (ram w) (stm w) (cnt w) b (mq w).
Definition set_mq (w : world) (q : list message) : world :=
  World (sem_names w) (sem_vals w) (ram w) (stm w) (cnt w) (mat w) q.

(** The count of the semaphore behind a handle. *)
Definition count (w : world) (s : sem) : nat :=
  default 0%nat (sem_vals w !! sem_id s).

(** [numpy] arithmetic on an [int32] wraps around. *)
Definition wrap32 (z : Z) : Z := (z + 2 ^ 31) mod 2 ^ 32 - 2 ^ 31.

(** ** Atomic operations *)

(** The operations of the code on the shared objects, indexed by what they
    give back. An operation that can raise gives back [inl] of the exception. *)
Inductive action : Type -> Type :=
| Sem_open (name : string) (flags : oflag) : action (Py.exn + sem)
| Sem_await (name : string) : action sem
| Sem_unlink (name : string) : action (Py.exn + unit)
| Sem_acquire (s : sem) : action unit
| Sem_release (s : sem) : action unit
| Sem_value (s : sem) : action nat
| Ram_store (data : bytes) : action (Py.exn + unit)
| Ram_view : action nat
| Ram_copy (n : nat) : action bytes
| Stm_store (data : bytes) : action (Py.exn + unit)
| Stm_load : action bytes
| Cnt_add (d : Z) : action unit
| Cnt_load : action Z
| Mat_len : action nat
| Mat_store (data : bytes) : action (Py.exn + unit)
| Mat_load : action bytes
| Mq_send (m : message) : action unit
| Sock_send (m : message) : action unit
| Mq_recv : action message.

(** What an operation does in a state: it goes through, with a reply and a
    new state, or it has to wait for another process. *)
Inductive reply (X : Type) : Type :=
| Go (x : X) (w : world)
| Wait.
Arguments Go {X} x w.
Arguments Wait {X}.

Definition perform {X : Type} (a : action X) (w : world) : reply X :=
  match a in action X return reply X with
  | Sem_open name flags =>
      match sem_names w !! name, flags with
      | Some _, O_CREX => Go (inl Py.ExistentialError) w
      | Some i, _ => Go (inr (Sem name i)) w
      | None, O_NONE => Go (inl Py.ExistentialError) w
      | None, _ =>
          let i := fresh (dom (sem_vals w)) in
          Go (inr (Sem name i))
             (set_sems w (<[name := i]> (sem_names w)) (<[i := 0%nat]> (sem_vals w)))
      end
  | Sem_await name =>
      match sem_names w !! name with
      | Some i => Go (Sem name i) w
      | None => Wait
      end
  | Sem_unlink name =>
      match sem_names w !! name with
      | Some _ => Go (inr tt) (set_sems w (delete name (sem_names w)) (sem_vals w))
      | None => Go (inl Py.ExistentialError) w
      end
  | Sem_acquire s =>
      match count w s with
      | O => Wait
      | S c => Go tt (set_vals w (<[sem_id s := c]> (sem_vals w)))
      end
  | Sem_release s =>
      Go tt (set_vals w (<[sem_id s := S (count w s)]> (sem_vals w)))
  | Sem_value s => Go (count w s) w
  | Ram_store data =>
      if decide (length data = length (ram w)) then Go (inr tt) (set_ram w data)
      else Go (inl Py.ValueError) w
  | Ram_view => Go (length (ram w)) w
  | Ram_copy n => Go (take n (ram w)) w
  | Stm_store data =>
      if decide (length data = length (take 8 (stm w)))
      then Go (inr tt) (set_stm w (data ++ drop 8 (stm w)))
      else Go (inl Py.ValueError) w
  | Stm_load => Go (take 8 (stm w)) w
  | Cnt_add d => Go tt (set_cnt w (wrap32 (cnt w + d)))
  | Cnt_load => Go (cnt w) w
  | Mat_len => Go (length (mat w)) w
  | Mat_store data =>
      if decide (length data = length (mat w)) then Go (inr tt) (set_mat w data)
      else Go (inl Py.ValueError) w
  | Mat_load => Go (mat w) w
  | Mq_send m =>
      match mq w with
      | [] => Go tt (set_mq w [m])
      | _ :: _ => Wait
      end
  | Sock_send m => Go tt (set_mq w (mq w ++ [m]))
  | Mq_recv =>
      match mq w with
      | [] => Wait
      | m :: q => Go m (set_mq w q)
      end
  end.

(** ** Programs *)

Inductive prog (A : Type) : Type :=
| Done (a : A)
| Throw (e : Py.exn)
| Act {X : Type} (a : action X) (k : X -> prog A).
Arguments Done {A} a.
Arguments Throw {A} e.
Arguments Act {A X} a k.

Fixpoint bind {A B : Type} (p : prog A) (f : A -> prog B) : prog B :=
  match p with
  | Done a => f a
  | Throw e => Throw e
  | Act a k => Act a (fun x => bind (k x) f)
  end.

(** [try: p except: h]. *)
Fixpoint try_except {A : Type} (p : prog A) (h : Py.exn -> prog A) : prog A :=
  match p with
  | Done a => Done a
  | Throw e => h e
  | Act a k => Act a (fun x => try_except (k x) h)
  end.

Notation "x ← p ; q" := (bind p (fun x => q))
  (at level 20, p at level 100, q at level 200, right associativity,
   only parsing).
Notation "p ;; q" := (bind p (fun _ => q))
  (at level 100, q at level 200, right associativity).

(** An operation that cannot raise. *)
Definition act {X : Type} (a : action X) : prog X := Act a Done.

(** An operation that can raise. *)
Definition act_raising {X : Type} (a : action (Py.exn + X)) : prog X :=
  Act a (fun r => match r with inl e => Throw e | inr x => Done x end).

Definition of_option {X : Type} (e : Py.exn) (o : option X) : prog X :=
  match o with Some x => Done x | None => Throw e end.

(** An operation that went through, with its reply. *)
Inductive event : Type :=
| Ev {X : Type} (a : action X) (x : X).

Inductive outcome (A : Type) : Type :=
| Returned (a : A) (w : world)
| Raised (e : Py.exn) (w : world)
| Blocked (w : world) (rest : prog A).
Arguments Returned {A} a w.
Arguments Raised {A} e w.
Arguments Blocked {A} w rest.

(** Runs a program until it returns, raises, or has to wait. *)
Fixpoint exec {A : Type} (p : prog A) (w : world) : outcome A :=
  match p with
  | Done a => Returned a w
  | Throw e => Raised e w
  | Act a k =>
      match perform a w with
      | Go x w' => exec (k x) w'
      | Wait => Blocked w p
      end
  end.

(** The operations that went through in that run, in order. *)
Fixpoint trace {A : Type} (p : prog A) (w : world) : list event :=
  match p with
  | Done _ | Throw _ => []
  | Act a k =>
      match perform a w with
      | Go x w' => Ev a x :: trace (k x) w'
      | Wait => []
      end
  end.

(** Runs at most [n] operations and gives what is left to run. *)
Fixpoint steps {A : Type} (n : nat) (p : prog A) (w : world) : prog A * world :=
  match n, p with
  | S n', Act a k =>
      match perform a w with
      | Go x w' => steps n' (k x) w'
      | Wait => (p, w)
      end
  | _, _ => (p, w)
  end.

(** * [SharedFrame] *)

(** [mode] of a [SharedFrame]: ["w"] for the publisher, ["r"] for a
    subscriber. *)
Inductive open_mode : Type := ModeW | ModeR.

(** What a process holds of a topic: the attributes of its [SharedFrame]
    object. [shape] is set by [_deserialize] only, so a publisher has none.
    [dtype] is the dtype name; in a subscriber it stands for the attribute of
    [numpy] of that name, which [_deserialize] looked up. [sems_lock], which
    keeps the threads of one process apart, has no state here: a method is
    run without another thread of its own process in between. Console output
    is left out. *)
Record SharedFrame : Type := Frame {
  name : string;
  mode : open_mode;
  sems : gmap string sem;
  ram_sem : sem;
  stm_sem : sem;
  cnt_sem : sem;
  mat_sem : sem;
  shape : option (list Z);
  dtype : string;
}.

Definition set_registry (self : SharedFrame) (r : gmap string sem) : SharedFrame :=
  Frame (name self) (mode self) r (ram_sem self) (stm_sem self) (cnt_sem self)
        (mat_sem self) (shape self) (dtype self).

Definition set_meta (self : SharedFrame) (sh : list Z) (dt : string) : SharedFrame :=
  Frame (name self) (mode self) (sems self) (ram_sem self) (stm_sem self)
        (cnt_sem self) (mat_sem self) (Some sh) dt.

(** What [read] returns first: a fresh array of the given shape and dtype
    over a copy of the frame bytes. *)
Record ndarray : Type := Ndarray {
  arr_shape : list Z;
  arr_dtype : string;
  arr_data : bytes;
}.

(** [f"sem-{self.name}-{r_id}"]. *)
Definition wake_name (topic r_id : string) : string :=
  "sem-" +:+ topic +:+ "-" +:+ r_id.

(** [f"{res}-sem-{name}"]. *)
Definition region_sem_name (res topic : string) : string :=
  res +:+ "-sem-" +:+ topic.

Definition Semaphore (nm : string) (flags : oflag) : prog sem :=
  act_raising (Sem_open nm flags).
Definition unlink (s : sem) : prog unit := act_raising (Sem_unlink (sem_name s)).
Definition acquire (s : sem) : prog unit := act (Sem_acquire s).
Definition release (s : sem) : prog unit := act (Sem_release s).
Definition value (s : sem) : prog nat := act (Sem_value s).

(** [l[i]] for a list of integers, a negative [i] counting from the end. *)
Definition index (l : list Z) (i : Z) : prog Z :=
  let j := if i <? 0 then Z.of_nat (length l) + i else i in
  if j <? 0 then Throw Py.IndexError
  else of_option Py.IndexError (l !! Z.to_nat j).

(** [map(int, parts)], forced by [list]. *)
Fixpoint ints (parts : list string) : option (list Z) :=
  match parts with
  | [] => Some []
  | p :: rest =>
      match Py.int p with
      | Some n => cons n <$> ints rest
      | None => None
      end
  end.

(** [np.prod(shape)] of the dimensions, here without overflow. *)
Definition np_prod (sh : list Z) : Z := foldr Z.mul 1 sh.

Section Methods.

(** [platform.system()] of the host. *)
Variable system : platform.

(** The [numpy] module, as far as [SharedFrame] looks into it: whether
    [getattr(np, name)] finds an attribute, and, when that attribute can be the
    dtype of an array, the size in bytes of one element. *)
Variable np_hasattr : string -> bool.
Variable np_itemsize : string -> option nat.

(** [CommMech.send]: on Darwin a publisher's [CommMech] has no [connection]
    attribute, and a subscriber's message reaches the queue of the listener
    (its socket taken to be connected, each message arriving in one piece);
    elsewhere the message goes to the one-slot POSIX queue. *)
Definition comm_send (md : open_mode) (m : message) : prog unit :=
  match system, md with
  | Darwin, ModeW => Throw Py.AttributeError
  | Darwin, ModeR => act (Sock_send m)
  | Linux, _ => act (Mq_send m)
  end.

(** [CommMech.recv]. *)
Definition comm_recv : prog message := act Mq_recv.

Definition _crea_sem (nm : string) : prog sem :=
  s ← try_except (Semaphore nm O_CREX)
        (fun e =>
           match e with
           | Py.ExistentialError =>
               s0 ← Semaphore nm O_CREAT;
               unlink s0;;
               Semaphore nm O_CREX
           | _ => Throw e
           end);
  release s;;
  Done s.

(** [_crex_sem]: the loop tries [Semaphore(name)] again and again until the
    name is there, sleeping in between and doing nothing else: it is an open
    that waits while the name is missing. *)
Definition _crex_sem (nm : string) : prog sem := act (Sem_await nm).

Definition _serialize (self : SharedFrame) (sh : list Z) (dt : string) : prog unit :=
  acquire (mat_sem self);;
  size ← act Mat_len;
  let fill_up_size := numbers_sum (Z.of_nat size) 2 in
  w0 ← index fill_up_size 0;
  w1 ← index fill_up_size (-1);
  act_raising
    (Mat_store
       (Py.encode
          (Py.ljust (Py.join "x" (Py.str <$> sh)) (Z.to_nat w0) "*"
             +:+ "|" +:+ Py.ljust dt (Z.to_nat (w1 - 1)) "*")));;
  release (mat_sem self).

Definition _deserialize (self : SharedFrame)
  : prog (SharedFrame * (list Z * string)) :=
  acquire (mat_sem self);;
  b ← act Mat_load;
  text ← of_option Py.UnicodeDecodeError (Py.decode b);
  match Py.split "|" (Py.remove_char "*" text) with
  | [sh; dt] =>
      sh' ← of_option Py.ValueError (ints (Py.split "x" sh));
      (if np_hasattr dt then Done tt else Throw Py.AttributeError);;
      release (mat_sem self);;
      Done (set_meta self sh' dt, (sh', dt))
  | _ => Throw Py.ValueError
  end.

Definition signin (self : SharedFrame) (r_id : string) : prog SharedFrame :=
  match mode self with
  | ModeR =>
      comm_send ModeR (Msg r_id "signin");;
      s ← _crex_sem (wake_name (name self) r_id);
      Done (set_registry self (<[r_id := s]> (sems self)))
  | ModeW =>
      s ← _crea_sem (wake_name (name self) r_id);
      Done (set_registry self (<[r_id := s]> (sems self)))
  end.

Definition signout (self : SharedFrame) (r_name : string) : prog SharedFrame :=
  try_except
    (match sems self !! r_name with
     | Some s =>
         unlink s;;
         comm_send (mode self) (Msg r_name "signout");;
         Done (set_registry self (delete r_name (sems self)))
     | None => Done self
     end)
    (fun _ => Done self).

(** One turn of the loop of [dsync]. *)
Definition dsync_step (self : SharedFrame) : prog SharedFrame :=
  msg ← comm_recv;
  self1 ← (if decide (msg_command msg = "signin")
           then signin self (msg_r_id msg) else Done self);
  if decide (msg_command msg = "signout")
  then signout self1 (msg_r_id msg) else Done self1.

(** The loop of [write] over [list(self.sems.keys())]. *)
Fixpoint fanout (self : SharedFrame) (keys : list string) : prog unit :=
  match keys with
  | [] => Done tt
  | k :: rest =>
      match sems self !! k with
      | Some s =>
          match system with
          | Darwin => release s
          | Linux =>
              v ← value s;
              if (0 <? v)%nat then Done tt else release s
          end
      | None => Done tt
      end;;
      fanout self rest
  end.

(** [write(data, stm)], [data] given by its bytes ([data] itself for a
    [bytearray], [data.tobytes()] otherwise). The fan-out goes over the keys
    in the order of [map_to_list], which need not be the insertion order of
    the [dict]; no result below depends on the order. *)
Definition write (self : SharedFrame) (data : bytes) (ts : Z) : prog unit :=
  acquire (ram_sem self);;
  act_raising (Ram_store data);;
  b ← of_option Py.OverflowError (Py.to_bytes ts 8);
  act_raising (Stm_store b);;
  release (ram_sem self);;
  fanout self (fst <$> map_to_list (sems self)).

(** [np.ndarray(shape=self.shape, dtype=self.dtype, buffer=self.ram)]: a view
    on the frame region, no byte of which is read yet. Gives the number of
    bytes that the view covers. *)
Definition ndarray_view (self : SharedFrame) : prog (list Z * nat) :=
  sh ← of_option Py.AttributeError (shape self);
  (if forallb (fun d => 0 <=? d) sh then Done tt else Throw Py.ValueError);;
  item ← of_option Py.TypeError (np_itemsize (dtype self));
  len ← act Ram_view;
  let n := (Z.to_nat (np_prod sh) * item)%nat in
  if (n <=? len)%nat then Done (sh, n) else Throw Py.TypeError.

Definition read (self : SharedFrame) (r_id : string) : prog (ndarray * Z) :=
  s ← of_option Py.KeyError (sems self !! r_id);
  acquire s;;
  acquire (cnt_sem self);;
  act (Cnt_add 1);;
  c ← act Cnt_load;
  (if c =? 1 then acquire (ram_sem self) else Done tt);;
  release (cnt_sem self);;
  data ← ndarray_view self;
  b ← act Stm_load;
  let ts := Py.from_bytes b in
  acquire (cnt_sem self);;
  act (Cnt_add (-1));;
  c' ← act Cnt_load;
  (if c' =? 0 then release (ram_sem self) else Done tt);;
  release (cnt_sem self);;
  copy ← act (Ram_copy (snd data));
  Done (Ndarray (fst data) (dtype self) copy, ts).

End Methods.

(** [frame_bytes] of the topic: the size the frame region was created with,
    [int(np.prod(shape) * getattr(np, dtype)().nbytes)]. *)
Definition frame_bytes (w : world) : nat := length (ram w).

(** [write] called again and again, as a sensor loop does. *)
Fixpoint writes (system : platform) (self : SharedFrame)
    (frames : list (bytes * Z)) : prog unit :=
  match frames with
  | [] => Done tt
  | (data, ts) :: rest => write system self data ts;; writes system self rest
  end.

(** The state in which a [write] that got through its stores starts the
    fan-out: the frame semaphore taken (count [c]) and given back, the frame
    region holding [data], the timestamp region holding [b]. *)
Definition written (self : SharedFrame) (w : world) (c : nat) (data b : bytes)
  : world :=
  World (sem_names w)
    (<[sem_id (ram_sem self) := S c]>
       (<[sem_id (ram_sem self) := c]> (sem_vals w)))
    data (b ++ drop 8 (stm w)) (cnt w) (mat w) (mq w).

(** The dtype names of the specification. *)
Inductive supported : Type := U8 | I16 | I32 | I64 | F32 | F64.

Definition dtype_name (d : supported) : string :=
  match d with
  | U8 => "uint8" | I16 => "int16" | I32 => "int32"
  | I64 => "int64" | F32 => "float32" | F64 => "float64"
  end.

(** * The text of the metadata record *)

(** ['x'.join(map(str, shape))]. *)
Definition shape_text (sh : list Z) : string := Py.join "x" (Py.str <$> sh).

(** The characters of a shape text. *)
Definition shape_char (a : ascii) : bool := Py.is_digit a || Ascii.eqb a "x".

(** The text that [_serialize] builds for the widths [w0] and [w1] of the
    two padded fields. *)
Definition record_text (sh : list Z) (dt : string) (w0 w1 : nat) : string :=
  Py.ljust (shape_text sh) w0 "*" +:+ "|" +:+ Py.ljust dt w1 "*".

(** The layout of the record in the words of the specification: a first
    half of width 21 with the shape, one separator, the dtype name padded to
    width 18. *)
Definition spec_record (sh : list Z) (dt : string) : bytes :=
  Py.encode (record_text sh dt 21 18).

(** The publisher writes the record ([__init__], mode ["w"]), a subscriber
    that joins reads it ([__init__], mode ["r"]). *)
Definition metadata_roundtrip (np_hasattr : string -> bool)
    (pub sub : SharedFrame) (sh : list Z) (dt : string)
  : prog (SharedFrame * (list Z * string)) :=
  _serialize pub sh dt;; _deserialize np_hasattr sub.

(** * A topic to run the code on *)

(** The topic of the first scenario of the specification: [t1], shape
    [(2, 2)], dtype [uint8], one subscriber [aaaa]; and the part of the
    namespace of [numpy] that holds its fixed-size scalar types. *)
Module T1.

Definition numpy_scalars : list (string * nat) :=
  [ ("bool_", 1); ("int8", 1); ("uint8", 1); ("int16", 2); ("uint16", 2);
    ("int32", 4); ("uint32", 4); ("int64", 8); ("uint64", 8);
    ("float16", 2); ("float32", 4); ("float64", 8);
    ("complex64", 8); ("complex128", 16) ]%nat.

Definition np_itemsize (nm : string) : option nat :=
  (list_to_map numpy_scalars : gmap string nat) !! nm.

Definition np_hasattr (nm : string) : bool :=
  bool_decide (is_Some (np_itemsize nm)).

Definition ram_s : sem := Sem "ram-sem-t1" 0.
Definition stm_s : sem := Sem "stm-sem-t1" 1.
Definition cnt_s : sem := Sem "cnt-sem-t1" 2.
Definition mat_s : sem := Sem "mat-sem-t1" 3.
Definition wake : sem := Sem "sem-t1-aaaa" 4.

Definition zeros (n : nat) : bytes := replicate n "000"%char.

(** The topic right after the publisher came up and [aaaa] signed in. *)
Definition w0 : world :=
  World
    (list_to_map
       ((fun s => (sem_name s, sem_id s)) <$> [ram_s; stm_s; cnt_s; mat_s; wake]))
    (list_to_map
       ((fun s => (sem_id s, 1%nat)) <$> [ram_s; stm_s; cnt_s; mat_s; wake]))
    (zeros 4) (zeros 8) 0
    (Py.encode "2x2*****************|uint8**************") [].

Definition pub : SharedFrame :=
  Frame "t1" ModeW {["aaaa" := wake]} ram_s stm_s cnt_s mat_s None "uint8".

Definition sub : SharedFrame :=
  Frame "t1" ModeR {["aaaa" := wake]} ram_s stm_s cnt_s mat_s (Some [2; 2]) "uint8".

(** The topic before anybody signed in, and the two processes then. *)
Definition w_up : world :=
  World
    (list_to_map
       ((fun s => (sem_name s, sem_id s)) <$> [ram_s; stm_s; cnt_s; mat_s]))
    (list_to_map
       ((fun s => (sem_id s, 1%nat)) <$> [ram_s; stm_s; cnt_s; mat_s]))
    (zeros 4) (zeros 8) 0
    (Py.encode "2x2*****************|uint8**************") [].

Definition pub_up : SharedFrame :=
  Frame "t1" ModeW ∅ ram_s stm_s cnt_s mat_s None "uint8".

Definition sub_up : SharedFrame :=
  Frame "t1" ModeR ∅ ram_s stm_s cnt_s mat_s (Some [2; 2]) "uint8".

Definition frame1 : bytes := ["001"; "002"; "003"; "004"]%char.
Definition frame2 : bytes := ["005"; "006"; "007"; "008"]%char.
(** Four positive dimensions whose text has 27 characters. *)
Definition long_shape : list Z := [100000; 100000; 100000; 100000].

Definition short : bytes := ["001"; "002"; "003"]%char.

End T1.

(** * A topic at rest *)

(** The state of a topic between two operations, seen from a publisher
    [pub] and a subscriber [sub] with id [r_id] whose [numpy] gives
    [np_itemsize]: no reader is inside ([cnt] is 0), so the counter and frame
    semaphores are free; [r_id] is registered with the subscriber and its wake
    semaphore [wake] is available; the three semaphores that [read] takes are
    three kernel objects; the timestamp region has its 8 bytes; and the frame
    region has the size of the declared shape [sh] and dtype. *)
Record at_rest (np_itemsize : string -> option nat)
    (pub sub : SharedFrame) (r_id : string) (wake : sem) (sh : list Z)
    (w : world) : Prop := AtRest {
  rest_cnt : cnt w = 0;
  rest_registered : sems sub !! r_id = Some wake;
  rest_wake : (0 < count w wake)%nat;
  rest_cnt_sem : (0 < count w (cnt_sem sub))%nat;
  rest_ram_sem : (0 < count w (ram_sem sub))%nat;
  rest_pub_sem : (0 < count w (ram_sem pub))%nat;
  rest_wake_cnt : sem_id wake ≠ sem_id (cnt_sem sub);
  rest_wake_ram : sem_id wake ≠ sem_id (ram_sem sub);
  rest_cnt_ram : sem_id (cnt_sem sub) ≠ sem_id (ram_sem sub);
  rest_stm : length (stm w) = 8%nat;
  rest_shape : shape sub = Some sh;
  rest_dims : Forall (fun d => 0 < d) sh;
  rest_size :
    exists item, np_itemsize (dtype sub) = Some item
                 /\ (Z.to_nat (np_prod sh) * item)%nat = frame_bytes w;
}.

(** * Coming up *)

(** The loop of [__init__] over [self.meta], mode ["w"], that creates the
    four region semaphores. *)
Definition init_region_sems (topic : string) : prog (sem * sem * sem * sem) :=
  a ← _crea_sem (region_sem_name "ram" topic);
  b ← _crea_sem (region_sem_name "stm" topic);
  c ← _crea_sem (region_sem_name "cnt" topic);
  d ← _crea_sem (region_sem_name "mat" topic);
  Done (a, b, c, d).

(** The state that [_crea_sem] leaves: a new kernel object, count 1, under
    the name. *)
Definition created (w : world) (nm : string) : sem * world :=
  let i := fresh (dom (sem_vals w)) in
  (Sem nm i,
   set_sems w (<[nm := i]> (sem_names w)) (<[i := 1%nat]> (sem_vals w))).

(** * More of the code *)

(** How many of the keys are registered with a semaphore on the kernel
    object [i]: the number of times the fan-out of [write] gets to it. *)
Fixpoint hits (self : SharedFrame) (i : nat) (keys : list string) : nat :=
  match keys with
  | [] => O
  | k :: rest =>
      (match sems self !! k with
       | Some s => if decide (sem_id s = i) then 1 else 0
       | None => 0
       end + hits self i rest)%nat
  end.

(** The registered semaphores are different kernel objects, as they are when
    each was created under its own name. *)
Definition distinct_objects (self : SharedFrame) : Prop :=
  NoDup ((fun p => sem_id (snd p)) <$> map_to_list (sems self)).

(** More processes on the topic [t1]. *)
Module More.

(** A subscriber whose shape asks for more bytes than the frame region has. *)
Definition sub_wide : SharedFrame :=
  Frame "t1" ModeR {["aaaa" := T1.wake]} T1.ram_s T1.stm_s T1.cnt_s T1.mat_s
        (Some [4; 4]) "uint8".

(** The topic [t1] while the publisher is coming up: the regions and the
    region semaphores are there, the metadata record is not written yet. *)
Definition w_fresh : world := set_mat T1.w_up (T1.zeros 40).

(** The topic [t1] while another reader is inside: the counter is 1 and the
    frame semaphore is held. *)
Definition w_inside : world :=
  set_vals (set_cnt T1.w0 1) (<[sem_id T1.ram_s := O]> (sem_vals T1.w0)).

End More.


(** * [Client] *)

(** [client.py]: the subscriber process. A [Client] asks for topics
    ([request]), keeps for each a ring of the last frames, filled by a thread
    that reads the topic again and again ([retrive]), and hands the newest
    frame, or the whole ring, to its user ([latest]). *)
Module client.

(** A [collections.deque] with [maxlen]: the items, oldest first. *)
Record deque (A : Type) : Type := Deque {
  maxlen : nat;
  items : list A;
}.
Arguments Deque {A} maxlen items.
Arguments maxlen {A} d.
Arguments items {A} d.

(** [d.append(x)]: when the deque is full the oldest item goes. *)
Definition append {A : Type} (d : deque A) (x : A) : deque A :=
  Deque (maxlen d)
    (drop (length (items d) + 1 - maxlen d) (items d ++ [x])).

(** The attributes of a [Client] that its methods use. A [threading.Lock] of
    [update] is [true] while it is locked. *)
Record Client : Type := MkClient {
  id : string;
  resources : gmap string SharedFrame;
  res : gmap string (deque (ndarray * Z));
  update : gmap string bool;
  concat : gmap string bool;
  running : bool;
}.

Definition set_resources (self : Client) (r : gmap string SharedFrame) : Client :=
  MkClient (id self) r (res self) (update self) (concat self) (running self).
Definition set_res (self : Client) (r : gmap string (deque (ndarray * Z))) : Client :=
  MkClient (id self) (resources self) r (update self) (concat self) (running self).
Definition set_update (self : Client) (u : gmap string bool) : Client :=
  MkClient (id self) (resources self) (res self) u (concat self) (running self).
Definition set_concat (self : Client) (c : gmap string bool) : Client :=
  MkClient (id self) (resources self) (res self) (update self) c (running self).

(** What a method that takes a lock of the process gives: a value, an
    exception, or nothing yet, the lock being held. The attributes of the
    client come with the first two. *)
Inductive answer (A : Type) : Type :=
| Gives (a : A) (self : Client)
| Raises (e : Py.exn) (self : Client)
| Waits.
Arguments Gives {A} a self.
Arguments Raises {A} e self.
Arguments Waits {A}.

(** What [latest] returns: [np.stack] of the arrays of the ring, oldest
    first, or the newest item of the ring. *)
Inductive frames : Type :=
| Stacked (arrays : list ndarray)
| Last (item : ndarray * Z).

Section Methods.

Variable system : platform.
Variable np_itemsize : string -> option nat.

(** [SharedFrame(model, mode="r")], the constructor on the subscriber side. *)
Variable SharedFrame_r : string -> prog SharedFrame.

(** [np.zeros(shape, dtype)]. *)
Definition np_zeros (sh : option (list Z)) (dt : string) : prog ndarray :=
  sh' ← of_option Py.AttributeError sh;
  (if forallb (fun d => 0 <=? d) sh' then Done tt else Throw Py.ValueError);;
  item ← of_option Py.TypeError (np_itemsize dt);
  Done (Ndarray sh' dt (replicate (Z.to_nat (np_prod sh') * item) "000"%char)).

(** [request(model, buf)], [buf] being [None] or an integer. *)
Definition request (self : Client) (model : string) (buf : option Z)
  : prog Client :=
  let not_buf := match buf with None => true | Some b => b =? 0 end in
  let buf' := if not_buf then 10 else default 0 buf in
  let self1 :=
    if not_buf then self else set_concat self (<[model := true]> (concat self)) in
  frame ← SharedFrame_r model;
  frame' ← signin system frame (id self1);
  let self2 := set_resources self1 (<[model := frame']> (resources self1)) in
  let self3 := set_update self2 (<[model := true]> (update self2)) in
  ring ← (if 0 <? buf'
          then z ← np_zeros (shape frame') (dtype frame');
               Done ((fun i => (z, Z.of_nat i)) <$> seq 0 (Z.to_nat buf'))
          else Done []);
  (if buf' <? 0 then Throw Py.ValueError else Done tt);;
  Done (set_res self3 (<[model := Deque (Z.to_nat buf') ring]> (res self3))).

(** The body of the loop of [retrive]: the new client, and whether the loop
    goes on ([false] after a [break]). *)
Definition retrive_body (self : Client) (model : string) : prog (Client * bool) :=
  r ← try_except
        (frame ← of_option Py.KeyError (resources self !! model);
         v ← read np_itemsize frame (id self);
         d ← of_option Py.KeyError (res self !! model);
         Done (Some (v, d)))
        (fun _ => Done None);
  match r with
  | None => Done (self, false)
  | Some (v, d) =>
      let self1 := set_res self (<[model := append d v]> (res self)) in
      match update self1 !! model with
      | None => Done (self1, false)
      | Some _ =>
          Done (set_update self1 (<[model := false]> (update self1)), true)
      end
  end.

(** [retrive(model)], at most [n] turns of its loop: the new client, and
    whether the loop is still going on after them. *)
Fixpoint retrive (n : nat) (self : Client) (model : string)
  : prog (Client * bool) :=
  match n with
  | O => Done (self, running self)
  | S n' =>
      if running self
      then r ← retrive_body self model;
           if snd r then retrive n' (fst r) model else Done r
      else Done (self, false)
  end.

(** [latest(model)]. *)
Definition latest (self : Client) (model : string) : answer frames :=
  match update self !! model with
  | None => Raises Py.KeyError self
  | Some true => Waits
  | Some false =>
      let self1 := set_update self (<[model := true]> (update self)) in
      if default false (concat self1 !! model)
      then match res self1 !! model with
           | None => Raises Py.KeyError self1
           | Some d =>
               match items d with
               | [] => Raises Py.ValueError self1
               | l => Gives (Stacked (fst <$> l)) self1
               end
           end
      else match res self1 !! model with
           | None => Raises Py.KeyError self1
           | Some d =>
               match last (items d) with
               | None => Raises Py.IndexError self1
               | Some x => Gives (Last x) self1
               end
           end
  end.

End Methods.

End client.

(** Clients of the topic [t1]. *)
Module Clients.

Definition zeros4 : ndarray := Ndarray [2; 2] "uint8" (T1.zeros 4).

(** A client before its first [request]. *)
Definition newcomer : client.Client :=
  client.MkClient "aaaa" ∅ ∅ ∅ ∅ true.

(** The ring that [request] makes. *)
Definition ring (n : nat) : client.deque (ndarray * Z) :=
  client.Deque n ((fun i => (zeros4, Z.of_nat i)) <$> seq 0 n).

(** A client that requested [t1] without [buf]. *)
Definition reader : client.Client :=
  client.MkClient "aaaa" {["t1" := T1.sub]} {["t1" := ring 10]}
    {["t1" := true]} ∅ true.

(** A client that requested [t1] with [buf = 2]. *)
Definition stacker : client.Client :=
  client.MkClient "aaaa" {["t1" := T1.sub]} {["t1" := ring 2]}
    {["t1" := true]} {["t1" := true]} true.

End Clients.

(** * [hl2ss.py]: the packets of a sensor stream *)

(** A sensor sends its data as packets: a header of twelve bytes (the
    timestamp, 8 bytes, and the length of the payload, 4 bytes, little
    endian), the payload and, in mode 1, the sixteen [float32] of the pose.
    [unpacker] cuts the byte stream back into packets; [gatherer] feeds it
    from the socket, and [Sensor.run] hands what it gets to [write]. *)
Module hl2ss.

Inductive StreamMode : Type := MODE_0 | MODE_1 | MODE_2.

(** A [packet]. Each attribute can be [None]; a pose is held by the bytes
    of its array, [pose.tobytes()]. *)
Record packet : Type := Packet {
  timestamp : option Z;
  payload : option bytes;
  pose : option bytes;
}.

(** [struct.pack('<QI', a, b)]; [None] stands for [struct.error]. *)
Definition struct_pack_QI (a b : Z) : option bytes :=
  match Py.to_bytes a 8, Py.to_bytes b 4 with
  | Some x, Some y => Some (x ++ y)
  | _, _ => None
  end.

(** [struct.unpack('<QI', b)]; [None] stands for [struct.error]. *)
Definition struct_unpack_QI (b : bytes) : option (Z * Z) :=
  if decide (length b = 12%nat)
  then Some (Py.from_bytes (take 8 b), Py.from_bytes (drop 8 b))
  else None.

(** [packet.pack(mode)]; [None] when it raises. *)
Definition pack (self : packet) (mode : StreamMode) : option bytes :=
  match timestamp self, payload self with
  | Some ts, Some pl =>
      match struct_pack_QI ts (Z.of_nat (length pl)) with
      | Some header =>
          match mode with
          | MODE_1 =>
              match pose self with
              | Some ps => Some (header ++ pl ++ ps)
              | None => None
              end
          | _ => Some (header ++ pl)
          end
      | None => None
      end
  | _, _ => None
  end.

Record unpacker : Type := Unpacker {
  _mode : StreamMode;
  _state : Z;
  _buffer : bytes;
  _timestamp : option Z;
  _size : option Z;
  _payload : option bytes;
  _pose : option bytes;
}.

(** [unpacker(mode)]. *)
Definition new (mode : StreamMode) : unpacker :=
  Unpacker mode 0 [] None None None None.

Definition extend (self : unpacker) (chunk : bytes) : unpacker :=
  Unpacker (_mode self) (_state self) (_buffer self ++ chunk)
    (_timestamp self) (_size self) (_payload self) (_pose self).

(** [b[lo:hi]] for indices that are not negative. *)
Definition slice (b : bytes) (lo hi : Z) : bytes :=
  drop (Z.to_nat lo) (take (Z.to_nat hi) b).

(** The turn of the loop of [unpack] in state 1, [length] being the length
    of the buffer. [None] stands for an exception. *)
Definition unpack_payload (self : unpacker) (length : Z)
  : option (unpacker * bool) :=
  match _size self with
  | None => None
  | Some size =>
      if size <=? length
      then
        let payload_end :=
          match _mode self with MODE_1 => size - 64 | _ => size end in
        let pose' :=
          match _mode self with
          | MODE_1 => Some (slice (_buffer self) payload_end size)
          | _ => _pose self
          end in
        Some (Unpacker (_mode self) 0 (drop (Z.to_nat size) (_buffer self))
                (_timestamp self) (_size self)
                (Some (slice (_buffer self) 12 payload_end)) pose',
              true)
      else Some (self, false)
  end.

(** [unpack()]: the new state and what is returned. The loop takes a second
    turn only where it reaches [continue], right after [_state] became 1:
    that turn is [unpack_payload]. *)
Definition unpack (self : unpacker) : option (unpacker * bool) :=
  let length := Z.of_nat (length (_buffer self)) in
  if _state self =? 0
  then
    if 12 <=? length
    then
      match struct_unpack_QI (take 12 (_buffer self)) with
      | Some (ts, n) =>
          let size :=
            match _mode self with MODE_1 => 12 + n + 64 | _ => 12 + n end in
          unpack_payload
            (Unpacker (_mode self) 1 (_buffer self) (Some ts) (Some size)
               (_payload self) (_pose self))
            length
      | None => None
      end
    else Some (self, false)
  else if _state self =? 1 then unpack_payload self length
  else Some (self, false).

Definition get (self : unpacker) : packet :=
  Packet (_timestamp self) (_payload self) (_pose self).

(** [gatherer.get_next_packet()]. [incoming] holds the chunks that [recv]
    gives, call after call, until the peer closes, when [recv] raises, as it
    does on an empty chunk. The packet comes with the new unpacker and the
    chunks that are left; [None] stands for an exception. *)
Fixpoint get_next_packet (self : unpacker) (incoming : list bytes)
  : option (packet * unpacker * list bytes) :=
  match incoming with
  | [] => None
  | chunk :: rest =>
      match chunk with
      | [] => None
      | _ :: _ =>
          match unpack (extend self chunk) with
          | Some (self', true) => Some (get self', self', rest)
          | Some (self', false) => get_next_packet self' rest
          | None => None
          end
      end
  end.

End hl2ss.

(** A sensor stream for the topic [t1]. *)
Module Stream.

(** Two packets that carry the frames of [t1], and their bytes in mode 0. *)
Definition p1 : hl2ss.packet := hl2ss.Packet (Some 100) (Some T1.frame1) None.
Definition p2 : hl2ss.packet := hl2ss.Packet (Some 101) (Some T1.frame2) None.
Definition wire1 : bytes := default [] (hl2ss.pack p1 hl2ss.MODE_0).
Definition wire2 : bytes := default [] (hl2ss.pack p2 hl2ss.MODE_0).

(** The first packet in two chunks, the second of which brings the first
    three bytes of the next packet. *)
Definition head : bytes := take 5 wire1.
Definition tail : bytes := drop 5 wire1 ++ take 3 wire2.

End Stream.
(** * Facts about text *)

Module PyFacts.
Import Py.

Lemma append_cons (a : ascii) (s t : string) :
  String a s +:+ t = String a (s +:+ t).
Proof. reflexivity. Qed.

Lemma append_empty_r (s : string) : s +:+ "" = s.
Proof. induction s as [|a s IH]; [reflexivity|]. rewrite append_cons, IH. reflexivity. Qed.

Lemma append_assoc (s t u : string) : (s +:+ t) +:+ u = s +:+ (t +:+ u).
Proof.
  induction s as [|a s IH]; [reflexivity|]. rewrite !append_cons, IH. reflexivity.
Qed.

Lemma length_append (s t : string) :
  String.length (s +:+ t) = (String.length s + String.length t)%nat.
Proof.
  induction s as [|a s IH]; [reflexivity|]. rewrite append_cons. simpl. rewrite IH. reflexivity.
Qed.

Lemma length_repeat_char (c : ascii) (n : nat) : String.length (repeat_char c n) = n.
Proof. induction n as [|n IH]; simpl; [|rewrite IH]; reflexivity. Qed.

Lemma length_ljust (s : string) (width : nat) (c : ascii) :
  (String.length s <= width)%nat -> String.length (ljust s width c) = width.
Proof. intros H. unfold ljust. rewrite length_append, length_repeat_char. lia. Qed.

Lemma length_encode (s : string) : length (encode s) = String.length s.
Proof. induction s as [|a s IH]; simpl; [|rewrite IH]; reflexivity. Qed.

Lemma decode_encode (s : string) : isascii s = true -> decode (encode s) = Some s.
Proof.
  intros H. unfold decode, encode.
  assert (forallb (fun a => (N_of_ascii a <? 128)%N) (list_ascii_of_string s) = true) as ->.
  { induction s as [|a s IH]; [reflexivity|].
    cbn [list_ascii_of_string forallb]. unfold isascii in H. cbn [all_chars] in H.
    apply andb_prop in H as [-> H]. apply IH. exact H. }
  rewrite string_of_list_ascii_of_string. reflexivity.
Qed.

Lemma all_chars_append p s t :
  all_chars p (s +:+ t) = all_chars p s && all_chars p t.
Proof.
  induction s as [|a s IH]; [reflexivity|].
  rewrite append_cons. cbn [all_chars]. rewrite IH, andb_assoc. reflexivity.
Qed.

Lemma all_chars_repeat p c n : p c = true -> all_chars p (repeat_char c n) = true.
Proof. intros H. induction n as [|n IH]; [reflexivity|]. cbn. rewrite H, IH. reflexivity. Qed.

Lemma all_chars_weaken (p q : ascii -> bool) s :
  (forall a, p a = true -> q a = true) -> all_chars p s = true -> all_chars q s = true.
Proof.
  intros Hpq. induction s as [|a s IH]; [reflexivity|]. cbn.
  intros H. apply andb_prop in H as [Ha H]. rewrite (Hpq a Ha), (IH H). reflexivity.
Qed.

Lemma contains_append c s t : contains c (s +:+ t) = contains c s || contains c t.
Proof.
  induction s as [|a s IH]; [reflexivity|].
  rewrite append_cons. cbn [contains]. rewrite IH, orb_assoc. reflexivity.
Qed.

Lemma all_chars_contains p c s :
  all_chars p s = true -> p c = false -> contains c s = false.
Proof.
  intros H Hc. induction s as [|a s IH]; [reflexivity|].
  cbn in *. apply andb_prop in H as [Ha H]. rewrite (IH H), orb_false_r.
  destruct (Ascii.eqb_spec a c) as [->|]; [congruence|reflexivity].
Qed.

Lemma remove_char_append c s t :
  remove_char c (s +:+ t) = remove_char c s +:+ remove_char c t.
Proof.
  induction s as [|a s IH]; [reflexivity|].
  rewrite append_cons. cbn [remove_char]. rewrite IH.
  destruct (Ascii.eqb a c); reflexivity.
Qed.

Lemma remove_char_absent c s : contains c s = false -> remove_char c s = s.
Proof.
  induction s as [|a s IH]; [reflexivity|]. cbn.
  intros H. apply orb_false_elim in H as [-> H]. rewrite (IH H). reflexivity.
Qed.

Lemma remove_char_repeat c n : remove_char c (repeat_char c n) = "".
Proof. induction n as [|n IH]; [reflexivity|]. cbn. rewrite Ascii.eqb_refl. exact IH. Qed.

Lemma remove_char_ljust c s w :
  contains c s = false -> remove_char c (ljust s w c) = s.
Proof.
  intros H. unfold ljust.
  rewrite remove_char_append, remove_char_repeat, append_empty_r.
  apply remove_char_absent, H.
Qed.

Lemma split_absent c s : contains c s = false -> split c s = [s].
Proof.
  induction s as [|a s IH]; [reflexivity|]. cbn.
  intros H. apply orb_false_elim in H as [-> H]. rewrite (IH H). reflexivity.
Qed.

Lemma split_append c s t :
  contains c s = false -> split c (s +:+ String c t) = s :: split c t.
Proof.
  induction s as [|a s IH]; intros H.
  - change ("" +:+ String c t) with (String c t). cbn [split].
    rewrite Ascii.eqb_refl. reflexivity.
  - cbn in H. apply orb_false_elim in H as [Ha H].
    rewrite append_cons. cbn [split]. rewrite Ha, (IH H). reflexivity.
Qed.

Lemma split_join c parts :
  parts <> [] -> Forall (fun p => contains c p = false) parts ->
  split c (join (String c "") parts) = parts.
Proof.
  induction parts as [|p rest IH]; [congruence|]. intros _ Hall.
  apply Forall_cons in Hall as [Hp Hall].
  destruct rest as [|q rest'].
  - cbn. apply split_absent, Hp.
  - change (join (String c "") (p :: q :: rest'))
      with (p +:+ String c "" +:+ join (String c "") (q :: rest')).
    change (String c "" +:+ join (String c "") (q :: rest'))
      with (String c (join (String c "") (q :: rest'))).
    rewrite split_append by exact Hp. rewrite IH; [reflexivity|discriminate|exact Hall].
Qed.
Lemma digits_of_uint d : all_chars is_digit (NilEmpty.string_of_uint d) = true.
Proof. induction d; cbn; try reflexivity; exact IHd. Qed.

Lemma is_digit_range a : is_digit a = true -> (48 <= N_of_ascii a <= 57)%N.
Proof.
  unfold is_digit. intros H. apply andb_prop in H as [H1 H2].
  apply N.leb_le in H1, H2. lia.
Qed.

Lemma digit_not_space a : is_digit a = true -> is_space a = false.
Proof.
  intros H. apply is_digit_range in H. unfold is_space.
  destruct (N.leb_spec 9 (N_of_ascii a)), (N.leb_spec (N_of_ascii a) 13),
    (N.leb_spec 28 (N_of_ascii a)), (N.leb_spec (N_of_ascii a) 32);
    cbn; try reflexivity; lia.
Qed.

Lemma digit_ascii a : is_digit a = true -> (N_of_ascii a <? 128)%N = true.
Proof. intros H. apply is_digit_range in H. apply N.ltb_lt. lia. Qed.

Lemma digit_not (c a : ascii) : is_digit c = false -> is_digit a = true -> Ascii.eqb a c = false.
Proof.
  intros Hc Ha. destruct (Ascii.eqb_spec a c) as [->|]; [congruence|reflexivity].
Qed.

Lemma rstrip_digits s : all_chars is_digit s = true -> rstrip s = s.
Proof.
  induction s as [|a r IH]; [reflexivity|]. cbn [all_chars rstrip].
  intros H. apply andb_prop in H as [Ha H]. rewrite (IH H).
  destruct r; [|reflexivity].
  rewrite (digit_not_space a Ha). reflexivity.
Qed.

Lemma digit_part_digits s :
  all_chars is_digit s = true -> digit_part true s = Some s.
Proof.
  induction s as [|a r IH]; [reflexivity|]. cbn [all_chars digit_part].
  intros H. apply andb_prop in H as [Ha H]. rewrite Ha, (IH H). reflexivity.
Qed.

Lemma int_of_uint d :
  d <> Decimal.Nil ->
  int (NilEmpty.string_of_uint d) = Some (Z.of_N (N.of_uint d)).
Proof.
  intros Hd. pose proof (digits_of_uint d) as Hall.
  pose proof (NilEmpty.usu d) as Hu.
  destruct (NilEmpty.string_of_uint d) as [|a r] eqn:E.
  { destruct d; try discriminate. congruence. }
  cbn [all_chars] in Hall. apply andb_prop in Hall as [Ha Hr].
  unfold int, strip. cbn [lstrip]. rewrite (digit_not_space a Ha).
  rewrite rstrip_digits by (cbn [all_chars]; rewrite Ha, Hr; reflexivity).
  rewrite (digit_not "-"%char a eq_refl Ha), (digit_not "+"%char a eq_refl Ha).
  cbn [digit_part]. rewrite Ha, (digit_part_digits r Hr). cbn [fmap option_fmap option_map].
  rewrite Hu. reflexivity.
Qed.

Lemma str_nonneg z :
  0 <= z ->
  all_chars is_digit (str z) = true /\ int (str z) = Some z.
Proof.
  intros Hz. unfold str. destruct z as [|p|p]; [| |lia].
  - split; reflexivity.
  - cbn [Z.to_int NilEmpty.string_of_int]. split; [apply digits_of_uint|].
    rewrite int_of_uint by apply DecimalPos.Unsigned.to_uint_nonnil.
    change (N.of_uint (Pos.to_uint p)) with (Pos.of_uint (Pos.to_uint p)).
    rewrite DecimalPos.Unsigned.of_to. reflexivity.
Qed.

End PyFacts.

(** * The embedding on small inputs *)

Example str_of_dimension : Py.str 320 = "320".
Proof. reflexivity. Qed.

Example int_of_padded_literal : Py.int " 3_20 " = Some 320.
Proof. reflexivity. Qed.

Example int_of_empty_text : Py.int "" = None.
Proof. reflexivity. Qed.

Example split_shape_text : Py.split "x" "288x320x1" = ["288"; "320"; "1"].
Proof. reflexivity. Qed.

Example timestamp_bytes :
  Py.to_bytes 258 8
    = Some ["002"; "001"; "000"; "000"; "000"; "000"; "000"; "000"]%char.
Proof. reflexivity. Qed.

Example timestamp_too_big : Py.to_bytes (2 ^ 64) 8 = None.
Proof. reflexivity. Qed.

Example numbers_sum_even : numbers_sum 40 2 = [20; 20].
Proof. reflexivity. Qed.

Example numbers_sum_odd : numbers_sum 41 2 = [21; 20].
Proof. reflexivity. Qed.

(** The topic [T1.w_up] is what the code builds: the region semaphores by
    the loop of [__init__] on a host without semaphores, the record by
    [_serialize]; and [T1.w0] is what the publisher's [signin] makes of it. *)
Example t1_region_sems :
  exec (init_region_sems "t1")
       (World ∅ ∅ (ram T1.w_up) (stm T1.w_up) 0 (T1.zeros 40) [])
    = Returned (T1.ram_s, T1.stm_s, T1.cnt_s, T1.mat_s)
        (set_mat T1.w_up (T1.zeros 40)).
Proof. vm_compute. reflexivity. Qed.

Example t1_record :
  exec (_serialize T1.pub_up [2; 2] "uint8") (set_mat T1.w_up (T1.zeros 40))
    = Returned tt T1.w_up.
Proof. vm_compute. reflexivity. Qed.

Example t1_signin :
  exec (signin Linux T1.pub_up "aaaa") T1.w_up = Returned T1.pub T1.w0.
Proof. vm_compute. reflexivity. Qed.

(** * Running programs *)

Section Exec.
Context {A B : Type}.

Lemma exec_bind (p : prog A) (f : A -> prog B) (w : world) :
  exec (bind p f) w =
  match exec p w with
  | Returned a w' => exec (f a) w'
  | Raised e w' => Raised e w'
  | Blocked w' rest => Blocked w' (bind rest f)
  end.
Proof.
  revert w. induction p as [a|e|X a k IH]; intros w; simpl; try reflexivity.
  destruct (perform a w) as [x w'|]; [apply IH | reflexivity].
Qed.

Lemma trace_bind (p : prog A) (f : A -> prog B) (w : world) :
  trace (bind p f) w =
  trace p w ++
  match exec p w with
  | Returned a w' => trace (f a) w'
  | _ => []
  end.
Proof.
  revert w. induction p as [a|e|X a k IH]; intros w; simpl; try reflexivity.
  destruct (perform a w) as [x w'|]; [|reflexivity].
  simpl. f_equal. apply IH.
Qed.

End Exec.

Lemma count_set_vals (w : world) (v : gmap nat nat) (s : sem) :
  count (set_vals w v) s = default 0%nat (v !! sem_id s).
Proof. reflexivity. Qed.

(** * [write] with a payload of the wrong size *)

Section WriteWrongSize.
Variable system : platform.
Variables (self : SharedFrame) (data : bytes) (ts : Z) (w : world).
Hypothesis wrong : length data ≠ length (ram w).

Lemma write_wrong_size_free (c : nat) :
  count w (ram_sem self) = S c ->
  exec (write system self data ts) w =
    Raised Py.ValueError
      (set_vals w (<[sem_id (ram_sem self) := c]> (sem_vals w)))
  /\ trace (write system self data ts) w =
       [Ev (Sem_acquire (ram_sem self)) tt;
        Ev (Ram_store data) (inl Py.ValueError)].
Proof.
  intros Hc. unfold write. simpl. rewrite Hc. simpl.
  destruct (decide (length data = length (ram w))) as [E|_]; [contradiction|].
  split; reflexivity.
Qed.

Lemma write_wrong_size_held :
  count w (ram_sem self) = O ->
  exec (write system self data ts) w = Blocked w (write system self data ts).
Proof. intros Hc. unfold write. simpl. rewrite Hc. reflexivity. Qed.

End WriteWrongSize.

(** C10: [write] with a payload whose size is not [frame_bytes], called while
    the frame semaphore is free, raises after it acquired the frame semaphore
    and without releasing it: the only operations that went through are the
    acquire and the refused store, and the call ends with the count of the
    frame semaphore one lower than before, every other semaphore as it was. *)
Theorem write_wrong_size_keeps_frame_semaphore
    (system : platform) (self : SharedFrame) (data : bytes) (ts : Z) (w : world) :
  length data ≠ frame_bytes w ->
  (0 < count w (ram_sem self))%nat ->
  exists w',
    exec (write system self data ts) w = Raised Py.ValueError w'
    /\ trace (write system self data ts) w =
         [Ev (Sem_acquire (ram_sem self)) tt;
          Ev (Ram_store data) (inl Py.ValueError)]
    /\ S (count w' (ram_sem self)) = count w (ram_sem self)
    /\ (forall s, sem_id s ≠ sem_id (ram_sem self) -> count w' s = count w s).
Proof.
  intros Hlen Hfree.
  destruct (count w (ram_sem self)) as [|c] eqn:Hc; [lia|].
  destruct (write_wrong_size_free system self data ts w Hlen c Hc) as [He Ht].
  eexists. split; [exact He|]. split; [exact Ht|]. split.
  - rewrite count_set_vals, lookup_insert_eq. reflexivity.
  - intros s Hs. rewrite count_set_vals, lookup_insert_ne by congruence.
    reflexivity.
Qed.

Lemma write_wrong_size_keeps_frame_semaphore_witness :
  exists w',
    exec (write Linux T1.pub T1.short 100) T1.w0
      = Raised Py.ValueError w'
    /\ trace (write Linux T1.pub T1.short 100) T1.w0 =
         [Ev (Sem_acquire (ram_sem T1.pub)) tt;
          Ev (Ram_store T1.short) (inl Py.ValueError)]
    /\ S (count w' (ram_sem T1.pub)) = count T1.w0 (ram_sem T1.pub)
    /\ (forall s, sem_id s ≠ sem_id (ram_sem T1.pub) ->
        count w' s = count T1.w0 s).
Proof.
  apply (write_wrong_size_keeps_frame_semaphore Linux T1.pub
           T1.short 100 T1.w0).
  - vm_compute. lia.
  - vm_compute. lia.
Defined.

(** C4: [write] with a payload whose size is not [frame_bytes] never
    returns normally. As soon as the frame semaphore is free it raises
    ([ValueError], the error that the specification calls [ShapeMismatch]),
    and the frame region and the timestamp region are as before the call;
    while the semaphore is held by a reader it waits, nothing changed. *)
Theorem write_wrong_size_fails
    (system : platform) (self : SharedFrame) (data : bytes) (ts : Z) (w : world) :
  length data ≠ frame_bytes w ->
  ((0 < count w (ram_sem self))%nat ->
   exists w',
     exec (write system self data ts) w = Raised Py.ValueError w'
     /\ ram w' = ram w /\ stm w' = stm w)
  /\ (count w (ram_sem self) = O ->
      exec (write system self data ts) w
        = Blocked w (write system self data ts)).
Proof.
  intros Hlen. split.
  - intros Hfree.
    destruct (count w (ram_sem self)) as [|c] eqn:Hc; [lia|].
    destruct (write_wrong_size_free system self data ts w Hlen c Hc) as [He _].
    eexists. split; [exact He|]. split; reflexivity.
  - intros Hc. apply write_wrong_size_held; assumption.
Qed.

Lemma write_wrong_size_fails_witness :
  exists w',
    exec (write Linux T1.pub (T1.frame1 ++ T1.frame2) 100) T1.w0
      = Raised Py.ValueError w'
    /\ ram w' = ram T1.w0 /\ stm w' = stm T1.w0.
Proof.
  apply (write_wrong_size_fails Linux T1.pub (T1.frame1 ++ T1.frame2) 100 T1.w0).
  - vm_compute. lia.
  - vm_compute. lia.
Defined.

(** * [signout] of an id that is not registered *)

(** C8: for an id that is not in the registry, [signout] returns with the
    registry and all shared objects as they were, raises nothing, and no
    operation went through: no message was sent, no semaphore unlinked. *)
Theorem signout_unknown_is_noop
    (system : platform) (self : SharedFrame) (r_name : string) (w : world) :
  sems self !! r_name = None ->
  exec (signout system self r_name) w = Returned self w
  /\ trace (signout system self r_name) w = [].
Proof.
  intros Hnone. unfold signout. rewrite Hnone. split; reflexivity.
Qed.

Lemma signout_unknown_is_noop_witness :
  exec (signout Linux T1.pub "bbbb") T1.w0 = Returned T1.pub T1.w0
  /\ trace (signout Linux T1.pub "bbbb") T1.w0 = [].
Proof.
  apply (signout_unknown_is_noop Linux T1.pub "bbbb" T1.w0).
  vm_compute. reflexivity.
Defined.

(** * The fan-out of [write] *)

Section Fanout.
Variable self : SharedFrame.

Local Abbreviation cnt_in v i := (default 0%nat (v !! i)).

(** One turn of the loop on a platform that shows the count. *)
Lemma fanout_one_linux (s : sem) (w : world) :
  exists v',
    exec (v ← value s; if (0 <? v)%nat then Done tt else release s) w
      = Returned tt (set_vals w v')
    /\ (forall i, cnt_in v' i = cnt_in (sem_vals w) i
                  \/ (cnt_in (sem_vals w) i = 0 /\ cnt_in v' i = 1))%nat
    /\ (1 <= cnt_in v' (sem_id s))%nat.
Proof.
  simpl. destruct (count w s) as [|c] eqn:Hc; simpl.
  - rewrite Hc.
    exists (<[sem_id s := 1%nat]> (sem_vals w)). split; [reflexivity|]. split.
    + intros i. destruct (decide (i = sem_id s)) as [->|Hne].
      * right. rewrite lookup_insert_eq. split; [exact Hc|reflexivity].
      * left. rewrite lookup_insert_ne by congruence. reflexivity.
    + rewrite lookup_insert_eq. simpl. lia.
  - exists (sem_vals w). split; [destruct w; reflexivity|]. split.
    + intros i. left. reflexivity.
    + unfold count in Hc. rewrite Hc. lia.
Qed.

Lemma fanout_linux (keys : list string) (w : world) :
  exists v',
    exec (fanout Linux self keys) w = Returned tt (set_vals w v')
    /\ (forall i, cnt_in v' i = cnt_in (sem_vals w) i
                  \/ (cnt_in (sem_vals w) i = 0 /\ cnt_in v' i = 1))%nat
    /\ (forall k s, k ∈ keys -> sems self !! k = Some s ->
                    (1 <= cnt_in v' (sem_id s))%nat).
Proof.
  revert w. induction keys as [|k rest IH]; intros w.
  - exists (sem_vals w). split; [destruct w; reflexivity|]. split.
    + intros i. left. reflexivity.
    + intros k s Hk. inversion Hk.
  - cbn [fanout]. rewrite exec_bind.
    destruct (sems self !! k) as [s|] eqn:Hk.
    + destruct (fanout_one_linux s w) as (v1 & E1 & M1 & G1). rewrite E1.
      destruct (IH (set_vals w v1)) as (v' & E & M & G).
      exists v'. split; [exact E|]. split.
      * intros i. specialize (M i). specialize (M1 i). simpl in M. lia.
      * intros k' s' Hin Hs'. apply elem_of_cons in Hin as [->|Hin].
        -- rewrite Hk in Hs'. injection Hs' as <-.
           specialize (M (sem_id s)). simpl in M. lia.
        -- exact (G k' s' Hin Hs').
    + simpl. destruct (IH w) as (v' & E & M & G).
      exists v'. split; [exact E|]. split; [exact M|].
      intros k' s' Hin Hs'. apply elem_of_cons in Hin as [->|Hin].
      * congruence.
      * exact (G k' s' Hin Hs').
Qed.

(** On any platform the loop returns and lowers no count. *)
Lemma fanout_returns (system : platform) (keys : list string) (w : world) :
  exists v',
    exec (fanout system self keys) w = Returned tt (set_vals w v')
    /\ (forall i, cnt_in (sem_vals w) i <= cnt_in v' i)%nat.
Proof.
  destruct system.
  - revert w. induction keys as [|k rest IH]; intros w.
    + exists (sem_vals w). split; [destruct w; reflexivity|]. intros i. lia.
    + cbn [fanout]. rewrite exec_bind.
      destruct (sems self !! k) as [s|] eqn:Hk; simpl.
      * destruct (IH (set_vals w (<[sem_id s := S (count w s)]> (sem_vals w))))
          as (v' & E & M).
        exists v'. split; [exact E|]. intros i. specialize (M i). simpl in M.
        destruct (decide (i = sem_id s)) as [->|Hne].
        -- rewrite lookup_insert_eq in M. simpl in M. unfold count in M. lia.
        -- rewrite lookup_insert_ne in M by congruence. exact M.
      * apply IH.
  - destruct (fanout_linux keys w) as (v' & E & M & _).
    exists v'. split; [exact E|]. intros i. specialize (M i). lia.
Qed.

End Fanout.

(** * Timestamps *)

Lemma le_bytes_length (n : nat) (z : Z) : length (Py.le_bytes n z) = n.
Proof. revert z. induction n as [|n IH]; intros z; simpl; [|rewrite IH]; reflexivity. Qed.

Lemma from_le_bytes (n : nat) (z : Z) :
  0 <= z < 256 ^ Z.of_nat n -> Py.from_bytes (Py.le_bytes n z) = z.
Proof.
  revert z. induction n as [|n IH]; intros z Hz.
  - simpl in *. lia.
  - cbn [Py.le_bytes Py.from_bytes].
    rewrite N_ascii_embedding.
    + rewrite Z2N.id by (apply Z.mod_pos_bound; lia).
      rewrite IH.
      * pose proof (Z.div_mod z 256). lia.
      * rewrite Nat2Z.inj_succ, Z.pow_succ_r in Hz by lia.
        split; [apply Z.div_pos; lia|].
        apply Z.div_lt_upper_bound; lia.
    + pose proof (Z.mod_pos_bound z 256). lia.
Qed.

Lemma to_bytes_from_bytes (ts : Z) (n : nat) (b : bytes) :
  Py.to_bytes ts n = Some b -> Py.from_bytes b = ts /\ length b = n.
Proof.
  unfold Py.to_bytes.
  destruct ((0 <=? ts) && (ts <? 256 ^ Z.of_nat n)) eqn:Hr; [|discriminate].
  intros [= <-]. apply andb_prop in Hr as [H0 H1].
  split; [apply from_le_bytes; lia | apply le_bytes_length].
Qed.

Lemma to_bytes_in_range (ts : Z) (n : nat) :
  0 <= ts < 256 ^ Z.of_nat n -> Py.to_bytes ts n = Some (Py.le_bytes n ts).
Proof.
  intros Hr. unfold Py.to_bytes.
  destruct ((0 <=? ts) && (ts <? 256 ^ Z.of_nat n)) eqn:E; [reflexivity|].
  apply andb_false_iff in E as [E|E]; lia.
Qed.

(** * [write] that returns *)

Section WriteReturns.
Variable system : platform.
Variable self : SharedFrame.

Lemma write_inv (data : bytes) (ts : Z) (w w' : world) :
  exec (write system self data ts) w = Returned tt w' ->
  exists c b,
    count w (ram_sem self) = S c
    /\ length data = length (ram w)
    /\ Py.to_bytes ts 8 = Some b
    /\ length b = length (take 8 (stm w))
    /\ exec (fanout system self (fst <$> map_to_list (sems self)))
         (written self w c data b) = Returned tt w'.
Proof.
  unfold write. cbn -[Py.to_bytes fanout].
  destruct (count w (ram_sem self)) as [|c] eqn:Hc; [discriminate|].
  cbn -[Py.to_bytes fanout].
  destruct (decide (length data = length (ram w))) as [Hl|]; [|discriminate].
  cbn -[Py.to_bytes fanout].
  destruct (Py.to_bytes ts 8) as [b|] eqn:Hb; [|discriminate].
  cbn -[Py.to_bytes fanout].
  destruct (decide (length b = length (take 8 (stm w)))) as [Hs|]; [|discriminate].
  cbn -[Py.to_bytes fanout]. intros E.
  exists c, b. repeat split; try assumption.
  unfold written. rewrite <- E. f_equal.
  unfold set_vals, count; simpl. rewrite lookup_insert_eq. reflexivity.
Qed.

Lemma written_count (w : world) (c : nat) (data b : bytes) (i : nat) :
  count w (ram_sem self) = S c ->
  default 0%nat (sem_vals (written self w c data b) !! i)
    = default 0%nat (sem_vals w !! i).
Proof.
  intros Hc. simpl. rewrite insert_insert_eq.
  destruct (decide (i = sem_id (ram_sem self))) as [->|Hne].
  - rewrite lookup_insert_eq. exact (eq_sym Hc).
  - rewrite lookup_insert_ne by congruence. reflexivity.
Qed.

(** What a [write] that returned has done to the shared objects. *)
Lemma write_returned (data : bytes) (ts : Z) (w w' : world) :
  exec (write system self data ts) w = Returned tt w' ->
  ram w' = data
  /\ Py.to_bytes ts 8 = Some (take 8 (stm w'))
  /\ length (ram w') = length (ram w)
  /\ length (stm w') = length (stm w)
  /\ cnt w' = cnt w
  /\ (forall s, count w s <= count w' s)%nat.
Proof.
  intros E. destruct (write_inv data ts w w' E) as (c & b & Hc & Hl & Hb & Hs & Ef).
  destruct (fanout_returns self system (fst <$> map_to_list (sems self))
              (written self w c data b)) as (v' & Ev' & M).
  rewrite Ev' in Ef. injection Ef as <-. simpl.
  split; [reflexivity|]. split.
  - rewrite Hb. f_equal. rewrite take_app_length'; [reflexivity|].
    unfold Py.to_bytes in Hb.
    destruct ((0 <=? ts) && (ts <? 256 ^ Z.of_nat 8)); [|discriminate].
    injection Hb as <-. reflexivity.
  - split; [exact Hl|]. split.
    { rewrite length_app, Hs, <- length_app, take_drop. reflexivity. }
    split; [reflexivity|].
    intros s. unfold count. simpl. specialize (M (sem_id s)).
    rewrite (written_count w c data b (sem_id s) Hc) in M. exact M.
Qed.

Lemma write_runs (data : bytes) (ts : Z) (w : world) :
  (0 < count w (ram_sem self))%nat ->
  length data = length (ram w) ->
  0 <= ts < 2 ^ 64 ->
  length (stm w) = 8%nat ->
  exists w', exec (write system self data ts) w = Returned tt w'.
Proof.
  intros Hfree Hl Hts Hstm.
  destruct (count w (ram_sem self)) as [|c] eqn:Hc; [lia|].
  destruct (fanout_returns self system (fst <$> map_to_list (sems self))
              (written self w c data (Py.le_bytes 8 ts))) as (v' & Ev' & _).
  eexists. rewrite <- Ev'.
  unfold write. cbn -[Py.to_bytes fanout]. rewrite Hc.
  cbn -[Py.to_bytes fanout].
  destruct (decide (length data = length (ram w))) as [_|]; [|contradiction].
  cbn -[Py.to_bytes fanout].
  rewrite (to_bytes_in_range ts 8) by exact Hts.
  cbn -[Py.le_bytes fanout].
  destruct (decide (length (Py.le_bytes 8 ts) = length (take 8 (stm w)))) as [_|N].
  - cbn -[Py.le_bytes fanout]. unfold written. f_equal. f_equal.
    unfold count; simpl. rewrite lookup_insert_eq. reflexivity.
  - exfalso. apply N. rewrite le_bytes_length, length_take. lia.
Qed.

End WriteReturns.

(** C7: on a platform that shows the count of a semaphore, a [write] that
    returns leaves every registered wake semaphore at the larger of its
    former count and 1: one whose count was above 0 was skipped, the others
    were released once. Hence, if all were at most 1 before the call (and
    nobody else touched them), all are at most 1 after it. *)
Theorem write_fanout_saturates
    (self : SharedFrame) (data : bytes) (ts : Z) (w w' : world) :
  exec (write Linux self data ts) w = Returned tt w' ->
  (forall k s, sems self !! k = Some s ->
     count w' s = Nat.max 1 (count w s)
     /\ ((0 < count w s)%nat -> count w' s = count w s)
     /\ (count w s = O -> count w' s = 1%nat))
  /\ ((forall k s, sems self !! k = Some s -> (count w s <= 1)%nat) ->
      forall k s, sems self !! k = Some s -> (count w' s <= 1)%nat).
Proof.
  intros E.
  destruct (write_inv Linux self data ts w w' E) as (c & b & Hc & _ & _ & _ & Ef).
  destruct (fanout_linux self (fst <$> map_to_list (sems self))
              (written self w c data b)) as (v' & Ev' & M & G).
  rewrite Ev' in Ef. injection Ef as <-.
  assert (Hmax : forall k s, sems self !! k = Some s ->
            count (set_vals (written self w c data b) v') s
              = Nat.max 1 (count w s)).
  { intros k s Hk. rewrite count_set_vals. unfold count.
    specialize (M (sem_id s)).
    rewrite (written_count self w c data b (sem_id s) Hc) in M.
    assert (Hin : k ∈ fst <$> map_to_list (sems self)).
    { apply list_elem_of_fmap. exists (k, s). split; [reflexivity|].
      apply elem_of_map_to_list. exact Hk. }
    specialize (G k s Hin Hk). lia. }
  split.
  - intros k s Hk. specialize (Hmax k s Hk). lia.
  - intros Hle k s Hk. specialize (Hmax k s Hk). specialize (Hle k s Hk). lia.
Qed.

Lemma write_fanout_saturates_witness :
  (forall k s, sems T1.pub !! k = Some s ->
     count (set_ram (set_stm T1.w0 (Py.le_bytes 8 100)) T1.frame1) s
       = Nat.max 1 (count T1.w0 s)
     /\ ((0 < count T1.w0 s)%nat ->
         count (set_ram (set_stm T1.w0 (Py.le_bytes 8 100)) T1.frame1) s
           = count T1.w0 s)
     /\ (count T1.w0 s = O ->
         count (set_ram (set_stm T1.w0 (Py.le_bytes 8 100)) T1.frame1) s
           = 1%nat))
  /\ ((forall k s, sems T1.pub !! k = Some s -> (count T1.w0 s <= 1)%nat) ->
      forall k s, sems T1.pub !! k = Some s ->
        (count (set_ram (set_stm T1.w0 (Py.le_bytes 8 100)) T1.frame1) s <= 1)%nat).
Proof.
  apply (write_fanout_saturates T1.pub T1.frame1 100 T1.w0).
  vm_compute. reflexivity.
Defined.


(** * [read] on a topic at rest *)

Lemma ndarray_view_exec (np_itemsize : string -> option nat)
    (self : SharedFrame) (sh : list Z) (item : nat) (w : world) :
  shape self = Some sh ->
  Forall (fun d => 0 < d) sh ->
  np_itemsize (dtype self) = Some item ->
  (Z.to_nat (np_prod sh) * item <= length (ram w))%nat ->
  exec (ndarray_view np_itemsize self) w
    = Returned (sh, (Z.to_nat (np_prod sh) * item)%nat) w.
Proof.
  intros Hsh Hd Hi Hn. unfold ndarray_view. rewrite Hsh, Hi. cbn -[np_prod].
  assert (forallb (fun d => 0 <=? d) sh = true) as ->.
  { apply forallb_forall. intros d Hin. apply Z.leb_le.
    rewrite Forall_forall in Hd. apply list_elem_of_In in Hin.
    specialize (Hd d Hin). lia. }
  cbn -[np_prod].
  destruct (Z.to_nat (np_prod sh) * item <=? length (ram w))%nat eqn:E;
    [reflexivity|].
  apply Nat.leb_gt in E. lia.
Qed.

Section AtRest.
Variable system : platform.
Variable np_itemsize : string -> option nat.
Variables (pub sub : SharedFrame) (r_id : string) (wake : sem) (sh : list Z).

Local Ltac run :=
  cbn -[wrap32 Py.from_bytes ndarray_view np_prod]; unfold count;
  cbn -[wrap32 Py.from_bytes ndarray_view np_prod].

(** With nobody else around, [read] goes through all its semaphores and
    returns what the frame and timestamp regions hold. *)
Lemma read_at_rest (w : world) :
  at_rest np_itemsize pub sub r_id wake sh w ->
  exists w'',
    exec (read np_itemsize sub r_id) w
      = Returned (Ndarray sh (dtype sub) (ram w),
                  Py.from_bytes (take 8 (stm w))) w''.
Proof.
  intros [Hcnt Hreg Hwake Hcs Hrs _ Hwc Hwr Hcr Hstm Hsh Hdims
            (item & Hitem & Hsize)].
  unfold read. rewrite Hreg. cbn [of_option bind].
  destruct (count w wake) as [|a] eqn:Ha; [lia|].
  destruct (count w (cnt_sem sub)) as [|b] eqn:Hb; [lia|].
  destruct (count w (ram_sem sub)) as [|c] eqn:Hc; [lia|].
  unfold count in *.
  run. rewrite Ha. run.
  rewrite lookup_insert_ne by congruence. rewrite Hb. run.
  rewrite Hcnt. change (wrap32 (0 + 1)) with 1. run.
  rewrite !lookup_insert_ne by congruence. rewrite Hc. run.
  rewrite exec_bind.
  erewrite ndarray_view_exec;
    [|exact Hsh|exact Hdims|exact Hitem
     |cbn; unfold frame_bytes in Hsize; lia].
  run. rewrite lookup_insert_eq. run.
  change (wrap32 (1 + -1)) with 0. run.
  eexists. do 3 f_equal.
  apply take_ge. unfold frame_bytes in Hsize. lia.
Qed.

(** A [write] that returns leaves the topic at rest. *)
Lemma write_keeps_rest (data : bytes) (ts : Z) (w w' : world) :
  at_rest np_itemsize pub sub r_id wake sh w ->
  exec (write system pub data ts) w = Returned tt w' ->
  at_rest np_itemsize pub sub r_id wake sh w'.
Proof.
  intros [Hcnt Hreg Hwake Hcs Hrs Hps Hwc Hwr Hcr Hstm Hsh Hdims
            (item & Hitem & Hsize)] E.
  destruct (write_returned system pub data ts w w' E)
    as (_ & _ & Hl & Hs & Hc & M).
  constructor; try assumption.
  - congruence.
  - specialize (M wake). lia.
  - specialize (M (cnt_sem sub)). lia.
  - specialize (M (ram_sem sub)). lia.
  - specialize (M (ram_sem pub)). lia.
  - congruence.
  - exists item. split; [exact Hitem|]. unfold frame_bytes in *. congruence.
Qed.

Lemma writes_run (frames : list (bytes * Z)) (w : world) :
  at_rest np_itemsize pub sub r_id wake sh w ->
  Forall (fun f => length (fst f) = frame_bytes w /\ 0 <= snd f < 2 ^ 64) frames ->
  exists w',
    exec (writes system pub frames) w = Returned tt w'
    /\ at_rest np_itemsize pub sub r_id wake sh w'
    /\ frame_bytes w' = frame_bytes w
    /\ match last frames with
       | Some (data, ts) =>
           ram w' = data /\ Py.from_bytes (take 8 (stm w')) = ts
       | None => w' = w
       end.
Proof.
  revert w. induction frames as [|[data ts] rest IH]; intros w Hrest Hok.
  - exists w. split; [reflexivity|]. split; [assumption|]. split; reflexivity.
  - apply Forall_cons in Hok as [[Hl Hts] Hok]. simpl in Hl, Hts.
    destruct (write_runs system pub data ts w) as (w1 & E1);
      [apply Hrest|exact Hl|exact Hts|apply Hrest|].
    pose proof (write_keeps_rest data ts w w1 Hrest E1) as Hrest1.
    destruct (write_returned system pub data ts w w1 E1)
      as (Hram & Hb & Hlen & _ & _ & _).
    assert (Hfb : frame_bytes w1 = frame_bytes w) by exact Hlen.
    destruct (IH w1 Hrest1) as (w' & E & Hrest' & Hfb' & Hlast).
    { rewrite Hfb. exact Hok. }
    exists w'. cbn [writes]. rewrite exec_bind, E1.
    split; [exact E|]. split; [exact Hrest'|]. split; [congruence|].
    destruct rest as [|f rest'].
    + cbn in Hlast. subst w'. cbn. split; [exact Hram|].
      apply to_bytes_from_bytes in Hb. apply Hb.
    + change (last ((data, ts) :: f :: rest')) with (last (f :: rest')).
      destruct (last (f :: rest')) as [[d t]|] eqn:L; [exact Hlast|].
      apply last_None in L. discriminate.
Qed.

End AtRest.

(** C1: on a topic at rest (reader counter zero, subscriber [r_id]
    registered with an available wake semaphore), a sequence of [write] calls
    with payloads of [frame_bytes] bytes and timestamps in [0, 2^64) all
    return, and a [read(r_id)] run after the last of them returns the payload
    written last, as an array of the declared shape and dtype, and the
    timestamp written last. *)
Theorem read_after_writes_returns_last
    (system : platform) (np_itemsize : string -> option nat)
    (pub sub : SharedFrame) (r_id : string) (wake : sem) (sh : list Z)
    (frames : list (bytes * Z)) (data : bytes) (ts : Z) (w : world) :
  at_rest np_itemsize pub sub r_id wake sh w ->
  Forall (fun f => length (fst f) = frame_bytes w /\ 0 <= snd f < 2 ^ 64)
         (frames ++ [(data, ts)]) ->
  exists w',
    exec (writes system pub (frames ++ [(data, ts)])) w = Returned tt w'
    /\ exists w'',
         exec (read np_itemsize sub r_id) w'
           = Returned (Ndarray sh (dtype sub) data, ts) w''.
Proof.
  intros Hrest Hok.
  destruct (writes_run system np_itemsize pub sub r_id wake sh
              (frames ++ [(data, ts)]) w Hrest Hok)
    as (w' & E & Hrest' & _ & Hlast).
  rewrite last_snoc in Hlast. destruct Hlast as [Hram Hts].
  exists w'. split; [exact E|].
  destruct (read_at_rest np_itemsize pub sub r_id wake sh w' Hrest')
    as (w'' & Er).
  exists w''. rewrite Er, Hram, Hts. reflexivity.
Qed.

Lemma read_after_writes_returns_last_witness :
  exists w',
    exec (writes Linux T1.pub ([(T1.frame1, 100)] ++ [(T1.frame2, 101)])) T1.w0
      = Returned tt w'
    /\ exists w'',
         exec (read T1.np_itemsize T1.sub "aaaa") w'
           = Returned (Ndarray [2; 2] (dtype T1.sub) T1.frame2, 101) w''.
Proof.
  apply (read_after_writes_returns_last Linux T1.np_itemsize T1.pub T1.sub
           "aaaa" T1.wake [2; 2] [(T1.frame1, 100)] T1.frame2 101 T1.w0).
  - constructor; try (vm_compute; reflexivity); try (vm_compute; lia).
    + repeat constructor; lia.
    + exists 1%nat. split; vm_compute; reflexivity.
  - repeat constructor; vm_compute; lia || discriminate.
Defined.

(** * Creating semaphores *)

Lemma crea_sem_exec (nm : string) (w : world) :
  exec (_crea_sem nm) w = Returned (fst (created w nm)) (snd (created w nm)).
Proof.
  unfold _crea_sem, created. cbn.
  destruct (sem_names w !! nm) as [j|] eqn:Hn; cbn.
  - rewrite Hn. cbn. rewrite Hn. cbn. rewrite lookup_delete_eq. cbn.
    unfold count. cbn. rewrite lookup_insert_eq. cbn.
    rewrite insert_insert_eq, insert_delete_eq. reflexivity.
  - unfold count. cbn. rewrite lookup_insert_eq. cbn.
    rewrite insert_insert_eq. reflexivity.
Qed.








(** * The first [read] of a subscriber *)




(** * The order of the operations of [read] *)

(** On a topic at rest [read] does these fourteen operations: the wake
    semaphore, the entry protocol, the view on the frame region and the load
    of the timestamp, the exit protocol, and only then the copy of the frame
    bytes. *)
Lemma read_trace_at_rest
    (np_itemsize : string -> option nat) (pub sub : SharedFrame)
    (r_id : string) (wake : sem) (sh : list Z) (w : world) :
  at_rest np_itemsize pub sub r_id wake sh w ->
  trace (read np_itemsize sub r_id) w =
    [ Ev (Sem_acquire wake) tt;
      Ev (Sem_acquire (cnt_sem sub)) tt;
      Ev (Cnt_add 1) tt;
      Ev Cnt_load 1;
      Ev (Sem_acquire (ram_sem sub)) tt;
      Ev (Sem_release (cnt_sem sub)) tt;
      Ev Ram_view (frame_bytes w);
      Ev Stm_load (take 8 (stm w));
      Ev (Sem_acquire (cnt_sem sub)) tt;
      Ev (Cnt_add (-1)) tt;
      Ev Cnt_load 0;
      Ev (Sem_release (ram_sem sub)) tt;
      Ev (Sem_release (cnt_sem sub)) tt;
      Ev (Ram_copy (frame_bytes w)) (ram w) ].
Proof.
  intros [Hcnt Hreg Hwake Hcs Hrs _ Hwc Hwr Hcr Hstm Hsh Hdims
            (item & Hitem & Hsize)].
  assert (Hd : forallb (fun d => 0 <=? d) sh = true).
  { apply forallb_forall. intros d Hin. apply Z.leb_le.
    rewrite Forall_forall in Hdims. apply list_elem_of_In in Hin.
    specialize (Hdims d Hin). lia. }
  unfold read, ndarray_view. rewrite Hreg, Hsh, Hitem.
  cbn [of_option bind]. rewrite Hd. cbn [of_option bind]. rewrite Hsize.
  destruct (count w wake) as [|a] eqn:Ha; [lia|].
  destruct (count w (cnt_sem sub)) as [|b] eqn:Hb; [lia|].
  destruct (count w (ram_sem sub)) as [|c] eqn:Hc; [lia|].
  unfold count in *.
  cbn -[wrap32]. unfold count. rewrite Ha. cbn -[wrap32]. unfold count.
  cbn -[wrap32].
  rewrite lookup_insert_ne by congruence. rewrite Hb. cbn -[wrap32].
  rewrite Hcnt. change (wrap32 (0 + 1)) with 1. cbn -[wrap32]. unfold count.
  cbn -[wrap32].
  rewrite !lookup_insert_ne by congruence. rewrite Hc. cbn -[wrap32].
  unfold frame_bytes. rewrite Nat.leb_refl. cbn -[wrap32]. unfold count.
  cbn -[wrap32]. rewrite lookup_insert_eq. cbn -[wrap32].
  change (wrap32 (1 + -1)) with 0. cbn -[wrap32].
  rewrite (take_ge (ram w)) by lia. reflexivity.
Qed.

(** C3, as the code has it: the frame bytes are copied after the frame
    semaphore was released. [aaaa] reads frame 1 (timestamp 100) up to the
    end of the exit protocol, which leaves the reader counter at 0 and the
    frame semaphore free; the publisher then writes frame 2 (timestamp 101);
    the last operation of the [read], the copy, then gives the bytes of
    frame 2 with the timestamp of frame 1. *)
Theorem read_copies_frame_after_release :
  exists w_a rest w1 w2 w3,
    exec (write Linux T1.pub T1.frame1 100) T1.w0 = Returned tt w_a
    /\ steps 13 (read T1.np_itemsize T1.sub "aaaa") w_a = (rest, w1)
    /\ cnt w1 = 0 /\ count w1 T1.ram_s = 1%nat
    /\ exec (write Linux T1.pub T1.frame2 101) w1 = Returned tt w2
    /\ trace rest w2 = [Ev (Ram_copy 4) T1.frame2]
    /\ exec rest w2 = Returned (Ndarray [2; 2] "uint8" T1.frame2, 100) w3.
Proof.
  eexists _, _, _, _, _.
  split; [vm_compute; reflexivity|].
  split; [vm_compute; reflexivity|].
  split; [reflexivity|]. split; [vm_compute; reflexivity|].
  split; [vm_compute; reflexivity|].
  split; vm_compute; reflexivity.
Qed.

(** * The metadata record *)

Section Metadata.
Import Py PyFacts.

Lemma join_chars (p : ascii -> bool) (c : ascii) (parts : list string) :
  p c = true -> Forall (fun s => all_chars p s = true) parts ->
  all_chars p (join (String c "") parts) = true.
Proof.
  intros Hc. induction parts as [|s rest IH]; [reflexivity|]. intros Hall.
  apply Forall_cons in Hall as [Hs Hall].
  destruct rest as [|q rest']; [exact Hs|].
  change (join (String c "") (s :: q :: rest'))
    with (s +:+ String c "" +:+ join (String c "") (q :: rest')).
  rewrite !all_chars_append, Hs, (IH Hall). cbn. rewrite Hc. reflexivity.
Qed.

Lemma shape_text_chars sh :
  Forall (fun d => 0 < d) sh -> all_chars shape_char (shape_text sh) = true.
Proof.
  intros H. apply join_chars; [reflexivity|].
  apply Forall_fmap. eapply Forall_impl; [exact H|]. intros d Hd. cbn in Hd |- *.
  apply (all_chars_weaken is_digit); [|apply str_nonneg; lia].
  intros a Ha. unfold shape_char. rewrite Ha. reflexivity.
Qed.

Lemma shape_text_split sh :
  sh <> [] -> Forall (fun d => 0 < d) sh ->
  ints (split "x" (shape_text sh)) = Some sh.
Proof.
  intros Hne H. unfold shape_text. rewrite split_join.
  - clear Hne. induction H as [|d rest Hd _ IH]; [reflexivity|].
    cbn [fmap list_fmap ints]. destruct (str_nonneg d) as [_ ->]; [lia|].
    fold (fmap (M:=list) str rest). rewrite IH. reflexivity.
  - destruct sh; [congruence|discriminate].
  - apply Forall_fmap. eapply Forall_impl; [exact H|]. intros d Hd. cbn in Hd |- *.
    apply (all_chars_contains is_digit); [apply str_nonneg; lia|reflexivity].
Qed.

Lemma shape_char_ascii a : shape_char a = true -> (N_of_ascii a <? 128)%N = true.
Proof.
  unfold shape_char. intros H. apply orb_prop in H as [H|H].
  - apply digit_ascii, H.
  - apply Ascii.eqb_eq in H. subst a. reflexivity.
Qed.

Lemma record_text_length sh dt w0 w1 :
  (String.length (shape_text sh) <= w0)%nat -> (String.length dt <= w1)%nat ->
  String.length (record_text sh dt w0 w1) = (w0 + 1 + w1)%nat.
Proof.
  intros H0 H1. unfold record_text.
  rewrite !length_append, !length_ljust by assumption. cbn. lia.
Qed.

Lemma record_text_ascii sh dt w0 w1 :
  Forall (fun d => 0 < d) sh -> isascii dt = true ->
  isascii (record_text sh dt w0 w1) = true.
Proof.
  intros Hsh Hdt. unfold record_text, isascii, ljust in *.
  rewrite !all_chars_append, Hdt.
  rewrite (all_chars_weaken shape_char _ _ shape_char_ascii (shape_text_chars sh Hsh)).
  rewrite !all_chars_repeat by reflexivity. reflexivity.
Qed.

Lemma record_text_parts sh dt w0 w1 :
  Forall (fun d => 0 < d) sh ->
  contains "*" dt = false -> contains "|" dt = false ->
  split "|" (remove_char "*" (record_text sh dt w0 w1)) = [shape_text sh; dt].
Proof.
  intros Hsh Hs Hb. unfold record_text.
  pose proof (shape_text_chars sh Hsh) as Hc.
  rewrite !remove_char_append, !remove_char_ljust;
    [|exact Hs|apply (all_chars_contains shape_char); [exact Hc|reflexivity]].
  change (remove_char "*" "|") with "|".
  change ("|" +:+ dt) with (String "|" dt).
  rewrite split_append
    by (apply (all_chars_contains shape_char); [exact Hc|reflexivity]).
  rewrite split_absent by exact Hb. reflexivity.
Qed.

Lemma acquire_release_id (w : world) (s : sem) (c : nat) :
  count w s = S c ->
  <[sem_id s := S c]> (<[sem_id s := c]> (sem_vals w)) = sem_vals w.
Proof.
  unfold count. intros H. rewrite insert_insert_eq. apply insert_id.
  destruct (sem_vals w !! sem_id s) as [n|]; [|discriminate]. cbn in H. congruence.
Qed.

Lemma serialize_exec self sh dt w :
  (0 < count w (mat_sem self))%nat -> length (mat w) = 40%nat ->
  (String.length (shape_text sh) <= 20)%nat -> (String.length dt <= 19)%nat ->
  exec (_serialize self sh dt) w
    = Returned tt (set_mat w (encode (record_text sh dt 20 19))).
Proof.
  intros Hfree Hlen H0 H1.
  destruct (count w (mat_sem self)) as [|c] eqn:Hc; [lia|].
  unfold _serialize. cbn -[numbers_sum ljust join index]. rewrite Hc.
  cbn -[numbers_sum ljust join index].
  rewrite Hlen. change (numbers_sum (Z.of_nat 40) 2) with [20; 20].
  change (index [20; 20] 0) with (@Done Z 20).
  change (index [20; 20] (-1)) with (@Done Z 20).
  cbn -[ljust join].
  fold (shape_text sh). change (Z.to_nat 20) with 20%nat.
  change (Z.to_nat (20 - 1)) with 19%nat.
  fold (record_text sh dt 20 19).
  destruct (decide (length (encode (record_text sh dt 20 19)) = length (mat w))) as [_|N].
  - cbn. unfold count. cbn. rewrite lookup_insert_eq. cbn.
    rewrite (acquire_release_id w (mat_sem self) c Hc). destruct w; reflexivity.
  - exfalso. apply N. rewrite length_encode, record_text_length by assumption.
    rewrite Hlen. reflexivity.
Qed.

Lemma deserialize_exec (np : string -> bool) self sh dt w0 w1 w :
  (0 < count w (mat_sem self))%nat ->
  mat w = encode (record_text sh dt w0 w1) ->
  sh <> [] -> Forall (fun d => 0 < d) sh ->
  isascii dt = true -> contains "*" dt = false -> contains "|" dt = false ->
  exists w',
    exec (_deserialize np self) w
      = if np dt then Returned (set_meta self sh dt, (sh, dt)) w
        else Raised AttributeError w'.
Proof.
  intros Hfree Hmat Hne Hsh Ha Hs Hb.
  destruct (count w (mat_sem self)) as [|c] eqn:Hc; [lia|].
  unfold _deserialize. cbn -[decode split remove_char]. rewrite Hc.
  cbn -[decode split remove_char]. rewrite Hmat.
  rewrite decode_encode by (apply record_text_ascii; assumption).
  cbn -[decode split remove_char].
  rewrite record_text_parts by assumption.
  rewrite shape_text_split by assumption.
  cbn. destruct (np dt).
  - cbn. unfold count. cbn. rewrite lookup_insert_eq. cbn.
    rewrite (acquire_release_id w (mat_sem self) c Hc).
    exists w. destruct w; reflexivity.
  - cbn. eexists. reflexivity.
Qed.

End Metadata.

Lemma dtype_name_plain (d : supported) :
  Py.isascii (dtype_name d) = true
  /\ Py.contains "*" (dtype_name d) = false
  /\ Py.contains "|" (dtype_name d) = false
  /\ (String.length (dtype_name d) <= 19)%nat.
Proof. destruct d; repeat split; cbn; lia. Qed.

(** What the publisher's [_serialize] followed by a subscriber's
    [_deserialize] gives, for any dtype string that fits the record. *)
Lemma metadata_roundtrip_exec
    (np_hasattr : string -> bool) (pub sub : SharedFrame)
    (sh : list Z) (dt : string) (w : world) :
  sh <> [] ->
  Forall (fun d => 0 < d) sh ->
  (String.length (shape_text sh) <= 20)%nat ->
  Py.isascii dt = true ->
  Py.contains "*" dt = false ->
  Py.contains "|" dt = false ->
  (String.length dt <= 19)%nat ->
  length (mat w) = 40%nat ->
  (0 < count w (mat_sem pub))%nat ->
  (0 < count w (mat_sem sub))%nat ->
  exists w',
    exec (metadata_roundtrip np_hasattr pub sub sh dt) w
      = if np_hasattr dt
        then Returned (set_meta sub sh dt, (sh, dt))
               (set_mat w (Py.encode (record_text sh dt 20 19)))
        else Raised Py.AttributeError w'.
Proof.
  intros Hne Hsh Hfit Ha Hs Hb Hd Hlen Hp Hq.
  unfold metadata_roundtrip. rewrite exec_bind.
  rewrite serialize_exec by assumption.
  apply (deserialize_exec np_hasattr sub sh dt 20 19); try assumption.
  reflexivity.
Qed.

(** C2, for the shapes that fit: for every non-empty shape of positive
    integers whose text [d0xd1x...] has at most 20 characters and every
    supported dtype (whose name [numpy] knows), [_serialize] into the 40-byte
    metadata region followed by [_deserialize] returns the shape and the
    dtype. *)
Theorem metadata_roundtrip_returns_shape_and_dtype
    (np_hasattr : string -> bool) (pub sub : SharedFrame)
    (sh : list Z) (d : supported) (w : world) :
  sh <> [] ->
  Forall (fun n => 0 < n) sh ->
  (String.length (shape_text sh) <= 20)%nat ->
  np_hasattr (dtype_name d) = true ->
  length (mat w) = 40%nat ->
  (0 < count w (mat_sem pub))%nat ->
  (0 < count w (mat_sem sub))%nat ->
  exists w',
    exec (metadata_roundtrip np_hasattr pub sub sh (dtype_name d)) w
      = Returned (set_meta sub sh (dtype_name d), (sh, dtype_name d)) w'.
Proof.
  intros Hne Hsh Hfit Hnp Hlen Hp Hq.
  destruct (dtype_name_plain d) as (Ha & Hs & Hb & Hd).
  destruct (metadata_roundtrip_exec np_hasattr pub sub sh (dtype_name d) w)
    as (w' & E); try assumption.
  rewrite Hnp in E. eexists. exact E.
Qed.

Lemma metadata_roundtrip_returns_shape_and_dtype_witness :
  exists w',
    exec (metadata_roundtrip T1.np_hasattr T1.pub_up T1.sub_up
            [288; 320; 1] (dtype_name I16)) T1.w_up
      = Returned (set_meta T1.sub_up [288; 320; 1] (dtype_name I16),
                  ([288; 320; 1], dtype_name I16)) w'.
Proof.
  apply (metadata_roundtrip_returns_shape_and_dtype T1.np_hasattr
           T1.pub_up T1.sub_up [288; 320; 1] I16 T1.w_up).
  - discriminate.
  - repeat constructor; lia.
  - vm_compute. lia.
  - vm_compute. reflexivity.
  - vm_compute. reflexivity.
  - vm_compute. lia.
  - vm_compute. lia.
Defined.

(** C2 as stated fails on a shape of four positive dimensions whose text
    has 27 characters: the record would take 47 bytes, the store into the
    40-byte region raises, and nothing is read back. *)
Lemma metadata_roundtrip_long_shape_raises :
  T1.long_shape <> []
  /\ Forall (fun n => 0 < n) T1.long_shape
  /\ (length T1.long_shape <= 4)%nat
  /\ exists w',
       exec (metadata_roundtrip T1.np_hasattr T1.pub_up T1.sub_up
               T1.long_shape (dtype_name U8)) T1.w_up
         = Raised Py.ValueError w'.
Proof.
  split; [discriminate|]. split; [repeat constructor; lia|].
  split; [cbn; lia|]. eexists. vm_compute. reflexivity.
Qed.

(** C5, with the widths of the code: for every supported dtype and every
    shape whose text has at most 20 characters,
    [_serialize] stores a record of exactly 40 bytes: the shape text padded
    right with [*] to width 20, one [|], the dtype name padded right with [*]
    to width 19. *)
Theorem serialize_record_layout
    (self : SharedFrame) (sh : list Z) (d : supported) (w : world) :
  (String.length (shape_text sh) <= 20)%nat ->
  length (mat w) = 40%nat ->
  (0 < count w (mat_sem self))%nat ->
  exists w',
    exec (_serialize self sh (dtype_name d)) w = Returned tt w'
    /\ mat w' = Py.encode (Py.ljust (shape_text sh) 20 "*" +:+ "|"
                             +:+ Py.ljust (dtype_name d) 19 "*")
    /\ length (mat w') = 40%nat
    /\ String.length (Py.ljust (shape_text sh) 20 "*") = 20%nat
    /\ String.length (Py.ljust (dtype_name d) 19 "*") = 19%nat.
Proof.
  intros Hfit Hlen Hfree.
  destruct (dtype_name_plain d) as (_ & _ & _ & Hd).
  exists (set_mat w (Py.encode (record_text sh (dtype_name d) 20 19))).
  split; [apply serialize_exec; assumption|]. split; [reflexivity|].
  split.
  - cbn [mat set_mat].
    rewrite PyFacts.length_encode, record_text_length by assumption.
    reflexivity.
  - split; apply PyFacts.length_ljust; assumption.
Qed.

Lemma serialize_record_layout_witness :
  exists w',
    exec (_serialize T1.pub_up [288; 320; 1] (dtype_name I16)) T1.w_up
      = Returned tt w'
    /\ mat w' = Py.encode (Py.ljust (shape_text [288; 320; 1]) 20 "*" +:+ "|"
                             +:+ Py.ljust (dtype_name I16) 19 "*")
    /\ length (mat w') = 40%nat
    /\ String.length (Py.ljust (shape_text [288; 320; 1]) 20 "*") = 20%nat
    /\ String.length (Py.ljust (dtype_name I16) 19 "*") = 19%nat.
Proof.
  apply (serialize_record_layout T1.pub_up [288; 320; 1] I16 T1.w_up).
  - vm_compute. lia.
  - vm_compute. reflexivity.
  - vm_compute. lia.
Defined.

(** C5 as stated fails on the first scenario of the specification: for
    shape [(2, 2)] and [uint8] the separator is byte 20 of the record, where
    the layout of the specification (widths 21 and 18) has padding. *)
Lemma serialize_record_is_not_21_18 :
  exists w',
    exec (_serialize T1.pub_up [2; 2] (dtype_name U8)) T1.w_up = Returned tt w'
    /\ mat w' <> spec_record [2; 2] (dtype_name U8)
    /\ mat w' !! 20%nat = Some "|"%char
    /\ spec_record [2; 2] (dtype_name U8) !! 20%nat = Some "*"%char.
Proof.
  eexists. split; [vm_compute; reflexivity|].
  split; [vm_compute; discriminate|]. split; vm_compute; reflexivity.
Qed.

(** C6, as the code has it: the dtype name of the record is looked up in
    [numpy]. For a record written with a dtype string of at most 19 ASCII
    characters other than [*] and [|], [_deserialize] returns when [numpy]
    has an attribute of that name, whether it is one of the six supported
    names or not, and raises [AttributeError] when it has none. *)
Theorem deserialize_succeeds_iff_numpy_has_name
    (np_hasattr : string -> bool) (pub sub : SharedFrame)
    (sh : list Z) (dt : string) (w : world) :
  sh <> [] ->
  Forall (fun n => 0 < n) sh ->
  (String.length (shape_text sh) <= 20)%nat ->
  Py.isascii dt = true ->
  Py.contains "*" dt = false ->
  Py.contains "|" dt = false ->
  (String.length dt <= 19)%nat ->
  length (mat w) = 40%nat ->
  (0 < count w (mat_sem pub))%nat ->
  (0 < count w (mat_sem sub))%nat ->
  (np_hasattr dt = true ->
   exists w',
     exec (metadata_roundtrip np_hasattr pub sub sh dt) w
       = Returned (set_meta sub sh dt, (sh, dt)) w')
  /\ (np_hasattr dt = false ->
      exists w',
        exec (metadata_roundtrip np_hasattr pub sub sh dt) w
          = Raised Py.AttributeError w').
Proof.
  intros Hne Hsh Hfit Ha Hs Hb Hd Hlen Hp Hq.
  destruct (metadata_roundtrip_exec np_hasattr pub sub sh dt w)
    as (w' & E); try assumption.
  split; intros Hnp; rewrite Hnp in E; eexists; exact E.
Qed.

Lemma deserialize_succeeds_iff_numpy_has_name_witness :
  exists w',
    exec (metadata_roundtrip T1.np_hasattr T1.pub_up T1.sub_up [2; 2] "float16")
         T1.w_up
      = Returned (set_meta T1.sub_up [2; 2] "float16", ([2; 2], "float16")) w'.
Proof.
  apply (deserialize_succeeds_iff_numpy_has_name T1.np_hasattr
           T1.pub_up T1.sub_up [2; 2] "float16" T1.w_up).
  - discriminate.
  - repeat constructor; lia.
  - vm_compute. lia.
  - vm_compute. reflexivity.
  - vm_compute. reflexivity.
  - vm_compute. reflexivity.
  - vm_compute. lia.
  - vm_compute. reflexivity.
  - vm_compute. lia.
  - vm_compute. lia.
  - vm_compute. reflexivity.
Defined.

(** C6 as stated fails on [uint16]: it is none of the six supported names,
    and the record written with it is parsed without an error. *)
Lemma deserialize_accepts_uint16 :
  ("uint16" ∉ dtype_name <$> [U8; I16; I32; I64; F32; F64])
  /\ exists sub' w',
       exec (metadata_roundtrip T1.np_hasattr T1.pub_up T1.sub_up [2; 2] "uint16")
            T1.w_up
         = Returned (sub', ([2; 2], "uint16")) w'.
Proof.
  split.
  - intros H. cbn in H. repeat (apply elem_of_cons in H as [H|H]; [discriminate|]).
    inversion H.
  - eexists _, _. vm_compute. reflexivity.
Qed.

(** * More of [memory.py] *)

(** ** [numbers_sum] *)

Lemma sum_replicate (k : nat) (x : Z) :
  foldr Z.add 0 (replicate k x) = Z.of_nat k * x.
Proof.
  induction k as [|k IH]; [reflexivity|]. cbn [replicate foldr]. rewrite IH. lia.
Qed.

Lemma sum_app (l1 l2 : list Z) :
  foldr Z.add 0 (l1 ++ l2) = foldr Z.add 0 l1 + foldr Z.add 0 l2.
Proof. induction l1 as [|a l IH]; cbn [app foldr]; [|rewrite IH]; lia. Qed.

(** X1: for positive [tot] and [n], [numbers_sum(tot, n)] has [n] parts that
    add up to [tot]: first [tot % n] parts equal to [tot // n + 1], then the
    others equal to [tot // n]. *)
Theorem numbers_sum_splits (tot n : Z) :
  0 < tot -> 0 < n ->
  length (numbers_sum tot n) = Z.to_nat n
  /\ foldr Z.add 0 (numbers_sum tot n) = tot
  /\ exists big small,
       numbers_sum tot n = big ++ small
       /\ Forall (fun p => p = tot / n + 1) big
       /\ Forall (fun p => p = tot / n) small
       /\ Z.of_nat (length big) = tot mod n.
Proof.
  intros Ht Hn. unfold numbers_sum.
  destruct ((tot <=? 0) || (n <=? 0)) eqn:E.
  { apply orb_prop in E as [E|E]; lia. }
  pose proof (Z.mod_pos_bound tot n Hn) as Hm.
  pose proof (Z.div_mod tot n ltac:(lia)) as Hd.
  split; [|split].
  - rewrite length_app, !length_replicate. lia.
  - rewrite sum_app, !sum_replicate. rewrite !Z2Nat.id by lia. nia.
  - eexists _, _. split; [reflexivity|]. split; [|split].
    + apply Forall_replicate. reflexivity.
    + apply Forall_replicate. reflexivity.
    + rewrite length_replicate. lia.
Qed.

Lemma numbers_sum_splits_witness :
  length (numbers_sum 41 3) = Z.to_nat 3
  /\ foldr Z.add 0 (numbers_sum 41 3) = 41
  /\ exists big small,
       numbers_sum 41 3 = big ++ small
       /\ Forall (fun p => p = 41 / 3 + 1) big
       /\ Forall (fun p => p = 41 / 3) small
       /\ Z.of_nat (length big) = 41 mod 3.
Proof. apply (numbers_sum_splits 41 3); lia. Defined.

(** ** [write] with a timestamp that does not fit *)

Lemma to_bytes_out_of_range (ts : Z) (n : nat) :
  ts < 0 \/ 256 ^ Z.of_nat n <= ts -> Py.to_bytes ts n = None.
Proof.
  intros H. unfold Py.to_bytes.
  destruct ((0 <=? ts) && (ts <? 256 ^ Z.of_nat n)) eqn:E; [|reflexivity].
  apply andb_prop in E as [E1 E2]. lia.
Qed.

(** X2: [write] with a payload of the right size and a timestamp that is
    negative or at least [2^64] raises [OverflowError] from
    [stm.to_bytes(8, "little")], after the payload was stored: the frame
    region holds the new payload, the timestamp region still the old
    timestamp, and the frame semaphore stays held. *)
Theorem write_bad_timestamp_tears_frame
    (system : platform) (self : SharedFrame) (data : bytes) (ts : Z) (w : world) :
  ts < 0 \/ 2 ^ 64 <= ts ->
  length data = frame_bytes w ->
  (0 < count w (ram_sem self))%nat ->
  exists w',
    exec (write system self data ts) w = Raised Py.OverflowError w'
    /\ ram w' = data
    /\ stm w' = stm w
    /\ S (count w' (ram_sem self)) = count w (ram_sem self)
    /\ trace (write system self data ts) w =
         [Ev (Sem_acquire (ram_sem self)) tt; Ev (Ram_store data) (inr tt)].
Proof.
  intros Hts Hl Hfree.
  destruct (count w (ram_sem self)) as [|c] eqn:Hc; [lia|].
  unfold write. cbn -[Py.to_bytes fanout]. rewrite Hc. cbn -[Py.to_bytes fanout].
  destruct (decide (length data = length (ram w))) as [_|N]; [|contradiction].
  cbn -[Py.to_bytes fanout].
  rewrite (to_bytes_out_of_range ts 8) by exact Hts.
  cbn. eexists. split; [reflexivity|]. split; [reflexivity|]. split; [reflexivity|].
  split; [|reflexivity].
  unfold count. cbn. rewrite lookup_insert_eq. reflexivity.
Qed.

Lemma write_bad_timestamp_tears_frame_witness :
  exists w',
    exec (write Linux T1.pub T1.frame1 (-1)) T1.w0 = Raised Py.OverflowError w'
    /\ ram w' = T1.frame1
    /\ stm w' = stm T1.w0
    /\ S (count w' (ram_sem T1.pub)) = count T1.w0 (ram_sem T1.pub)
    /\ trace (write Linux T1.pub T1.frame1 (-1)) T1.w0 =
         [Ev (Sem_acquire (ram_sem T1.pub)) tt;
          Ev (Ram_store T1.frame1) (inr tt)].
Proof.
  apply (write_bad_timestamp_tears_frame Linux T1.pub T1.frame1 (-1) T1.w0).
  - lia.
  - vm_compute. reflexivity.
  - vm_compute. lia.
Defined.

(** ** [read] that raises between entry and exit *)

Lemma ndarray_view_raises (np_itemsize : string -> option nat)
    (self : SharedFrame) (e : Py.exn) (w w1 : world) :
  length (ram w1) = length (ram w) ->
  exec (ndarray_view np_itemsize self) w = Raised e w ->
  exec (ndarray_view np_itemsize self) w1 = Raised e w1.
Proof.
  intros Hl. unfold ndarray_view.
  destruct (shape self) as [sh|]; cbn -[np_prod]; [|intros [= <-]; reflexivity].
  destruct (forallb (fun d => 0 <=? d) sh); cbn -[np_prod];
    [|intros [= <-]; reflexivity].
  destruct (np_itemsize (dtype self)) as [item|]; cbn -[np_prod];
    [|intros [= <-]; reflexivity].
  rewrite Hl.
  destruct (Z.to_nat (np_prod sh) * item <=? length (ram w))%nat; cbn;
    [discriminate|intros [= <-]; reflexivity].
Qed.

(** X3: when [np.ndarray(shape=self.shape, dtype=self.dtype,
    buffer=self.ram)] raises (no [shape] attribute, a negative dimension, a
    dtype that is none, a buffer too small), [read] raises that error after
    the entry protocol and before the exit protocol: the reader counter stays
    at 1 and the frame semaphore stays held, so that every later [write] on
    the topic waits. *)
Theorem read_error_inside_locks_writer
    (np_itemsize : string -> option nat) (self : SharedFrame)
    (r_id : string) (wake : sem) (e : Py.exn) (w : world) :
  cnt w = 0 ->
  sems self !! r_id = Some wake ->
  (0 < count w wake)%nat ->
  (0 < count w (cnt_sem self))%nat ->
  count w (ram_sem self) = 1%nat ->
  sem_id wake <> sem_id (cnt_sem self) ->
  sem_id wake <> sem_id (ram_sem self) ->
  sem_id (cnt_sem self) <> sem_id (ram_sem self) ->
  exec (ndarray_view np_itemsize self) w = Raised e w ->
  exists w',
    exec (read np_itemsize self r_id) w = Raised e w'
    /\ cnt w' = 1
    /\ count w' (ram_sem self) = O
    /\ count w' (cnt_sem self) = count w (cnt_sem self)
    /\ ram w' = ram w /\ stm w' = stm w
    /\ forall system pub data ts,
         sem_id (ram_sem pub) = sem_id (ram_sem self) ->
         exec (write system pub data ts) w'
           = Blocked w' (write system pub data ts).
Proof.
  intros Hcnt Hreg Hwake Hcs Hrs Hwc Hwr Hcr Hview.
  destruct (count w wake) as [|a] eqn:Ha; [lia|].
  destruct (count w (cnt_sem self)) as [|b] eqn:Hb; [lia|].
  unfold count in *.
  unfold read. rewrite Hreg. cbn [of_option bind].
  cbn -[wrap32 Py.from_bytes ndarray_view]. unfold count. rewrite Ha.
  cbn -[wrap32 Py.from_bytes ndarray_view]. unfold count.
  cbn -[wrap32 Py.from_bytes ndarray_view].
  rewrite lookup_insert_ne by congruence. rewrite Hb.
  cbn -[wrap32 Py.from_bytes ndarray_view].
  rewrite Hcnt. change (wrap32 (0 + 1)) with 1.
  cbn -[wrap32 Py.from_bytes ndarray_view]. unfold count.
  cbn -[wrap32 Py.from_bytes ndarray_view].
  rewrite !lookup_insert_ne by congruence. rewrite Hrs.
  cbn -[wrap32 Py.from_bytes ndarray_view].
  rewrite exec_bind.
  match goal with
  | |- context [exec (ndarray_view _ _) ?w1] =>
      rewrite (ndarray_view_raises np_itemsize self e w w1 eq_refl Hview)
  end.
  eexists. split; [reflexivity|]. cbn.
  split; [reflexivity|]. split.
  { unfold count. cbn. rewrite lookup_insert_ne by congruence.
    rewrite lookup_insert_eq. reflexivity. }
  split.
  { unfold count. cbn. rewrite lookup_insert_eq. cbn.
    rewrite lookup_insert_ne by congruence. rewrite lookup_insert_eq.
    reflexivity. }
  split; [reflexivity|]. split; [reflexivity|].
  intros system pub data ts Hid. unfold write. cbn -[Py.to_bytes fanout].
  unfold count. cbn -[Py.to_bytes fanout]. rewrite Hid.
  rewrite lookup_insert_ne by congruence. rewrite lookup_insert_eq. reflexivity.
Qed.

Lemma read_error_inside_locks_writer_witness :
  exists w',
    exec (read T1.np_itemsize More.sub_wide "aaaa") T1.w0 = Raised Py.TypeError w'
    /\ cnt w' = 1
    /\ count w' (ram_sem More.sub_wide) = O
    /\ count w' (cnt_sem More.sub_wide) = count T1.w0 (cnt_sem More.sub_wide)
    /\ ram w' = ram T1.w0 /\ stm w' = stm T1.w0
    /\ forall system pub data ts,
         sem_id (ram_sem pub) = sem_id (ram_sem More.sub_wide) ->
         exec (write system pub data ts) w'
           = Blocked w' (write system pub data ts).
Proof.
  apply (read_error_inside_locks_writer T1.np_itemsize More.sub_wide "aaaa"
           T1.wake Py.TypeError T1.w0);
    try (vm_compute; reflexivity); try (vm_compute; lia).
Defined.

(** ** [signout] of a registered id *)

Section Signout.
Variable system : platform.
Variables (self : SharedFrame) (r_name : string) (s : sem) (w : world).
Hypothesis registered : sems self !! r_name = Some s.

(** The name is gone already: the unlink raises, the handler swallows. *)
Lemma signout_unlinked :
  sem_names w !! sem_name s = None ->
  exec (signout system self r_name) w = Returned self w
  /\ trace (signout system self r_name) w
       = [Ev (Sem_unlink (sem_name s)) (inl Py.ExistentialError)].
Proof.
  intros Hn. unfold signout. rewrite registered. cbn. rewrite Hn.
  split; reflexivity.
Qed.

Lemma signout_sent (i : nat) :
  sem_names w !! sem_name s = Some i ->
  mq w = [] ->
  (system = Darwin -> mode self = ModeR) ->
  exec (signout system self r_name) w
    = Returned (set_registry self (delete r_name (sems self)))
        (set_mq (set_sems w (delete (sem_name s) (sem_names w)) (sem_vals w))
           [Msg r_name "signout"]).
Proof.
  intros Hn Hq Hm. unfold signout. rewrite registered. cbn. rewrite Hn. cbn.
  unfold comm_send. destruct system.
  - rewrite (Hm eq_refl). cbn. rewrite Hq. reflexivity.
  - cbn. rewrite Hq. reflexivity.
Qed.

Lemma signout_darwin_publisher (i : nat) :
  sem_names w !! sem_name s = Some i ->
  system = Darwin -> mode self = ModeW ->
  exec (signout system self r_name) w
    = Returned self
        (set_sems w (delete (sem_name s) (sem_names w)) (sem_vals w)).
Proof.
  intros Hn -> Hm. unfold signout. rewrite registered. cbn. rewrite Hn. cbn.
  rewrite Hm. reflexivity.
Qed.

Lemma signout_queue_full (i : nat) (m : message) (q : list message) :
  sem_names w !! sem_name s = Some i ->
  mq w = m :: q ->
  system = Linux ->
  exists rest,
    exec (signout system self r_name) w
      = Blocked (set_sems w (delete (sem_name s) (sem_names w)) (sem_vals w))
          rest.
Proof.
  intros Hn Hq ->. unfold signout. rewrite registered. cbn. rewrite Hn. cbn.
  rewrite Hq. eexists. reflexivity.
Qed.

End Signout.

(** X4: [signout] never raises, whatever the state: it returns the object
    either as it was or with exactly the entry of [r_name] removed, or (with
    the POSIX queue, when the queue is full) it waits in [comm.send]. In no
    case does it change the count of a semaphore or a byte of a region. *)
Theorem signout_never_raises
    (system : platform) (self : SharedFrame) (r_name : string) (w : world) :
  match exec (signout system self r_name) w with
  | Returned self' w' =>
      (self' = self \/ self' = set_registry self (delete r_name (sems self)))
      /\ sem_vals w' = sem_vals w
      /\ ram w' = ram w /\ stm w' = stm w /\ cnt w' = cnt w /\ mat w' = mat w
  | Raised _ _ => False
  | Blocked w' _ =>
      system = Linux /\ mq w <> []
      /\ sem_vals w' = sem_vals w
      /\ ram w' = ram w /\ stm w' = stm w /\ cnt w' = cnt w /\ mat w' = mat w
  end.
Proof.
  destruct (sems self !! r_name) as [s|] eqn:Hr.
  - destruct (sem_names w !! sem_name s) as [i|] eqn:Hn.
    + destruct (mode self) eqn:Hm, system eqn:Hs.
      * rewrite (signout_darwin_publisher Darwin self r_name s w Hr i Hn
                   eq_refl Hm).
        cbn. auto 10.
      * destruct (mq w) as [|m q] eqn:Hq.
        -- rewrite (signout_sent Linux self r_name s w Hr i Hn Hq)
             by discriminate.
           cbn. auto 10.
        -- destruct (signout_queue_full Linux self r_name s w Hr i m q Hn Hq
                       eq_refl) as (rest & ->).
           cbn. repeat split; try reflexivity. discriminate.
      * unfold signout. rewrite Hr. cbn. rewrite Hn. cbn. rewrite Hm. cbn.
        auto 10.
      * destruct (mq w) as [|m q] eqn:Hq.
        -- rewrite (signout_sent Linux self r_name s w Hr i Hn Hq)
             by discriminate.
           cbn. auto 10.
        -- destruct (signout_queue_full Linux self r_name s w Hr i m q Hn Hq
                       eq_refl) as (rest & ->).
           cbn. repeat split; try reflexivity. discriminate.
    + destruct (signout_unlinked system self r_name s w Hr Hn) as [-> _].
      cbn. auto 10.
  - unfold signout. rewrite Hr. cbn. auto 10.
Qed.

(** X5: a subscriber that signs out while the name of its wake semaphore
    exists (and the control queue is empty) unlinks the name, sends
    [{"r_id": ..., "command": "signout"}] and drops its entry; the kernel
    object and every count are as before. Its next [read] of that id raises
    [KeyError] before it touches any shared object. *)
Theorem signout_then_read_raises_key_error
    (system : platform) (np_itemsize : string -> option nat)
    (sub : SharedFrame) (r_id : string) (s : sem) (i : nat) (w : world) :
  mode sub = ModeR ->
  sems sub !! r_id = Some s ->
  sem_names w !! sem_name s = Some i ->
  mq w = [] ->
  exists sub' w',
    exec (signout system sub r_id) w = Returned sub' w'
    /\ sems sub' !! r_id = None
    /\ sem_names w' !! sem_name s = None
    /\ mq w' = [Msg r_id "signout"]
    /\ sem_vals w' = sem_vals w
    /\ exec (read np_itemsize sub' r_id) w' = Raised Py.KeyError w'
    /\ trace (read np_itemsize sub' r_id) w' = [].
Proof.
  intros Hm Hr Hn Hq. eexists _, _.
  split; [apply (signout_sent system sub r_id s w Hr i Hn Hq); intros _; exact Hm|].
  cbn. split; [apply lookup_delete_eq|]. split; [apply lookup_delete_eq|].
  split; [reflexivity|]. split; [reflexivity|].
  unfold read. cbn. rewrite lookup_delete_eq. split; reflexivity.
Qed.

Lemma signout_then_read_raises_key_error_witness :
  exists sub' w',
    exec (signout Linux T1.sub "aaaa") T1.w0 = Returned sub' w'
    /\ sems sub' !! "aaaa" = None
    /\ sem_names w' !! sem_name T1.wake = None
    /\ mq w' = [Msg "aaaa" "signout"]
    /\ sem_vals w' = sem_vals T1.w0
    /\ exec (read T1.np_itemsize sub' "aaaa") w' = Raised Py.KeyError w'
    /\ trace (read T1.np_itemsize sub' "aaaa") w' = [].
Proof.
  apply (signout_then_read_raises_key_error Linux T1.np_itemsize T1.sub "aaaa"
           T1.wake 4 T1.w0); vm_compute; reflexivity.
Defined.

(** What [write] does to the counts on a platform that shows them. *)
Lemma write_linux_counts
    (self : SharedFrame) (data : bytes) (ts : Z) (w w' : world) :
  exec (write Linux self data ts) w = Returned tt w' ->
  (forall s, count w' s = count w s \/ (count w s = O /\ count w' s = 1%nat))
  /\ forall k s, sems self !! k = Some s -> (1 <= count w' s)%nat.
Proof.
  intros E.
  destruct (write_inv Linux self data ts w w' E) as (c & b & Hc & _ & _ & _ & Ef).
  destruct (fanout_linux self (fst <$> map_to_list (sems self))
              (written self w c data b)) as (v' & Ev' & M & G).
  rewrite Ev' in Ef. injection Ef as <-. split.
  - intros s. rewrite count_set_vals. unfold count.
    specialize (M (sem_id s)).
    rewrite (written_count self w c data b (sem_id s) Hc) in M. exact M.
  - intros k s Hk. rewrite count_set_vals. apply (G k s); [|exact Hk].
    apply list_elem_of_fmap. exists (k, s). split; [reflexivity|].
    apply elem_of_map_to_list. exact Hk.
Qed.

(** X6: the sign-out of [Client.close]. The subscriber's [signout] unlinks
    the name and sends the message; when the listener of the publisher then
    handles that message, the publisher's own [signout] finds the name gone,
    the unlink raises, the handler swallows it, and the entry is never
    deleted: the publisher comes out unchanged, and each later [write] still
    releases that semaphore when its count is 0. *)
Theorem subscriber_signout_leaves_publisher_entry
    (system : platform) (pub sub : SharedFrame) (r_id : string)
    (s s' : sem) (i : nat) (w : world) :
  mode sub = ModeR ->
  sems sub !! r_id = Some s ->
  sems pub !! r_id = Some s' ->
  sem_name s' = sem_name s ->
  sem_names w !! sem_name s = Some i ->
  mq w = [] ->
  exists sub' w1 w2,
    exec (signout system sub r_id) w = Returned sub' w1
    /\ sems sub' !! r_id = None
    /\ exec (dsync_step system pub) w1 = Returned pub w2
    /\ mq w2 = []
    /\ sem_vals w2 = sem_vals w
    /\ forall data ts w3,
         exec (write Linux pub data ts) w2 = Returned tt w3 ->
         count w3 s' = Nat.max 1 (count w s').
Proof.
  intros Hm Hr Hp Hnm Hn Hq. eexists _, _, _.
  split; [apply (signout_sent system sub r_id s w Hr i Hn Hq); intros _; exact Hm|].
  cbn. split; [apply lookup_delete_eq|].
  unfold dsync_step, comm_recv. cbn -[signin signout].
  destruct (decide ("signout" = "signin")) as [N|_]; [discriminate|].
  cbn -[signin signout].
  destruct (decide ("signout" = "signout")) as [_|N]; [|contradiction].
  match goal with
  | |- exec (signout _ _ _) ?w1 = _ /\ _ =>
      destruct (signout_unlinked system pub r_id s' w1 Hp) as [E _]
  end.
  { cbn. rewrite Hnm. apply lookup_delete_eq. }
  rewrite E. split; [reflexivity|]. cbn. split; [reflexivity|].
  split; [reflexivity|].
  intros data ts w3 Ew.
  destruct (write_linux_counts pub data ts _ w3 Ew) as [M G].
  specialize (M s'). specialize (G r_id s' Hp).
  unfold count in *. cbn in M. lia.
Qed.

Lemma subscriber_signout_leaves_publisher_entry_witness :
  exists sub' w1 w2,
    exec (signout Linux T1.sub "aaaa") T1.w0 = Returned sub' w1
    /\ sems sub' !! "aaaa" = None
    /\ exec (dsync_step Linux T1.pub) w1 = Returned T1.pub w2
    /\ mq w2 = []
    /\ sem_vals w2 = sem_vals T1.w0
    /\ forall data ts w3,
         exec (write Linux T1.pub data ts) w2 = Returned tt w3 ->
         count w3 T1.wake = Nat.max 1 (count T1.w0 T1.wake).
Proof.
  apply (subscriber_signout_leaves_publisher_entry Linux T1.pub T1.sub "aaaa"
           T1.wake T1.wake 4 T1.w0); vm_compute; reflexivity.
Defined.

(** ** The fan-out, counted *)

Lemma distinct_objects_injective (self : SharedFrame) :
  distinct_objects self ->
  forall k1 k2 s1 s2,
    sems self !! k1 = Some s1 -> sems self !! k2 = Some s2 ->
    sem_id s1 = sem_id s2 -> k1 = k2.
Proof.
  intros Hnd k1 k2 s1 s2 H1 H2 Hid. unfold distinct_objects in Hnd.
  apply elem_of_map_to_list in H1, H2.
  apply list_elem_of_lookup in H1 as [i1 H1], H2 as [i2 H2].
  assert (i1 = i2).
  { apply (NoDup_lookup _ i1 i2 (sem_id s1) Hnd).
    - rewrite list_lookup_fmap, H1. reflexivity.
    - rewrite list_lookup_fmap, H2. cbn. rewrite Hid. reflexivity. }
  subst. rewrite H1 in H2. congruence.
Qed.

Section FanoutMore.
Variable self : SharedFrame.
Local Abbreviation cnt_in v i := (default 0%nat (v !! i)).

Lemma fanout_darwin (keys : list string) (w : world) :
  exists v',
    exec (fanout Darwin self keys) w = Returned tt (set_vals w v')
    /\ forall i, cnt_in v' i = (cnt_in (sem_vals w) i + hits self i keys)%nat.
Proof.
  revert w. induction keys as [|k rest IH]; intros w.
  - exists (sem_vals w). split; [destruct w; reflexivity|].
    intros i. cbn. lia.
  - cbn [fanout hits]. rewrite exec_bind.
    destruct (sems self !! k) as [s|] eqn:Hk; cbn.
    + destruct (IH (set_vals w (<[sem_id s := S (count w s)]> (sem_vals w))))
        as (v' & E & M).
      exists v'. split; [exact E|]. intros i. rewrite (M i). cbn.
      destruct (decide (sem_id s = i)) as [<-|Hne].
      * rewrite lookup_insert_eq. cbn. unfold count. lia.
      * rewrite lookup_insert_ne by congruence. lia.
    + destruct (IH w) as (v' & E & M).
      exists v'. split; [exact E|]. intros i. rewrite (M i). lia.
Qed.

Lemma fanout_untouched (system : platform) (keys : list string) (w : world) :
  exists v',
    exec (fanout system self keys) w = Returned tt (set_vals w v')
    /\ forall i, hits self i keys = O -> cnt_in v' i = cnt_in (sem_vals w) i.
Proof.
  destruct system.
  - destruct (fanout_darwin keys w) as (v' & E & M).
    exists v'. split; [exact E|]. intros i Hi. rewrite (M i), Hi. lia.
  - revert w. induction keys as [|k rest IH]; intros w.
    + exists (sem_vals w). split; [destruct w; reflexivity|]. reflexivity.
    + cbn [fanout hits]. rewrite exec_bind.
      destruct (sems self !! k) as [s|] eqn:Hk.
      * cbn. destruct (count w s) as [|c] eqn:Hc; cbn.
        -- rewrite Hc.
           destruct (IH (set_vals w (<[sem_id s := 1%nat]> (sem_vals w))))
             as (v' & E & M).
           exists v'. split; [exact E|]. intros i Hi.
           destruct (decide (sem_id s = i)) as [|Hne]; [lia|].
           rewrite (M i) by lia. cbn.
           rewrite lookup_insert_ne by congruence. reflexivity.
        -- destruct (IH w) as (v' & E & M).
           exists v'. split; [exact E|]. intros i Hi.
           destruct (decide (sem_id s = i)) as [|Hne]; [lia|].
           apply M. lia.
      * cbn. destruct (IH w) as (v' & E & M).
        exists v'. split; [exact E|]. intros i Hi. apply M. lia.
Qed.

Lemma hits_absent (i : nat) (keys : list string) :
  (forall k s, k ∈ keys -> sems self !! k = Some s -> sem_id s <> i) ->
  hits self i keys = O.
Proof.
  induction keys as [|k rest IH]; intros H; [reflexivity|]. cbn [hits].
  rewrite IH by (intros k' s' Hin; apply H; right; exact Hin).
  destruct (sems self !! k) as [s|] eqn:Hk; [|reflexivity].
  destruct (decide (sem_id s = i)) as [E|]; [|reflexivity].
  exfalso. exact (H k s ltac:(left) Hk E).
Qed.

Lemma hits_registered (k : string) (s : sem) :
  distinct_objects self ->
  sems self !! k = Some s ->
  hits self (sem_id s) (fst <$> map_to_list (sems self)) = 1%nat.
Proof.
  intros Hd Hk. pose proof (distinct_objects_injective self Hd) as Hinj.
  assert (Hin : k ∈ fst <$> map_to_list (sems self)).
  { apply list_elem_of_fmap. exists (k, s). split; [reflexivity|].
    apply elem_of_map_to_list. exact Hk. }
  pose proof (NoDup_fst_map_to_list (sems self)) as Hnd.
  revert Hin Hnd. generalize (fst <$> map_to_list (sems self)) as l.
  induction l as [|a l IH]; intros Hin Hnd; [inversion Hin|].
  cbn [hits]. apply NoDup_cons in Hnd as [Hna Hnd].
  destruct (decide (a = k)) as [->|Hak].
  - rewrite Hk. destruct (decide (sem_id s = sem_id s)) as [_|]; [|congruence].
    rewrite hits_absent; [reflexivity|].
    intros k' s' Hin' Hk' Hid.
    assert (k' = k) by exact (Hinj k' k s' s Hk' Hk Hid). subst. contradiction.
  - apply elem_of_cons in Hin as [->|Hin]; [congruence|].
    rewrite (IH Hin Hnd).
    destruct (sems self !! a) as [s'|] eqn:Ha; [|reflexivity].
    destruct (decide (sem_id s' = sem_id s)) as [Hid|]; [|reflexivity].
    exfalso. apply Hak. exact (Hinj a k s' s Ha Hk Hid).
Qed.

End FanoutMore.

Lemma write_darwin_counts (self : SharedFrame) (data : bytes) (ts : Z) (w w' : world) :
  exec (write Darwin self data ts) w = Returned tt w' ->
  forall i, default 0%nat (sem_vals w' !! i)
            = (default 0%nat (sem_vals w !! i)
               + hits self i (fst <$> map_to_list (sems self)))%nat.
Proof.
  intros E i.
  destruct (write_inv Darwin self data ts w w' E) as (c & b & Hc & _ & _ & _ & Ef).
  destruct (fanout_darwin self (fst <$> map_to_list (sems self))
              (written self w c data b)) as (v' & Ev' & M).
  rewrite Ev' in Ef. injection Ef as <-. cbn [sem_vals set_vals].
  rewrite (M i), (written_count self w c data b i Hc). reflexivity.
Qed.

Lemma write_untouched (system : platform)
    (self : SharedFrame) (data : bytes) (ts : Z) (w w' : world) (s : sem) :
  exec (write system self data ts) w = Returned tt w' ->
  hits self (sem_id s) (fst <$> map_to_list (sems self)) = O ->
  count w' s = count w s.
Proof.
  intros E Hh.
  destruct (write_inv system self data ts w w' E) as (c & b & Hc & _ & _ & _ & Ef).
  destruct (fanout_untouched self system (fst <$> map_to_list (sems self))
              (written self w c data b)) as (v' & Ev' & M).
  rewrite Ev' in Ef. injection Ef as <-. rewrite count_set_vals.
  rewrite (M (sem_id s) Hh), (written_count self w c data b (sem_id s) Hc).
  reflexivity.
Qed.

Section AtRestMore.
Variable np_itemsize : string -> option nat.
Variables (pub sub : SharedFrame) (r_id : string) (wake : sem) (sh : list Z).

Local Ltac run :=
  cbn -[wrap32 Py.from_bytes ndarray_view np_prod]; unfold count;
  cbn -[wrap32 Py.from_bytes ndarray_view np_prod].

Lemma read_at_rest_exact (w : world) :
  at_rest np_itemsize pub sub r_id wake sh w ->
  exec (read np_itemsize sub r_id) w
    = Returned (Ndarray sh (dtype sub) (ram w), Py.from_bytes (take 8 (stm w)))
        (set_vals w (<[sem_id wake := Nat.pred (count w wake)]> (sem_vals w))).
Proof.
  intros [Hcnt Hreg Hwake Hcs Hrs _ Hwc Hwr Hcr Hstm Hsh Hdims
            (item & Hitem & Hsize)].
  unfold read. rewrite Hreg. cbn [of_option bind].
  destruct (count w wake) as [|a] eqn:Ha; [lia|].
  destruct (count w (cnt_sem sub)) as [|b] eqn:Hb; [lia|].
  destruct (count w (ram_sem sub)) as [|c] eqn:Hc; [lia|].
  unfold count in *.
  run. rewrite Ha. run.
  rewrite lookup_insert_ne by congruence. rewrite Hb. run.
  rewrite Hcnt. change (wrap32 (0 + 1)) with 1. run.
  rewrite !lookup_insert_ne by congruence. rewrite Hc. run.
  rewrite exec_bind.
  erewrite ndarray_view_exec;
    [|exact Hsh|exact Hdims|exact Hitem
     |cbn; unfold frame_bytes in Hsize; lia].
  run. rewrite lookup_insert_eq. run.
  change (wrap32 (1 + -1)) with 0. run.
  repeat first [rewrite lookup_insert_eq | rewrite lookup_insert_ne by congruence];
    cbn [default].
  f_equal.
  - do 2 f_equal. apply take_ge. unfold frame_bytes in Hsize. lia.
  - destruct w as [nm vals r s c0 m q]. cbn in *. subst c0. unfold set_vals. cbn.
    f_equal. apply map_eq. intros j.
    destruct (decide (j = sem_id (cnt_sem sub))) as [->|Hj1].
    { rewrite lookup_insert_eq, lookup_insert_ne by congruence.
      destruct (vals !! sem_id (cnt_sem sub)); cbn in Hb; congruence. }
    rewrite lookup_insert_ne by congruence.
    destruct (decide (j = sem_id (ram_sem sub))) as [->|Hj2].
    { rewrite lookup_insert_eq, lookup_insert_ne by congruence.
      destruct (vals !! sem_id (ram_sem sub)); cbn in Hc; congruence. }
    repeat first
      [ rewrite (lookup_insert_ne _ (sem_id (cnt_sem sub))) by congruence
      | rewrite (lookup_insert_ne _ (sem_id (ram_sem sub))) by congruence ].
    reflexivity.
Qed.
End AtRestMore.

(** X7: on Darwin, where [write] releases without looking at the count, a
    sequence of [write] calls that return raises the count of every
    registered wake semaphore by the number of calls (the registered
    semaphores being different kernel objects): nothing keeps it at 1. *)
Theorem darwin_writes_pile_up
    (self : SharedFrame) (frames : list (bytes * Z)) (w w' : world) :
  distinct_objects self ->
  exec (writes Darwin self frames) w = Returned tt w' ->
  forall k s, sems self !! k = Some s ->
    count w' s = (count w s + length frames)%nat.
Proof.
  intros Hd. revert w.
  induction frames as [|[data ts] rest IH]; intros w E k s Hk.
  - cbn in E. injection E as <-. cbn. lia.
  - cbn [writes] in E. rewrite exec_bind in E.
    destruct (exec (write Darwin self data ts) w) as [[] w1|e w1|w1 r] eqn:E1;
      try discriminate.
    rewrite (IH w1 E k s Hk).
    pose proof (write_darwin_counts self data ts w w1 E1 (sem_id s)) as H1.
    rewrite (hits_registered self k s Hd Hk) in H1.
    unfold count. cbn [length]. lia.
Qed.

Lemma darwin_writes_pile_up_witness :
  count (set_vals
           (set_ram (set_stm T1.w0 (Py.le_bytes 8 101)) T1.frame2)
           (<[4%nat := 3%nat]> (sem_vals T1.w0))) T1.wake
    = (count T1.w0 T1.wake + length [(T1.frame1, 100); (T1.frame2, 101)])%nat.
Proof.
  apply (darwin_writes_pile_up T1.pub [(T1.frame1, 100); (T1.frame2, 101)]
           T1.w0 _ ltac:(unfold distinct_objects; apply (bool_decide_unpack _);
                         vm_compute; exact I)
           ltac:(vm_compute; reflexivity) "aaaa" T1.wake).
  vm_compute. reflexivity.
Defined.

(** X8: on a topic at rest [read] returns, and all it changes is the count
    of the wake semaphore of [r_id], one lower: the reader counter is back at
    0, the counter and frame semaphores are back at their counts, and the
    regions are as they were. *)
Theorem read_changes_only_wake_count
    (np_itemsize : string -> option nat) (pub sub : SharedFrame)
    (r_id : string) (wake : sem) (sh : list Z) (w : world) :
  at_rest np_itemsize pub sub r_id wake sh w ->
  exec (read np_itemsize sub r_id) w
    = Returned (Ndarray sh (dtype sub) (ram w), Py.from_bytes (take 8 (stm w)))
        (set_vals w (<[sem_id wake := Nat.pred (count w wake)]> (sem_vals w))).
Proof. apply read_at_rest_exact. Qed.

Lemma read_changes_only_wake_count_witness :
  exec (read T1.np_itemsize T1.sub "aaaa") T1.w0
    = Returned (Ndarray [2; 2] (dtype T1.sub) (ram T1.w0),
                Py.from_bytes (take 8 (stm T1.w0)))
        (set_vals T1.w0
           (<[sem_id T1.wake := Nat.pred (count T1.w0 T1.wake)]>
              (sem_vals T1.w0))).
Proof.
  apply (read_changes_only_wake_count T1.np_itemsize T1.pub T1.sub "aaaa"
           T1.wake [2; 2] T1.w0).
  constructor; try (vm_compute; reflexivity); try (vm_compute; lia).
  - repeat constructor; lia.
  - exists 1%nat. split; vm_compute; reflexivity.
Defined.

Section Pending.
Variable np_itemsize : string -> option nat.
Variables (pub sub : SharedFrame) (r_id : string) (wake : sem) (sh : list Z).

(** A read that left the wake semaphore available leaves the topic at rest. *)
Lemma at_rest_after_read (w : world) :
  at_rest np_itemsize pub sub r_id wake sh w ->
  (2 <= count w wake)%nat ->
  sem_id wake <> sem_id (ram_sem pub) ->
  at_rest np_itemsize pub sub r_id wake sh
    (set_vals w (<[sem_id wake := Nat.pred (count w wake)]> (sem_vals w))).
Proof.
  intros [Hcnt Hreg Hwake Hcs Hrs Hps Hwc Hwr Hcr Hstm Hsh Hdims Hsize] H2 Hwp.
  constructor; try assumption.
  - rewrite count_set_vals, lookup_insert_eq. cbn. lia.
  - rewrite count_set_vals, lookup_insert_ne by congruence. exact Hcs.
  - rewrite count_set_vals, lookup_insert_ne by congruence. exact Hrs.
  - rewrite count_set_vals, lookup_insert_ne by congruence. exact Hps.
Qed.

Lemma writes_linux_keep_one (frames : list (bytes * Z)) (s : sem) (w w' : world) :
  exec (writes Linux pub frames) w = Returned tt w' ->
  count w s = 1%nat -> count w' s = 1%nat.
Proof.
  revert w. induction frames as [|[data ts] rest IH]; intros w E H1.
  - cbn in E. injection E as <-. exact H1.
  - cbn [writes] in E. rewrite exec_bind in E.
    destruct (exec (write Linux pub data ts) w) as [[] w1|e w1|w1 r] eqn:E1;
      try discriminate.
    apply (IH w1 E).
    destruct (write_linux_counts pub data ts w w1 E1) as [M _].
    specialize (M s). lia.
Qed.

Lemma read_waits (w : world) :
  sems sub !! r_id = Some wake ->
  count w wake = O ->
  exists rest,
    exec (read np_itemsize sub r_id) w = Blocked w rest
    /\ trace (read np_itemsize sub r_id) w = [].
Proof.
  intros Hreg H0. unfold read. rewrite Hreg. cbn. rewrite H0.
  eexists. split; reflexivity.
Qed.

End Pending.

(** X9: at most one publication is pending. On a platform that shows the
    count, with the wake semaphore at 1 on a topic at rest, any number of
    [write] calls leave one wake-up: the first [read] after them returns, and
    a second [read] waits at the wake semaphore, nothing changed, until the
    next [write]. *)
Theorem second_read_waits
    (np_itemsize : string -> option nat) (pub sub : SharedFrame)
    (r_id : string) (wake : sem) (sh : list Z)
    (frames : list (bytes * Z)) (w : world) :
  at_rest np_itemsize pub sub r_id wake sh w ->
  count w wake = 1%nat ->
  Forall (fun f => length (fst f) = frame_bytes w /\ 0 <= snd f < 2 ^ 64) frames ->
  exists w1 v w2 rest,
    exec (writes Linux pub frames) w = Returned tt w1
    /\ exec (read np_itemsize sub r_id) w1 = Returned v w2
    /\ exec (read np_itemsize sub r_id) w2 = Blocked w2 rest
    /\ trace (read np_itemsize sub r_id) w2 = [].
Proof.
  intros Hrest H1 Hok.
  destruct (writes_run Linux np_itemsize pub sub r_id wake sh frames w Hrest Hok)
    as (w1 & E & Hrest1 & _ & _).
  pose proof (writes_linux_keep_one pub frames wake w w1 E H1) as H1'.
  pose proof (read_at_rest_exact np_itemsize pub sub r_id wake sh w1 Hrest1) as Er.
  rewrite H1' in Er. cbn [Nat.pred] in Er.
  destruct (read_waits np_itemsize sub r_id wake
              (set_vals w1 (<[sem_id wake := O]> (sem_vals w1))))
    as (rest & Eb & Tb).
  { apply Hrest. }
  { rewrite count_set_vals, lookup_insert_eq. reflexivity. }
  eexists _, _, _, rest. split; [exact E|]. split; [exact Er|].
  split; [exact Eb|exact Tb].
Qed.

Lemma second_read_waits_witness :
  exists w1 v w2 rest,
    exec (writes Linux T1.pub [(T1.frame1, 100); (T1.frame2, 101)]) T1.w0
      = Returned tt w1
    /\ exec (read T1.np_itemsize T1.sub "aaaa") w1 = Returned v w2
    /\ exec (read T1.np_itemsize T1.sub "aaaa") w2 = Blocked w2 rest
    /\ trace (read T1.np_itemsize T1.sub "aaaa") w2 = [].
Proof.
  apply (second_read_waits T1.np_itemsize T1.pub T1.sub "aaaa" T1.wake [2; 2]
           [(T1.frame1, 100); (T1.frame2, 101)] T1.w0).
  - constructor; try (vm_compute; reflexivity); try (vm_compute; lia).
    + repeat constructor; lia.
    + exists 1%nat. split; vm_compute; reflexivity.
  - vm_compute. reflexivity.
  - repeat constructor; vm_compute; lia || discriminate.
Defined.

(** X10: on Darwin the same publication can be delivered twice. After a
    [write] on a topic at rest whose publisher has [r_id] registered, two
    [read] calls in a row both return, with the same payload and timestamp:
    the second does not wait for a new publication. *)
Theorem darwin_delivers_twice
    (np_itemsize : string -> option nat) (pub sub : SharedFrame)
    (r_id : string) (wake : sem) (sh : list Z)
    (data : bytes) (ts : Z) (w : world) :
  at_rest np_itemsize pub sub r_id wake sh w ->
  distinct_objects pub ->
  sems pub !! r_id = Some wake ->
  sem_id wake <> sem_id (ram_sem pub) ->
  length data = frame_bytes w ->
  0 <= ts < 2 ^ 64 ->
  exists w1 w2 w3,
    exec (write Darwin pub data ts) w = Returned tt w1
    /\ exec (read np_itemsize sub r_id) w1
         = Returned (Ndarray sh (dtype sub) data, ts) w2
    /\ exec (read np_itemsize sub r_id) w2
         = Returned (Ndarray sh (dtype sub) data, ts) w3.
Proof.
  intros Hrest Hd Hreg Hwp Hl Hts.
  destruct (write_runs Darwin pub data ts w) as (w1 & E1);
    [apply Hrest|exact Hl|exact Hts|apply Hrest|].
  pose proof (write_keeps_rest Darwin np_itemsize pub sub r_id wake sh
                data ts w w1 Hrest E1) as Hrest1.
  destruct (write_returned Darwin pub data ts w w1 E1)
    as (Hram & Hb & _ & _ & _ & _).
  apply to_bytes_from_bytes in Hb as [Hb _].
  assert (H2 : (2 <= count w1 wake)%nat).
  { pose proof (write_darwin_counts pub data ts w w1 E1 (sem_id wake)) as Hc.
    rewrite (hits_registered pub r_id wake Hd Hreg) in Hc.
    pose proof (rest_wake _ _ _ _ _ _ _ Hrest). unfold count in *. lia. }
  pose proof (read_at_rest_exact np_itemsize pub sub r_id wake sh w1 Hrest1) as Er1.
  pose proof (at_rest_after_read np_itemsize pub sub r_id wake sh w1 Hrest1 H2 Hwp)
    as Hrest2.
  pose proof (read_at_rest_exact np_itemsize pub sub r_id wake sh _ Hrest2) as Er2.
  cbn [ram stm set_vals] in Er2.
  rewrite Hram, Hb in Er1, Er2.
  eexists _, _, _. split; [exact E1|]. split; [exact Er1|exact Er2].
Qed.

Lemma darwin_delivers_twice_witness :
  exists w1 w2 w3,
    exec (write Darwin T1.pub T1.frame1 100) T1.w0 = Returned tt w1
    /\ exec (read T1.np_itemsize T1.sub "aaaa") w1
         = Returned (Ndarray [2; 2] (dtype T1.sub) T1.frame1, 100) w2
    /\ exec (read T1.np_itemsize T1.sub "aaaa") w2
         = Returned (Ndarray [2; 2] (dtype T1.sub) T1.frame1, 100) w3.
Proof.
  apply (darwin_delivers_twice T1.np_itemsize T1.pub T1.sub "aaaa" T1.wake
           [2; 2] T1.frame1 100 T1.w0).
  - constructor; try (vm_compute; reflexivity); try (vm_compute; lia).
    + repeat constructor; lia.
    + exists 1%nat. split; vm_compute; reflexivity.
  - unfold distinct_objects. apply (bool_decide_unpack _). vm_compute. exact I.
  - vm_compute. reflexivity.
  - vm_compute. lia.
  - vm_compute. reflexivity.
  - lia.
Defined.

(** X11: once the publisher has signed [r_id] out, nothing tells the
    subscriber. The publisher's [signout] (POSIX queue, empty) removes the
    entry; from then on no [write] changes the count of that semaphore (the
    registered semaphores being different kernel objects), and a [read] of
    the subscriber that finds the count at 0 waits: no error is raised. *)
Theorem publisher_signout_silences_subscriber
    (pub : SharedFrame) (r_id : string) (s : sem) (i : nat) (w : world) :
  distinct_objects pub ->
  sems pub !! r_id = Some s ->
  sem_names w !! sem_name s = Some i ->
  mq w = [] ->
  exists pub' w1,
    exec (signout Linux pub r_id) w = Returned pub' w1
    /\ sems pub' !! r_id = None
    /\ sem_vals w1 = sem_vals w
    /\ (forall data ts w2 w3,
          exec (write Linux pub' data ts) w2 = Returned tt w3 ->
          count w3 s = count w2 s)
    /\ (forall np_itemsize sub w2,
          sems sub !! r_id = Some s -> count w2 s = O ->
          exists rest,
            exec (read np_itemsize sub r_id) w2 = Blocked w2 rest
            /\ trace (read np_itemsize sub r_id) w2 = []).
Proof.
  intros Hd Hr Hn Hq. eexists _, _.
  split; [apply (signout_sent Linux pub r_id s w Hr i Hn Hq); discriminate|].
  split; [cbn [sems set_registry]; apply lookup_delete_eq|].
  split; [reflexivity|]. split.
  - intros data ts w2 w3 E. apply (write_untouched Linux _ data ts w2 w3 s E).
    apply hits_absent. cbn [sems set_registry]. intros k s' _ Hk Hid.
    apply lookup_delete_Some in Hk as [Hne Hk].
    apply Hne. symmetry.
    exact (distinct_objects_injective pub Hd k r_id s' s Hk Hr Hid).
  - intros np_itemsize sub w2 Hs H0.
    exact (read_waits np_itemsize sub r_id s w2 Hs H0).
Qed.

Lemma publisher_signout_silences_subscriber_witness :
  exists pub' w1,
    exec (signout Linux T1.pub "aaaa") T1.w0 = Returned pub' w1
    /\ sems pub' !! "aaaa" = None
    /\ sem_vals w1 = sem_vals T1.w0
    /\ (forall data ts w2 w3,
          exec (write Linux pub' data ts) w2 = Returned tt w3 ->
          count w3 T1.wake = count w2 T1.wake)
    /\ (forall np_itemsize sub w2,
          sems sub !! "aaaa" = Some T1.wake -> count w2 T1.wake = O ->
          exists rest,
            exec (read np_itemsize sub "aaaa") w2 = Blocked w2 rest
            /\ trace (read np_itemsize sub "aaaa") w2 = []).
Proof.
  apply (publisher_signout_silences_subscriber T1.pub "aaaa" T1.wake 4 T1.w0).
  - unfold distinct_objects. apply (bool_decide_unpack _). vm_compute. exact I.
  - vm_compute. reflexivity.
  - vm_compute. reflexivity.
  - vm_compute. reflexivity.
Defined.

(** ** The metadata record, whatever the region holds *)

(** X12: [_deserialize] on a free metadata semaphore never waits. Either it
    returns, with the shared objects as they were and a dtype name that
    [numpy] has; or it raises [UnicodeDecodeError], [ValueError] or
    [AttributeError] between [mat_sem.acquire()] and [mat_sem.release()], and
    the metadata semaphore is left one lower, no region changed. *)
Theorem deserialize_outcome
    (np_hasattr : string -> bool) (self : SharedFrame) (w : world) :
  (0 < count w (mat_sem self))%nat ->
  match exec (_deserialize np_hasattr self) w with
  | Returned (self', (sh, dt)) w' =>
      w' = w /\ self' = set_meta self sh dt /\ np_hasattr dt = true
  | Raised e w' =>
      (e = Py.UnicodeDecodeError \/ e = Py.ValueError \/ e = Py.AttributeError)
      /\ S (count w' (mat_sem self)) = count w (mat_sem self)
      /\ mat w' = mat w /\ ram w' = ram w /\ stm w' = stm w /\ cnt w' = cnt w
  | Blocked _ _ => False
  end.
Proof.
  intros Hfree.
  destruct (count w (mat_sem self)) as [|c] eqn:Hc; [lia|].
  assert (Hheld : S (count (set_vals w (<[sem_id (mat_sem self) := c]> (sem_vals w)))
                       (mat_sem self)) = S c).
  { rewrite count_set_vals, lookup_insert_eq. reflexivity. }
  unfold _deserialize. cbn -[Py.decode Py.split Py.remove_char]. rewrite Hc.
  cbn -[Py.decode Py.split Py.remove_char].
  destruct (Py.decode (mat w)) as [text|]; cbn -[Py.decode Py.split Py.remove_char];
    [|auto 10].
  destruct (Py.split "|" (Py.remove_char "*" text)) as [|sh [|dt [|x l]]];
    cbn -[Py.decode Py.split Py.remove_char]; [auto 10|auto 10| |auto 10].
  destruct (ints (Py.split "x" sh)) as [sh'|]; cbn -[Py.decode Py.split Py.remove_char];
    [|auto 10].
  destruct (np_hasattr dt) eqn:Hnp; cbn -[Py.decode Py.split Py.remove_char];
    [|auto 10].
  unfold count. cbn. rewrite lookup_insert_eq. cbn.
  rewrite (acquire_release_id w (mat_sem self) c Hc). destruct w; cbn; auto.
Qed.

Lemma deserialize_outcome_witness :
  match exec (_deserialize T1.np_hasattr T1.sub_up) T1.w_up with
  | Returned (self', (sh, dt)) w' =>
      w' = T1.w_up /\ self' = set_meta T1.sub_up sh dt /\ T1.np_hasattr dt = true
  | Raised e w' =>
      (e = Py.UnicodeDecodeError \/ e = Py.ValueError \/ e = Py.AttributeError)
      /\ S (count w' (mat_sem T1.sub_up)) = count T1.w_up (mat_sem T1.sub_up)
      /\ mat w' = mat T1.w_up /\ ram w' = ram T1.w_up /\ stm w' = stm T1.w_up
      /\ cnt w' = cnt T1.w_up
  | Blocked _ _ => False
  end.
Proof.
  apply (deserialize_outcome T1.np_hasattr T1.sub_up T1.w_up). vm_compute. lia.
Defined.

Lemma string_of_replicate (c : ascii) (n : nat) :
  string_of_list_ascii (replicate n c) = Py.repeat_char c n.
Proof. induction n as [|n IH]; cbn; [|rewrite IH]; reflexivity. Qed.

Lemma contains_repeat (c a : ascii) (n : nat) :
  Ascii.eqb a c = false -> Py.contains c (Py.repeat_char a n) = false.
Proof. intros H. induction n as [|n IH]; cbn; [|rewrite H, IH]; reflexivity. Qed.

Lemma decode_zeros (n : nat) :
  Py.decode (replicate n "000"%char) = Some (Py.repeat_char "000" n).
Proof.
  unfold Py.decode.
  assert (forallb (fun a => (N_of_ascii a <? 128)%N) (replicate n "000"%char) = true) as ->.
  { induction n as [|n IH]; [reflexivity|]. cbn. exact IH. }
  rewrite string_of_replicate. reflexivity.
Qed.

(** X13: a subscriber that comes up between the creation of the metadata
    semaphore and the publisher's [_serialize] finds the region filled with
    zero bytes: [_deserialize] raises [ValueError] (there is no [|] to split
    at) with the metadata semaphore held, and the [_serialize] of the
    publisher then waits at [mat_sem.acquire()]. *)
Theorem deserialize_before_serialize
    (np_hasattr : string -> bool) (pub sub : SharedFrame) (n : nat) (w : world) :
  mat w = replicate n "000"%char ->
  count w (mat_sem sub) = 1%nat ->
  sem_id (mat_sem pub) = sem_id (mat_sem sub) ->
  exists w',
    exec (_deserialize np_hasattr sub) w = Raised Py.ValueError w'
    /\ mat w' = mat w
    /\ count w' (mat_sem sub) = O
    /\ forall sh dt,
         exec (_serialize pub sh dt) w' = Blocked w' (_serialize pub sh dt).
Proof.
  intros Hmat Hc Hid.
  unfold _deserialize. cbn -[Py.decode Py.split Py.remove_char]. rewrite Hc.
  cbn -[Py.decode Py.split Py.remove_char]. rewrite Hmat, decode_zeros.
  cbn -[Py.decode Py.split Py.remove_char].
  rewrite PyFacts.remove_char_absent by (apply contains_repeat; reflexivity).
  rewrite PyFacts.split_absent by (apply contains_repeat; reflexivity).
  cbn. eexists. split; [reflexivity|]. split; [cbn; congruence|]. split.
  { unfold count. cbn. rewrite lookup_insert_eq. reflexivity. }
  intros sh dt. unfold _serialize. cbn -[numbers_sum index Py.ljust Py.join].
  unfold count. cbn -[numbers_sum index Py.ljust Py.join].
  rewrite Hid, lookup_insert_eq. reflexivity.
Qed.

Lemma deserialize_before_serialize_witness :
  exists w',
    exec (_deserialize T1.np_hasattr T1.sub_up) More.w_fresh
      = Raised Py.ValueError w'
    /\ mat w' = mat More.w_fresh
    /\ count w' (mat_sem T1.sub_up) = O
    /\ forall sh dt,
         exec (_serialize T1.pub_up sh dt) w'
           = Blocked w' (_serialize T1.pub_up sh dt).
Proof.
  apply (deserialize_before_serialize T1.np_hasattr T1.pub_up T1.sub_up 40
           More.w_fresh); vm_compute; reflexivity.
Defined.

Lemma numbers_sum_two (size : nat) :
  (0 < size)%nat ->
  numbers_sum (Z.of_nat size) 2
    = [Z.of_nat ((size + 1) / 2); Z.of_nat (size / 2)].
Proof.
  intros Hs. unfold numbers_sum.
  destruct ((Z.of_nat size <=? 0) || (2 <=? 0)) eqn:E.
  { apply orb_prop in E as [E|E]; lia. }
  pose proof (Z.mod_pos_bound (Z.of_nat size) 2 ltac:(lia)) as Hm.
  pose proof (Z.div_mod (Z.of_nat size) 2 ltac:(lia)) as Hd.
  pose proof (Nat.div_mod_eq size 2) as Hn.
  pose proof (Nat.div_mod_eq (size + 1) 2) as Hn1.
  pose proof (Nat.mod_upper_bound size 2 ltac:(lia)) as Hb.
  pose proof (Nat.mod_upper_bound (size + 1) 2 ltac:(lia)) as Hb1.
  assert (Z.of_nat size mod 2 = 0 \/ Z.of_nat size mod 2 = 1) as [H|H] by lia;
    rewrite H.
  - change (Z.to_nat 0) with O. change (Z.to_nat (2 - 0)) with 2%nat.
    cbn -[Nat.div Z.div]. rewrite !Nat2Z.inj_div, Nat2Z.inj_add.
    change (Z.of_nat 2) with 2. change (Z.of_nat 1) with 1.
    replace ((Z.of_nat size + 1) `div` 2) with (Z.of_nat size `div` 2 + Z.of_nat size `mod` 2)
      by (Z.div_mod_to_equations; lia).
    rewrite H. rewrite ?Z.add_0_r. reflexivity.
  - change (Z.to_nat 1) with 1%nat. change (Z.to_nat (2 - 1)) with 1%nat.
    cbn -[Nat.div Z.div]. rewrite !Nat2Z.inj_div, Nat2Z.inj_add.
    change (Z.of_nat 2) with 2. change (Z.of_nat 1) with 1.
    replace ((Z.of_nat size + 1) `div` 2) with (Z.of_nat size `div` 2 + Z.of_nat size `mod` 2)
      by (Z.div_mod_to_equations; lia).
    rewrite H. rewrite ?Z.add_0_r. reflexivity.
Qed.

(** X14: [_serialize] on a metadata region of any size above 0, the size
    being read from the region ([self.mat.shape[0]]). The two fields get the
    widths [ceil(size / 2)] and [floor(size / 2) - 1]. When the shape text
    fits the first and the dtype name the second, the record has the size of
    the region and is stored; otherwise [ljust] does not truncate, the record
    is longer than the region, the store raises [ValueError], and the
    metadata semaphore stays held. *)
Theorem serialize_fits (self : SharedFrame) (sh : list Z) (dt : string) (w : world) :
  (0 < count w (mat_sem self))%nat ->
  (0 < length (mat w))%nat ->
  let size := length (mat w) in
  if ((String.length (shape_text sh) <=? (size + 1) / 2)
      && (String.length dt + 1 <=? size / 2))%nat
  then exec (_serialize self sh dt) w
         = Returned tt
             (set_mat w
                (Py.encode (record_text sh dt ((size + 1) / 2) (size / 2 - 1))))
  else exists w',
         exec (_serialize self sh dt) w = Raised Py.ValueError w'
         /\ mat w' = mat w
         /\ S (count w' (mat_sem self)) = count w (mat_sem self).
Proof.
  intros Hfree Hsize size.
  destruct (count w (mat_sem self)) as [|c] eqn:Hc; [lia|].
  unfold _serialize. cbn -[numbers_sum Py.ljust Py.join index Nat.div]. rewrite Hc.
  cbn -[numbers_sum Py.ljust Py.join index Nat.div].
  rewrite (numbers_sum_two _ Hsize). fold size.
  change (index [Z.of_nat ((size + 1) / 2); Z.of_nat (size / 2)] 0)
    with (@Done Z (Z.of_nat ((size + 1) / 2))).
  change (index [Z.of_nat ((size + 1) / 2); Z.of_nat (size / 2)] (-1))
    with (@Done Z (Z.of_nat (size / 2))).
  cbn -[Py.ljust Py.join Nat.div].
  fold (shape_text sh). rewrite Nat2Z.id.
  replace (Z.to_nat (Z.of_nat (size / 2) - 1)) with (size / 2 - 1)%nat by lia.
  fold (record_text sh dt ((size + 1) / 2) (size / 2 - 1)).
  pose proof (Nat.div_mod_eq size 2) as Hn.
  pose proof (Nat.div_mod_eq (size + 1) 2) as Hn1.
  pose proof (Nat.mod_upper_bound size 2 ltac:(lia)) as Hb.
  pose proof (Nat.mod_upper_bound (size + 1) 2 ltac:(lia)) as Hb1.
  assert (Hlen : length (Py.encode (record_text sh dt ((size + 1) / 2) (size / 2 - 1)))
                 = (Nat.max (String.length (shape_text sh)) ((size + 1) / 2) + 1
                    + Nat.max (String.length dt) (size / 2 - 1))%nat).
  { rewrite PyFacts.length_encode. unfold record_text.
    unfold Py.ljust.
    rewrite !PyFacts.length_append, !PyFacts.length_repeat_char. cbn. lia. }
  destruct ((String.length (shape_text sh) <=? (size + 1) / 2)
            && (String.length dt + 1 <=? size / 2))%nat eqn:E.
  - apply andb_prop in E as [E1 E2].
    apply Nat.leb_le in E1. apply Nat.leb_le in E2.
    destruct (decide _) as [_|N].
    + cbn. unfold count. cbn. rewrite lookup_insert_eq. cbn.
      rewrite (acquire_release_id w (mat_sem self) c Hc). destruct w; reflexivity.
    + exfalso. apply N. rewrite Hlen. fold size. lia.
  - destruct (decide _) as [Y|_].
    + exfalso. rewrite Hlen in Y. fold size in Y.
      apply andb_false_iff in E as [E|E]; apply Nat.leb_gt in E; lia.
    + cbn. eexists. split; [reflexivity|]. split; [reflexivity|].
      unfold count. cbn. rewrite lookup_insert_eq. reflexivity.
Qed.

Lemma serialize_fits_witness :
  exec (_serialize T1.pub_up [2; 2] "uint8") T1.w_up
    = Returned tt
        (set_mat T1.w_up (Py.encode (record_text [2; 2] "uint8" 20 19))).
Proof.
  exact (serialize_fits T1.pub_up [2; 2] "uint8" T1.w_up
           ltac:(vm_compute; lia) ltac:(vm_compute; lia)).
Defined.

(** ** Signing in on a name that exists *)

(** X15: a subscriber signs in with an id whose wake semaphore name exists
    already (left by an earlier run, or by a subscriber with the same id).
    Its [_crex_sem] opens the existing kernel object at once. The publisher's
    [signin] then finds the name taken, unlinks it and creates a new object
    under the name. The two processes hold different objects: no [write] of
    the publisher changes the count of the one the subscriber waits on. *)
Theorem signin_on_existing_name_splits_objects
    (system : platform) (pub sub : SharedFrame) (r_id : string) (i : nat)
    (w : world) :
  mode pub = ModeW -> mode sub = ModeR -> name sub = name pub ->
  mq w = [] ->
  sem_names w !! wake_name (name pub) r_id = Some i ->
  i ∈ dom (sem_vals w) ->
  (forall k s, k <> r_id -> sems pub !! k = Some s -> sem_id s <> i) ->
  let old := Sem (wake_name (name pub) r_id) i in
  exists sub' w1 pub' w2 new,
    exec (signin system sub r_id) w = Returned sub' w1
    /\ sems sub' !! r_id = Some old
    /\ exec (dsync_step system pub) w1 = Returned pub' w2
    /\ sems pub' !! r_id = Some new
    /\ sem_id new <> i
    /\ sem_names w2 !! wake_name (name pub) r_id = Some (sem_id new)
    /\ count w2 old = count w old
    /\ forall sys data ts w3,
         exec (write sys pub' data ts) w2 = Returned tt w3 ->
         count w3 old = count w old.
Proof.
  intros HP HS HT Hq Hn Hdom Hothers old.
  assert (E1 : exec (signin system sub r_id) w
               = Returned (set_registry sub (<[r_id := old]> (sems sub)))
                   (set_mq w [Msg r_id "signin"])).
  { unfold signin. rewrite HS. unfold comm_send.
    destruct system; cbn; rewrite Hq; cbn; rewrite HT, Hn; reflexivity. }
  set (w1 := set_mq w [Msg r_id "signin"]) in *.
  set (w1' := set_mq w1 []).
  assert (E2 : exec (dsync_step system pub) w1
               = Returned
                   (set_registry pub
                      (<[r_id := (created w1' (wake_name (name pub) r_id)).1]>
                         (sems pub)))
                   (created w1' (wake_name (name pub) r_id)).2).
  { unfold dsync_step, comm_recv. cbn -[signin signout created].
    destruct (decide ("signin" = "signin")) as [_|N]; [|contradiction].
    rewrite exec_bind. unfold signin at 1. rewrite HP.
    rewrite exec_bind, crea_sem_exec. cbn -[created signout].
    destruct (decide ("signin" = "signout")) as [N|_]; [discriminate|].
    reflexivity. }
  assert (Hfresh : fresh (dom (sem_vals w)) <> i).
  { intros E. rewrite <- E in Hdom. exact (is_fresh _ Hdom). }
  assert (Hsame : count (created w1' (wake_name (name pub) r_id)).2 old
                  = count w old).
  { unfold count. cbn. rewrite lookup_insert_ne by exact Hfresh. reflexivity. }
  eexists _, _, _, _, _. split; [exact E1|].
  split; [cbn; apply lookup_insert_eq|].
  split; [exact E2|].
  split; [cbn; apply lookup_insert_eq|].
  split; [exact Hfresh|].
  split; [cbn; apply lookup_insert_eq|].
  split; [exact Hsame|].
  intros sys data ts w3 Ew. rewrite <- Hsame.
  apply (write_untouched sys _ data ts _ w3 old Ew).
  apply hits_absent. intros k s _ Hk. cbn in Hk.
  destruct (decide (k = r_id)) as [->|Hne].
  - rewrite lookup_insert_eq in Hk. injection Hk as <-. exact Hfresh.
  - rewrite lookup_insert_ne in Hk by congruence. exact (Hothers k s Hne Hk).
Qed.

Lemma signin_on_existing_name_splits_objects_witness :
  exists sub' w1 pub' w2 new,
    exec (signin Linux T1.sub_up "aaaa") T1.w0 = Returned sub' w1
    /\ sems sub' !! "aaaa" = Some T1.wake
    /\ exec (dsync_step Linux T1.pub_up) w1 = Returned pub' w2
    /\ sems pub' !! "aaaa" = Some new
    /\ sem_id new <> 4%nat
    /\ sem_names w2 !! wake_name (name T1.pub_up) "aaaa" = Some (sem_id new)
    /\ count w2 T1.wake = count T1.w0 T1.wake
    /\ forall sys data ts w3,
         exec (write sys pub' data ts) w2 = Returned tt w3 ->
         count w3 T1.wake = count T1.w0 T1.wake.
Proof.
  apply (signin_on_existing_name_splits_objects Linux T1.pub_up T1.sub_up "aaaa"
           4%nat T1.w0); try (vm_compute; reflexivity).
  intros k s _ Hk. vm_compute in Hk. discriminate.
Defined.

(** ** Readers and the writer *)

Lemma exec_steps {A : Type} (n : nat) (p : prog A) (w : world) :
  exec (steps n p w).1 (steps n p w).2 = exec p w.
Proof.
  revert p w. induction n as [|n IH]; intros p w; [reflexivity|].
  destruct p as [a|e|X a k]; [reflexivity|reflexivity|].
  cbn [steps exec]. destruct (perform a w) as [x w'|] eqn:E.
  - apply IH.
  - cbn. rewrite E. reflexivity.
Qed.

Lemma write_waits (system : platform) (pub : SharedFrame) (data : bytes) (ts : Z)
    (w : world) :
  count w (ram_sem pub) = O ->
  exec (write system pub data ts) w = Blocked w (write system pub data ts).
Proof.
  intros H. unfold write. cbn -[Py.to_bytes fanout]. rewrite H. reflexivity.
Qed.

Section Inside.
Variable np_itemsize : string -> option nat.
Variables (pub sub : SharedFrame) (r_id : string) (wake : sem) (sh : list Z).

Local Ltac run :=
  cbn -[wrap32 Py.from_bytes np_prod]; unfold count;
  cbn -[wrap32 Py.from_bytes np_prod].

Lemma reader_inside (w : world) (n : nat) :
  at_rest np_itemsize pub sub r_id wake sh w ->
  count w (ram_sem sub) = 1%nat ->
  (5 <= n <= 11)%nat ->
  let w1 := (steps n (read np_itemsize sub r_id) w).2 in
  count w1 (ram_sem sub) = O /\ ram w1 = ram w /\ stm w1 = stm w.
Proof.
  intros [Hcnt Hreg Hwake Hcs Hrs _ Hwc Hwr Hcr Hstm Hsh Hdims
            (item & Hitem & Hsize)] Hone Hn.
  assert (Hd : forallb (fun d => 0 <=? d) sh = true).
  { apply forallb_forall. intros d Hin. apply Z.leb_le.
    rewrite Forall_forall in Hdims. apply list_elem_of_In in Hin.
    specialize (Hdims d Hin). lia. }
  unfold read, ndarray_view. rewrite Hreg, Hsh, Hitem.
  cbn [of_option bind]. rewrite Hd. cbn [of_option bind]. rewrite Hsize.
  destruct (count w wake) as [|a] eqn:Ha; [lia|].
  destruct (count w (cnt_sem sub)) as [|b] eqn:Hb; [lia|].
  unfold count in *.
  do 5 (destruct n as [|n]; [lia|]).
  run. rewrite Ha. run.
  rewrite lookup_insert_ne by congruence. rewrite Hb. run.
  rewrite Hcnt. change (wrap32 (0 + 1)) with 1. run.
  rewrite !lookup_insert_ne by congruence. rewrite Hone. run.
  destruct n as [|n].
  { run. rewrite lookup_insert_eq. auto. }
  run.
  destruct n as [|n].
  { run. rewrite lookup_insert_ne by congruence. rewrite lookup_insert_eq. auto. }
  run. unfold frame_bytes. rewrite Nat.leb_refl.
  assert (Hcnt_free :
    default 0%nat
      (<[sem_id (ram_sem sub):=0%nat]>
         (<[sem_id (cnt_sem sub):=b]> (<[sem_id wake:=a]> (sem_vals w)))
       !! sem_id (cnt_sem sub)) = b).
  { rewrite lookup_insert_ne by congruence. rewrite lookup_insert_eq. reflexivity. }
  rewrite Hcnt_free.
  destruct n as [|n].
  { run. rewrite lookup_insert_ne by congruence. rewrite lookup_insert_eq. auto. }
  run.
  destruct n as [|n].
  { run. rewrite lookup_insert_ne by congruence. rewrite lookup_insert_eq. auto. }
  run. rewrite lookup_insert_eq. run.
  destruct n as [|n].
  { run. rewrite !lookup_insert_ne by congruence. rewrite lookup_insert_eq. auto. }
  run.
  destruct n as [|n].
  { run. rewrite !lookup_insert_ne by congruence. rewrite lookup_insert_eq. auto. }
  run.
  destruct n as [|n]; [|lia].
  run. rewrite !lookup_insert_ne by congruence. rewrite lookup_insert_eq. auto.
Qed.

End Inside.

(** X16: mutual exclusion. From a topic at rest with the frame semaphore at
    1, once [read] has done its first five operations and until it has done
    its eleventh (from the acquisition of the frame semaphore to just before
    its release), every [write] on the topic waits at [ram_sem.acquire()],
    the frame and timestamp regions are as the reader found them, and the
    reader, going on, returns that frame with that timestamp. *)
Theorem writer_waits_while_reader_inside
    (np_itemsize : string -> option nat) (pub sub : SharedFrame)
    (r_id : string) (wake : sem) (sh : list Z) (w : world) (n : nat) :
  at_rest np_itemsize pub sub r_id wake sh w ->
  count w (ram_sem sub) = 1%nat ->
  sem_id (ram_sem pub) = sem_id (ram_sem sub) ->
  (5 <= n <= 11)%nat ->
  exists rest w1,
    steps n (read np_itemsize sub r_id) w = (rest, w1)
    /\ ram w1 = ram w /\ stm w1 = stm w
    /\ (forall system data ts,
          exec (write system pub data ts) w1
            = Blocked w1 (write system pub data ts))
    /\ exists w',
         exec rest w1
           = Returned (Ndarray sh (dtype sub) (ram w),
                       Py.from_bytes (take 8 (stm w))) w'.
Proof.
  intros Hrest Hone Hid Hn.
  destruct (reader_inside np_itemsize pub sub r_id wake sh w n Hrest Hone Hn)
    as (Hheld & Hram & Hstm).
  pose proof (exec_steps n (read np_itemsize sub r_id) w) as Hgo.
  rewrite (read_at_rest_exact np_itemsize pub sub r_id wake sh w Hrest) in Hgo.
  destruct (steps n (read np_itemsize sub r_id) w) as [rest w1].
  exists rest, w1. cbn in *.
  split; [reflexivity|]. split; [exact Hram|]. split; [exact Hstm|].
  split.
  - intros system data ts. apply write_waits.
    unfold count in *. rewrite Hid. exact Hheld.
  - eexists. exact Hgo.
Qed.

Lemma writer_waits_while_reader_inside_witness :
  exists rest w1,
    steps 7 (read T1.np_itemsize T1.sub "aaaa") T1.w0 = (rest, w1)
    /\ ram w1 = ram T1.w0 /\ stm w1 = stm T1.w0
    /\ (forall system data ts,
          exec (write system T1.pub data ts) w1
            = Blocked w1 (write system T1.pub data ts))
    /\ exists w',
         exec rest w1
           = Returned (Ndarray [2; 2] (dtype T1.sub) (ram T1.w0),
                       Py.from_bytes (take 8 (stm T1.w0))) w'.
Proof.
  apply (writer_waits_while_reader_inside T1.np_itemsize T1.pub T1.sub "aaaa"
           T1.wake [2; 2] T1.w0 7).
  - constructor; try (vm_compute; reflexivity); try (vm_compute; lia).
    + repeat constructor; lia.
    + exists 1%nat. split; vm_compute; reflexivity.
  - vm_compute. reflexivity.
  - reflexivity.
  - lia.
Defined.

Lemma wrap32_small (z : Z) : - 2 ^ 31 <= z < 2 ^ 31 -> wrap32 z = z.
Proof.
  intros H. unfold wrap32. rewrite Z.mod_small by lia. lia.
Qed.

(** X17: readers share the frame. A [read] that finds other readers inside
    (the counter is above 0, and below the largest [int32]) does twelve
    operations, none of them on the frame semaphore: it returns the frame and
    the timestamp whether that semaphore is held or not, and leaves the
    counter and every count but that of its wake semaphore as they were. *)
Theorem read_joins_readers_inside
    (np_itemsize : string -> option nat) (sub : SharedFrame)
    (r_id : string) (wake : sem) (sh : list Z) (item : nat) (w : world) :
  0 < cnt w < 2 ^ 31 - 1 ->
  sems sub !! r_id = Some wake ->
  (0 < count w wake)%nat ->
  (0 < count w (cnt_sem sub))%nat ->
  sem_id wake <> sem_id (cnt_sem sub) ->
  shape sub = Some sh ->
  Forall (fun d => 0 < d) sh ->
  np_itemsize (dtype sub) = Some item ->
  (Z.to_nat (np_prod sh) * item)%nat = frame_bytes w ->
  exec (read np_itemsize sub r_id) w
    = Returned (Ndarray sh (dtype sub) (ram w), Py.from_bytes (take 8 (stm w)))
        (set_vals w (<[sem_id wake := Nat.pred (count w wake)]> (sem_vals w)))
  /\ trace (read np_itemsize sub r_id) w =
       [ Ev (Sem_acquire wake) tt;
         Ev (Sem_acquire (cnt_sem sub)) tt;
         Ev (Cnt_add 1) tt;
         Ev Cnt_load (cnt w + 1);
         Ev (Sem_release (cnt_sem sub)) tt;
         Ev Ram_view (frame_bytes w);
         Ev Stm_load (take 8 (stm w));
         Ev (Sem_acquire (cnt_sem sub)) tt;
         Ev (Cnt_add (-1)) tt;
         Ev Cnt_load (cnt w);
         Ev (Sem_release (cnt_sem sub)) tt;
         Ev (Ram_copy (frame_bytes w)) (ram w) ].
Proof.
  intros Hcnt Hreg Hwake Hcs Hwc Hsh Hdims Hitem Hsize.
  assert (Hd : forallb (fun d => 0 <=? d) sh = true).
  { apply forallb_forall. intros d Hin. apply Z.leb_le.
    rewrite Forall_forall in Hdims. apply list_elem_of_In in Hin.
    specialize (Hdims d Hin). lia. }
  assert (H1 : wrap32 (cnt w + 1) = cnt w + 1) by (apply wrap32_small; lia).
  assert (H2 : wrap32 (cnt w + 1 + -1) = cnt w).
  { rewrite wrap32_small by lia. lia. }
  assert (N1 : (cnt w + 1 =? 1) = false) by lia.
  assert (N0 : (cnt w =? 0) = false) by lia.
  unfold read, ndarray_view. rewrite Hreg, Hsh, Hitem.
  cbn [of_option bind]. rewrite Hd. cbn [of_option bind]. rewrite Hsize.
  destruct (count w wake) as [|a] eqn:Ha; [lia|].
  destruct (count w (cnt_sem sub)) as [|b] eqn:Hb; [lia|].
  unfold count in *.
  cbn -[wrap32 Py.from_bytes]. unfold count. rewrite Ha.
  cbn -[wrap32 Py.from_bytes]. unfold count. cbn -[wrap32 Py.from_bytes].
  rewrite lookup_insert_ne by congruence. rewrite Hb.
  cbn -[wrap32 Py.from_bytes]. rewrite H1, N1.
  cbn -[wrap32 Py.from_bytes]. unfold count. cbn -[wrap32 Py.from_bytes].
  rewrite lookup_insert_eq.
  unfold frame_bytes. rewrite Nat.leb_refl.
  cbn -[wrap32 Py.from_bytes]. unfold count. cbn -[wrap32 Py.from_bytes].
  rewrite lookup_insert_eq.
  cbn -[wrap32 Py.from_bytes]. rewrite H2, N0.
  cbn -[wrap32 Py.from_bytes]. unfold count. cbn -[wrap32 Py.from_bytes].
  rewrite lookup_insert_eq. cbn -[wrap32 Py.from_bytes].
  rewrite (take_ge (ram w)) by lia.
  split; [|reflexivity].
  f_equal.
  destruct w as [nm vals r s c0 m q]. cbn in *. unfold set_vals. cbn.
  f_equal. apply map_eq. intros j.
  destruct (decide (j = sem_id (cnt_sem sub))) as [->|Hj1].
  { rewrite lookup_insert_eq, lookup_insert_ne by congruence.
    destruct (vals !! sem_id (cnt_sem sub)); cbn in Hb; congruence. }
  repeat rewrite (lookup_insert_ne _ (sem_id (cnt_sem sub))) by congruence.
  reflexivity.
Qed.

Lemma read_joins_readers_inside_witness :
  exec (read T1.np_itemsize T1.sub "aaaa") More.w_inside
    = Returned (Ndarray [2; 2] (dtype T1.sub) (ram More.w_inside),
                Py.from_bytes (take 8 (stm More.w_inside)))
        (set_vals More.w_inside
           (<[sem_id T1.wake := Nat.pred (count More.w_inside T1.wake)]>
              (sem_vals More.w_inside)))
  /\ trace (read T1.np_itemsize T1.sub "aaaa") More.w_inside =
       [ Ev (Sem_acquire T1.wake) tt;
         Ev (Sem_acquire (cnt_sem T1.sub)) tt;
         Ev (Cnt_add 1) tt;
         Ev Cnt_load (cnt More.w_inside + 1);
         Ev (Sem_release (cnt_sem T1.sub)) tt;
         Ev Ram_view (frame_bytes More.w_inside);
         Ev Stm_load (take 8 (stm More.w_inside));
         Ev (Sem_acquire (cnt_sem T1.sub)) tt;
         Ev (Cnt_add (-1)) tt;
         Ev Cnt_load (cnt More.w_inside);
         Ev (Sem_release (cnt_sem T1.sub)) tt;
         Ev (Ram_copy (frame_bytes More.w_inside)) (ram More.w_inside) ].
Proof.
  apply (read_joins_readers_inside T1.np_itemsize T1.sub "aaaa" T1.wake [2; 2]
           1%nat More.w_inside);
    try (vm_compute; reflexivity); try (vm_compute; lia).
  - vm_compute. split; reflexivity.
  - repeat constructor; lia.
Defined.

(** X18: the frame is copied after the exit protocol. On any topic at rest,
    when a [write] gets in after the thirteenth operation of a [read] (the
    release of the counter semaphore) and before its last (the copy), the
    [read] returns the payload of that [write] with the timestamp that was in
    the region before it, whatever the timestamp of the [write]. *)
Theorem write_before_copy_tears_read
    (system : platform) (np_itemsize : string -> option nat)
    (pub sub : SharedFrame) (r_id : string) (wake : sem) (sh : list Z)
    (data : bytes) (ts : Z) (w : world) :
  at_rest np_itemsize pub sub r_id wake sh w ->
  sem_id (ram_sem pub) = sem_id (ram_sem sub) ->
  length data = frame_bytes w ->
  0 <= ts < 2 ^ 64 ->
  exists rest w1 w2 w3,
    steps 13 (read np_itemsize sub r_id) w = (rest, w1)
    /\ exec (write system pub data ts) w1 = Returned tt w2
    /\ exec rest w2
         = Returned (Ndarray sh (dtype sub) data,
                     Py.from_bytes (take 8 (stm w))) w3
    /\ Py.from_bytes (take 8 (stm w2)) = ts.
Proof.
  intros [Hcnt Hreg Hwake Hcs Hrs _ Hwc Hwr Hcr Hstm Hsh Hdims
            (item & Hitem & Hsize)] Hid Hlen Hts.
  assert (Hd : forallb (fun d => 0 <=? d) sh = true).
  { apply forallb_forall. intros d Hin. apply Z.leb_le.
    rewrite Forall_forall in Hdims. apply list_elem_of_In in Hin.
    specialize (Hdims d Hin). lia. }
  unfold read, ndarray_view. rewrite Hreg, Hsh, Hitem.
  cbn [of_option bind]. rewrite Hd. cbn [of_option bind]. rewrite Hsize.
  destruct (count w wake) as [|a] eqn:Ha; [lia|].
  destruct (count w (cnt_sem sub)) as [|b] eqn:Hb; [lia|].
  destruct (count w (ram_sem sub)) as [|c] eqn:Hc; [lia|].
  unfold count in *.
  cbn -[wrap32 Py.from_bytes]. unfold count. rewrite Ha.
  cbn -[wrap32 Py.from_bytes]. unfold count. cbn -[wrap32 Py.from_bytes].
  rewrite lookup_insert_ne by congruence. rewrite Hb.
  cbn -[wrap32 Py.from_bytes].
  rewrite Hcnt. change (wrap32 (0 + 1)) with 1.
  cbn -[wrap32 Py.from_bytes]. unfold count. cbn -[wrap32 Py.from_bytes].
  rewrite !lookup_insert_ne by congruence. rewrite Hc.
  cbn -[wrap32 Py.from_bytes].
  unfold frame_bytes. rewrite Nat.leb_refl.
  cbn -[wrap32 Py.from_bytes]. unfold count. cbn -[wrap32 Py.from_bytes].
  rewrite lookup_insert_eq. cbn -[wrap32 Py.from_bytes].
  change (wrap32 (1 + -1)) with 0. cbn -[wrap32 Py.from_bytes].
  match goal with
  | |- exists rest w1 w2 w3, (?r, ?w13) = _ /\ _ =>
      destruct (write_runs system pub data ts w13) as [w2 E2]
  end.
  { unfold count. cbn. rewrite Hid.
    repeat first [rewrite lookup_insert_eq | rewrite lookup_insert_ne by congruence].
    cbn. lia. }
  { exact Hlen. }
  { exact Hts. }
  { exact Hstm. }
  destruct (write_returned system pub data ts _ w2 E2)
    as (Hram & Hstamp & _ & _ & _ & _).
  eexists _, _, w2, w2. split; [reflexivity|]. split; [exact E2|].
  split.
  - cbn -[Py.from_bytes]. rewrite Hram. unfold frame_bytes in Hlen.
    rewrite <- Hlen, firstn_all. reflexivity.
  - exact (proj1 (to_bytes_from_bytes ts 8 _ Hstamp)).
Qed.

Lemma write_before_copy_tears_read_witness :
  exists rest w1 w2 w3,
    steps 13 (read T1.np_itemsize T1.sub "aaaa") T1.w0 = (rest, w1)
    /\ exec (write Linux T1.pub T1.frame2 101) w1 = Returned tt w2
    /\ exec rest w2
         = Returned (Ndarray [2; 2] (dtype T1.sub) T1.frame2,
                     Py.from_bytes (take 8 (stm T1.w0))) w3
    /\ Py.from_bytes (take 8 (stm w2)) = 101.
Proof.
  apply (write_before_copy_tears_read Linux T1.np_itemsize T1.pub T1.sub "aaaa"
           T1.wake [2; 2] T1.frame2 101 T1.w0).
  - constructor; try (vm_compute; reflexivity); try (vm_compute; lia).
    + repeat constructor; lia.
    + exists 1%nat. split; vm_compute; reflexivity.
  - reflexivity.
  - reflexivity.
  - lia.
Defined.

(** * [Client] *)

Lemma exec_try_except {A : Type} (p : prog A) (h : Py.exn -> prog A) (w : world) :
  exec (try_except p h) w =
    match exec p w with
    | Returned a w' => Returned a w'
    | Raised e w' => exec (h e) w'
    | Blocked w' rest => Blocked w' (try_except rest h)
    end.
Proof.
  revert w. induction p as [a|e|X a k IH]; intros w; [reflexivity|reflexivity|].
  cbn. destruct (perform a w) as [x w'|]; [apply IH|reflexivity].
Qed.

Lemma append_full {A : Type} (d : client.deque A) (x : A) :
  length (client.items d) = client.maxlen d ->
  client.items (client.append d x) = drop 1 (client.items d ++ [x])
  /\ length (client.items (client.append d x)) = client.maxlen d.
Proof.
  intros H. unfold client.append. cbn [client.items].
  replace (length (client.items d) + 1 - client.maxlen d)%nat with 1%nat by lia.
  split; [reflexivity|]. rewrite length_drop, length_app. cbn. lia.
Qed.

(** X19: the body of the loop of [retrive] never raises. It returns to go
    on exactly when [read] returned and the three dictionaries have the
    model: the pair read is then appended to the ring and the lock of the
    model is open. It returns to leave the loop when [read] raised or a
    dictionary lacks the model. It waits only where [read] waits. *)
Theorem retrive_body_never_raises
    (np_itemsize : string -> option nat) (self : client.Client)
    (model : string) (w : world) :
  match exec (client.retrive_body np_itemsize self model) w with
  | Returned (self', true) w' =>
      exists frame v d,
        client.resources self !! model = Some frame
        /\ exec (read np_itemsize frame (client.id self)) w = Returned v w'
        /\ client.res self !! model = Some d
        /\ is_Some (client.update self !! model)
        /\ self' = client.set_update
                     (client.set_res self
                        (<[model := client.append d v]> (client.res self)))
                     (<[model := false]> (client.update self))
  | Returned (self', false) w' =>
      client.resources self !! model = None /\ self' = self /\ w' = w
      \/ (exists frame,
            client.resources self !! model = Some frame
            /\ ((exists e, exec (read np_itemsize frame (client.id self)) w
                           = Raised e w')
                \/ (exists v, exec (read np_itemsize frame (client.id self)) w
                              = Returned v w'
                              /\ client.res self !! model = None))
            /\ self' = self)
      \/ (exists frame v d,
            client.resources self !! model = Some frame
            /\ exec (read np_itemsize frame (client.id self)) w = Returned v w'
            /\ client.res self !! model = Some d
            /\ client.update self !! model = None
            /\ self' = client.set_res self
                         (<[model := client.append d v]> (client.res self)))
  | Raised _ _ => False
  | Blocked w' _ =>
      exists frame rest,
        client.resources self !! model = Some frame
        /\ exec (read np_itemsize frame (client.id self)) w = Blocked w' rest
  end.
Proof.
  unfold client.retrive_body. rewrite exec_bind, exec_try_except.
  destruct (client.resources self !! model) as [frame|] eqn:Hf;
    cbn [of_option bind]; [|cbn; auto].
  rewrite exec_bind.
  destruct (exec (read np_itemsize frame (client.id self)) w)
    as [v w'|e w'|w' rest] eqn:Er.
  - destruct (client.res self !! model) as [d|] eqn:Hd; cbn.
    + destruct (client.update self !! model) as [l|] eqn:Hu; cbn.
      * exists frame, v, d. eauto 10.
      * right. right. exists frame, v, d. eauto 10.
    + right. left. exists frame. eauto 10.
  - cbn. right. left. exists frame. eauto 10.
  - eauto.
Qed.

Lemma last_append {A : Type} (d : client.deque A) (x : A) :
  (length (client.items d) <= client.maxlen d)%nat ->
  (0 < client.maxlen d)%nat ->
  last (client.items (client.append d x)) = Some x.
Proof.
  intros Hle Hpos. unfold client.append. cbn [client.items].
  rewrite drop_app_le by lia. apply last_snoc.
Qed.

Section Turn.
Variable np_itemsize : string -> option nat.
Variables (pub sub : SharedFrame) (wake : sem) (sh : list Z).
Variables (self : client.Client) (model : string).
Variables (d : client.deque (ndarray * Z)) (l : bool) (w : world).

Hypothesis rest : at_rest np_itemsize pub sub (client.id self) wake sh w.
Hypothesis has_frame : client.resources self !! model = Some sub.
Hypothesis has_ring : client.res self !! model = Some d.
Hypothesis has_lock : client.update self !! model = Some l.

(** A turn of the loop on a topic at rest. *)
Lemma retrive_body_at_rest :
  exec (client.retrive_body np_itemsize self model) w
    = Returned
        (client.set_update
           (client.set_res self
              (<[model := client.append d
                            (Ndarray sh (dtype sub) (ram w),
                             Py.from_bytes (take 8 (stm w)))]>
                 (client.res self)))
           (<[model := false]> (client.update self)), true)
        (set_vals w (<[sem_id wake := Nat.pred (count w wake)]> (sem_vals w))).
Proof.
  unfold client.retrive_body. rewrite exec_bind, exec_try_except.
  rewrite has_frame. cbn [of_option bind]. rewrite exec_bind.
  rewrite (read_at_rest_exact np_itemsize pub sub (client.id self) wake sh w rest).
  rewrite has_ring. cbn. rewrite has_lock. reflexivity.
Qed.

End Turn.

(** X20: a turn of the loop of [retrive] on a topic at rest appends the
    frame and the timestamp in the regions to the ring and opens the lock of
    the model. For a model requested without [buf], [latest] then returns
    that pair and takes the lock, the ring unchanged, so that a second
    [latest] waits until the loop has appended again. *)
Theorem retrive_then_latest
    (np_itemsize : string -> option nat) (pub sub : SharedFrame) (wake : sem)
    (sh : list Z) (self : client.Client) (model : string)
    (d : client.deque (ndarray * Z)) (l : bool) (w : world) :
  at_rest np_itemsize pub sub (client.id self) wake sh w ->
  client.resources self !! model = Some sub ->
  client.res self !! model = Some d ->
  client.update self !! model = Some l ->
  client.concat self !! model = None ->
  (length (client.items d) <= client.maxlen d)%nat ->
  (0 < client.maxlen d)%nat ->
  exists self1 w1 self2,
    exec (client.retrive_body np_itemsize self model) w
      = Returned (self1, true) w1
    /\ client.latest self1 model
         = client.Gives
             (client.Last (Ndarray sh (dtype sub) (ram w),
                           Py.from_bytes (take 8 (stm w)))) self2
    /\ client.res self2 = client.res self1
    /\ client.latest self2 model = client.Waits.
Proof.
  intros Hrest Hf Hd Hl Hc Hlen Hpos. eexists _, _, _.
  split; [exact (retrive_body_at_rest np_itemsize pub sub wake sh self model d l w
                   Hrest Hf Hd Hl)|].
  unfold client.latest. cbn -[client.append]. rewrite !lookup_insert_eq.
  cbn -[client.append]. rewrite Hc. cbn -[client.append].
  rewrite (last_append d _ Hlen Hpos).
  split; [reflexivity|]. split; [reflexivity|].
  unfold client.latest. cbn -[client.append]. rewrite lookup_insert_eq.
  reflexivity.
Qed.

Lemma retrive_then_latest_witness :
  exists self1 w1 self2,
    exec (client.retrive_body T1.np_itemsize Clients.reader "t1") T1.w0
      = Returned (self1, true) w1
    /\ client.latest self1 "t1"
         = client.Gives
             (client.Last (Ndarray [2; 2] (dtype T1.sub) (ram T1.w0),
                           Py.from_bytes (take 8 (stm T1.w0)))) self2
    /\ client.res self2 = client.res self1
    /\ client.latest self2 "t1" = client.Waits.
Proof.
  apply (retrive_then_latest T1.np_itemsize T1.pub T1.sub T1.wake [2; 2]
           Clients.reader "t1" (Clients.ring 10)
           true T1.w0).
  - constructor; try (vm_compute; reflexivity); try (vm_compute; lia).
    + repeat constructor; lia.
    + exists 1%nat. split; vm_compute; reflexivity.
  - vm_compute. reflexivity.
  - vm_compute. reflexivity.
  - vm_compute. reflexivity.
  - vm_compute. reflexivity.
  - vm_compute. lia.
  - vm_compute. lia.
Defined.

(** X21: for a model requested with [buf], whose ring is full, [latest]
    after a turn of the loop on a topic at rest returns the stack of the
    arrays of the ring: those that were there but the oldest, in their
    order, then the frame just read; as many as before, the timestamps
    left out. *)
Theorem retrive_then_latest_stacks_ring
    (np_itemsize : string -> option nat) (pub sub : SharedFrame) (wake : sem)
    (sh : list Z) (self : client.Client) (model : string)
    (d : client.deque (ndarray * Z)) (l : bool) (w : world) :
  at_rest np_itemsize pub sub (client.id self) wake sh w ->
  client.resources self !! model = Some sub ->
  client.res self !! model = Some d ->
  client.update self !! model = Some l ->
  client.concat self !! model = Some true ->
  length (client.items d) = client.maxlen d ->
  (0 < client.maxlen d)%nat ->
  exists self1 w1 self2 arrays,
    exec (client.retrive_body np_itemsize self model) w
      = Returned (self1, true) w1
    /\ client.latest self1 model = client.Gives (client.Stacked arrays) self2
    /\ arrays = drop 1 (fst <$> client.items d) ++ [Ndarray sh (dtype sub) (ram w)]
    /\ length arrays = client.maxlen d.
Proof.
  intros Hrest Hf Hd Hl Hc Hlen Hpos.
  destruct (append_full d (Ndarray sh (dtype sub) (ram w),
                           Py.from_bytes (take 8 (stm w))) Hlen) as [Hi Hn].
  eexists _, _, _, (drop 1 (fst <$> client.items d) ++ [Ndarray sh (dtype sub) (ram w)]).
  split; [exact (retrive_body_at_rest np_itemsize pub sub wake sh self model d l w
                   Hrest Hf Hd Hl)|].
  split; [|split; [reflexivity|]].
  - unfold client.latest. cbn -[client.append]. rewrite !lookup_insert_eq.
    cbn -[client.append]. rewrite Hc. cbn -[client.append].
    rewrite Hi.
    destruct (client.items d) as [|x xs] eqn:Hxs; [cbn in Hlen; lia|].
    cbn [app drop fmap list_fmap].
    destruct (xs ++ [_]) as [|y ys] eqn:Hys; [destruct xs; discriminate|].
    rewrite !drop_0. change (y.1 :: ys.*1) with (fst <$> (y :: ys)).
    rewrite <- Hys, fmap_app. reflexivity.
  - rewrite length_app, length_drop, length_fmap. cbn. lia.
Qed.

Lemma retrive_then_latest_stacks_ring_witness :
  exists self1 w1 self2 arrays,
    exec (client.retrive_body T1.np_itemsize Clients.stacker "t1") T1.w0
      = Returned (self1, true) w1
    /\ client.latest self1 "t1" = client.Gives (client.Stacked arrays) self2
    /\ arrays = drop 1 (fst <$> client.items (Clients.ring 2))
                  ++ [Ndarray [2; 2] (dtype T1.sub) (ram T1.w0)]
    /\ length arrays = 2%nat.
Proof.
  apply (retrive_then_latest_stacks_ring T1.np_itemsize T1.pub T1.sub T1.wake
           [2; 2] Clients.stacker "t1" (Clients.ring 2) true T1.w0).
  - constructor; try (vm_compute; reflexivity); try (vm_compute; lia).
    + repeat constructor; lia.
    + exists 1%nat. split; vm_compute; reflexivity.
  - vm_compute. reflexivity.
  - vm_compute. reflexivity.
  - vm_compute. reflexivity.
  - vm_compute. reflexivity.
  - vm_compute. reflexivity.
  - vm_compute. lia.
Defined.

(** X22: what [close] does to the thread of a model. After the [signout] of
    the model's [SharedFrame] (the name of the wake semaphore existing, the
    control queue empty) the entry of the client is gone from the object that
    the thread reads from: the next turn of the loop of [retrive] gets
    [KeyError] from [read] before any shared object is touched, and leaves
    the loop, the client unchanged. *)
Theorem retrive_stops_after_signout
    (system : platform) (np_itemsize : string -> option nat)
    (self : client.Client) (model : string) (frame : SharedFrame)
    (s : sem) (i : nat) (w : world) :
  client.resources self !! model = Some frame ->
  mode frame = ModeR ->
  sems frame !! client.id self = Some s ->
  sem_names w !! sem_name s = Some i ->
  mq w = [] ->
  exists frame' w' self',
    exec (signout system frame (client.id self)) w = Returned frame' w'
    /\ self' = client.set_resources self
                 (<[model := frame']> (client.resources self))
    /\ exec (client.retrive_body np_itemsize self' model) w'
         = Returned (self', false) w'
    /\ trace (client.retrive_body np_itemsize self' model) w' = []
    /\ forall n,
         exec (client.retrive np_itemsize (S n) self' model) w'
           = Returned (self', false) w'.
Proof.
  intros Hf Hm Hs Hn Hq. eexists _, _, _.
  split; [apply (signout_sent system frame (client.id self) s w Hs i Hn Hq);
          intros _; exact Hm|].
  split; [reflexivity|].
  assert (Hb : forall w',
    exec (client.retrive_body np_itemsize
            (client.set_resources self
               (<[model := set_registry frame
                             (delete (client.id self) (sems frame))]>
                  (client.resources self))) model) w'
      = Returned
          (client.set_resources self
             (<[model := set_registry frame
                           (delete (client.id self) (sems frame))]>
                (client.resources self)), false) w').
  { intros w'. unfold client.retrive_body, read. cbn.
    rewrite lookup_insert_eq. cbn. rewrite lookup_delete_eq. reflexivity. }
  split; [apply Hb|]. split.
  - unfold client.retrive_body, read. cbn.
    rewrite lookup_insert_eq. cbn. rewrite lookup_delete_eq. reflexivity.
  - intros n. cbn [client.retrive].
    destruct (client.running _); [|reflexivity].
    rewrite exec_bind, Hb. reflexivity.
Qed.

Lemma retrive_stops_after_signout_witness :
  exists frame' w' self',
    exec (signout Linux T1.sub "aaaa") T1.w0 = Returned frame' w'
    /\ self' = client.set_resources Clients.reader
                 (<["t1" := frame']> (client.resources Clients.reader))
    /\ exec (client.retrive_body T1.np_itemsize self' "t1") w'
         = Returned (self', false) w'
    /\ trace (client.retrive_body T1.np_itemsize self' "t1") w' = []
    /\ forall n,
         exec (client.retrive T1.np_itemsize (S n) self' "t1") w'
           = Returned (self', false) w'.
Proof.
  apply (retrive_stops_after_signout Linux T1.np_itemsize Clients.reader "t1"
           T1.sub T1.wake 4 T1.w0); vm_compute; reflexivity.
Defined.

(** X23: [request]. The constructor having returned a subscriber-side
    object for the topic, [request] signs the client in and waits for the
    wake semaphore; the listener of the publisher creates it; [request] then
    returns with the object registered under the model, the lock of the
    model taken, and a ring that is full: [buf] pairs (10 when [buf] is
    [None] or 0) of an array of zeros of the shape and dtype of the topic and
    a stamp from 0 up. A [latest] right after [request] waits. *)
Theorem request_fills_ring_and_locks
    (system : platform) (np_itemsize : string -> option nat)
    (SharedFrame_r : string -> prog SharedFrame)
    (pub frame : SharedFrame) (self : client.Client) (model : string)
    (buf : option Z) (sh : list Z) (item n : nat) (w0 w : world) :
  exec (SharedFrame_r model) w0 = Returned frame w ->
  mode pub = ModeW -> mode frame = ModeR -> name frame = name pub ->
  mq w = [] ->
  sem_names w !! wake_name (name pub) (client.id self) = None ->
  shape frame = Some sh ->
  Forall (fun d => 0 <= d) sh ->
  np_itemsize (dtype frame) = Some item ->
  0 <= default 0 buf ->
  n = match buf with
      | None => 10%nat
      | Some b => if b =? 0 then 10%nat else Z.to_nat b
      end ->
  exists w1 rest,
    exec (client.request system np_itemsize SharedFrame_r self model buf) w0
      = Blocked w1 rest
    /\ exists pub' w2,
         exec (dsync_step system pub) w1 = Returned pub' w2
         /\ exists self' frame' s,
              exec rest w2 = Returned self' w2
              /\ client.resources self' !! model = Some frame'
              /\ sems frame' !! client.id self = Some s
              /\ sems pub' !! client.id self = Some s
              /\ client.res self' !! model
                   = Some (client.Deque n
                             ((fun i =>
                                 (Ndarray sh (dtype frame)
                                    (replicate (Z.to_nat (np_prod sh) * item)
                                       "000"%char),
                                  Z.of_nat i)) <$> seq 0 n))
              /\ client.update self' !! model = Some true
              /\ client.concat self' !! model
                   = (if match buf with None => true | Some b => b =? 0 end
                      then client.concat self !! model else Some true)
              /\ client.latest self' model = client.Waits.
Proof.
  intros Hctor HP HS HT Hq Hn Hsh Hdims Hitem Hbuf ->.
  set (not_buf := match buf with None => true | Some b => b =? 0 end).
  set (buf' := if not_buf then 10 else default 0 buf).
  set (self1 := if not_buf then self
                else client.set_concat self
                       (<[model := true]> (client.concat self))).
  assert (Hid : client.id self1 = client.id self).
  { unfold self1. destruct not_buf; reflexivity. }
  assert (Hpos : 0 < buf').
  { unfold buf', not_buf. destruct buf as [b|]; cbn in *; [|lia].
    destruct (b =? 0) eqn:E; lia. }
  assert (Hlen : Z.to_nat buf' = match buf with
                                 | None => 10%nat
                                 | Some b => if b =? 0 then 10%nat else Z.to_nat b
                                 end).
  { unfold buf', not_buf. destruct buf as [b|]; cbn; [|reflexivity].
    destruct (b =? 0); reflexivity. }
  assert (Hd : forallb (fun d => 0 <=? d) sh = true).
  { apply forallb_forall. intros d Hin. apply Z.leb_le.
    rewrite Forall_forall in Hdims. apply list_elem_of_In in Hin.
    exact (Hdims d Hin). }
  unfold client.request. fold not_buf. fold buf'. fold self1.
  rewrite exec_bind, Hctor, exec_bind, Hid.
  assert (E1 : exec (signin system frame (client.id self)) w
               = Blocked (set_mq w [Msg (client.id self) "signin"])
                   (s ← _crex_sem (wake_name (name frame) (client.id self));
                    Done (set_registry frame
                            (<[client.id self := s]> (sems frame))))).
  { unfold signin. rewrite HS. unfold comm_send.
    destruct system; cbn; rewrite Hq; cbn; rewrite HT, Hn; reflexivity. }
  rewrite E1. eexists _, _. split; [reflexivity|].
  unfold dsync_step, comm_recv. cbn -[signin signout created].
  destruct (decide ("signin" = "signin")) as [_|N]; [|contradiction].
  rewrite exec_bind. unfold signin at 1. rewrite HP.
  rewrite exec_bind, crea_sem_exec. cbn -[created signout].
  destruct (decide ("signin" = "signout")) as [N|_]; [discriminate|].
  cbn -[created].
  eexists _, _. split; [reflexivity|].
  cbn -[client.np_zeros Z.ltb]. rewrite HT, lookup_insert_eq.
  cbn -[client.np_zeros Z.ltb].
  assert ((0 <? buf') = true) as -> by lia.
  assert ((buf' <? 0) = false) as -> by lia.
  unfold client.np_zeros. cbn. rewrite Hsh. cbn. rewrite Hd. cbn.
  rewrite Hitem. cbn.
  eexists _, _, _. split; [reflexivity|]. cbn.
  rewrite !lookup_insert_eq. split; [reflexivity|].
  cbn. rewrite !lookup_insert_eq. split; [reflexivity|].
  split; [reflexivity|]. rewrite Hlen. split; [reflexivity|].
  split; [reflexivity|]. split.
  - unfold self1. destruct not_buf; [reflexivity|]. cbn.
    apply lookup_insert_eq.
  - unfold client.latest. cbn. rewrite lookup_insert_eq. reflexivity.
Qed.

Lemma request_fills_ring_and_locks_witness :
  exists w1 rest,
    exec (client.request Linux T1.np_itemsize (fun _ => Done T1.sub_up)
            Clients.newcomer "t1" None) T1.w_up
      = Blocked w1 rest
    /\ exists pub' w2,
         exec (dsync_step Linux T1.pub_up) w1 = Returned pub' w2
         /\ exists self' frame' s,
              exec rest w2 = Returned self' w2
              /\ client.resources self' !! "t1" = Some frame'
              /\ sems frame' !! "aaaa" = Some s
              /\ sems pub' !! "aaaa" = Some s
              /\ client.res self' !! "t1"
                   = Some (client.Deque 10
                             ((fun i =>
                                 (Ndarray [2; 2] "uint8"
                                    (replicate (Z.to_nat (np_prod [2; 2]) * 1)
                                       "000"%char),
                                  Z.of_nat i)) <$> seq 0 10))
              /\ client.update self' !! "t1" = Some true
              /\ client.concat self' !! "t1" = client.concat Clients.newcomer !! "t1"
              /\ client.latest self' "t1" = client.Waits.
Proof.
  apply (request_fills_ring_and_locks Linux T1.np_itemsize
           (fun _ => Done T1.sub_up) T1.pub_up T1.sub_up Clients.newcomer "t1"
           None [2; 2] 1%nat 10%nat T1.w_up T1.w_up);
    try (vm_compute; reflexivity); try (vm_compute; discriminate).
  repeat constructor; lia.
Defined.

(** * [hl2ss.py]: packets *)

Lemma from_bytes_bounds (b : bytes) :
  0 <= Py.from_bytes b < 256 ^ Z.of_nat (length b).
Proof.
  induction b as [|a r IH]; [cbn; lia|].
  cbn [Py.from_bytes length]. rewrite Nat2Z.inj_succ, Z.pow_succ_r by lia.
  pose proof (N_ascii_bounded a) as Ha. lia.
Qed.

Lemma le_bytes_from_bytes (b : bytes) :
  Py.le_bytes (length b) (Py.from_bytes b) = b.
Proof.
  induction b as [|a r IH]; [reflexivity|].
  cbn [Py.from_bytes length Py.le_bytes].
  pose proof (N_ascii_bounded a) as Ha.
  pose proof (from_bytes_bounds r) as Hr.
  replace ((Z.of_N (N_of_ascii a) + 256 * Py.from_bytes r) mod 256)
    with (Z.of_N (N_of_ascii a)).
  - replace ((Z.of_N (N_of_ascii a) + 256 * Py.from_bytes r) / 256)
      with (Py.from_bytes r).
    + rewrite N2Z.id, ascii_N_embedding, IH. reflexivity.
    + apply Z.div_unique with (r := Z.of_N (N_of_ascii a)); lia.
  - apply Z.mod_unique with (q := Py.from_bytes r); lia.
Qed.

Lemma to_bytes_of_from_bytes (b : bytes) :
  Py.to_bytes (Py.from_bytes b) (length b) = Some b.
Proof.
  rewrite to_bytes_in_range by apply from_bytes_bounds.
  rewrite le_bytes_from_bytes. reflexivity.
Qed.

Lemma struct_pack_unpack (a b : Z) (h : bytes) :
  hl2ss.struct_pack_QI a b = Some h ->
  length h = 12%nat /\ hl2ss.struct_unpack_QI h = Some (a, b).
Proof.
  unfold hl2ss.struct_pack_QI.
  destruct (Py.to_bytes a 8) as [x|] eqn:Hx; [|discriminate].
  destruct (Py.to_bytes b 4) as [y|] eqn:Hy; [|discriminate].
  intros [= <-].
  destruct (to_bytes_from_bytes a 8 x Hx) as [Hax Hlx].
  destruct (to_bytes_from_bytes b 4 y Hy) as [Hby Hly].
  assert (Hl : length (x ++ y) = 12%nat) by (rewrite length_app; lia).
  split; [exact Hl|]. unfold hl2ss.struct_unpack_QI.
  destruct (decide (length (x ++ y) = 12%nat)) as [_|N]; [|contradiction].
  rewrite take_app_length', drop_app_length' by (symmetry; exact Hlx).
  rewrite Hax, Hby. reflexivity.
Qed.

Lemma struct_unpack_pack (h : bytes) (a b : Z) :
  hl2ss.struct_unpack_QI h = Some (a, b) ->
  hl2ss.struct_pack_QI a b = Some h.
Proof.
  unfold hl2ss.struct_unpack_QI.
  destruct (decide (length h = 12%nat)) as [Hl|]; [|discriminate].
  intros [= <- <-]. unfold hl2ss.struct_pack_QI.
  pose proof (to_bytes_of_from_bytes (take 8 h)) as H8.
  pose proof (to_bytes_of_from_bytes (drop 8 h)) as H4.
  rewrite length_take in H8. rewrite length_drop in H4.
  replace (8 `min` length h)%nat with 8%nat in H8 by lia.
  replace (length h - 8)%nat with 4%nat in H4 by lia.
  rewrite H8, H4, take_drop. reflexivity.
Qed.

Lemma pack_parts (p : hl2ss.packet) (mode : hl2ss.StreamMode) (b : bytes) :
  hl2ss.pack p mode = Some b ->
  exists ts pl h tr,
    hl2ss.timestamp p = Some ts /\ hl2ss.payload p = Some pl
    /\ hl2ss.struct_pack_QI ts (Z.of_nat (length pl)) = Some h
    /\ b = h ++ pl ++ tr
    /\ match mode with
       | hl2ss.MODE_1 => hl2ss.pose p = Some tr
       | _ => tr = []
       end.
Proof.
  unfold hl2ss.pack.
  destruct (hl2ss.timestamp p) as [ts|]; [|discriminate].
  destruct (hl2ss.payload p) as [pl|]; [|discriminate].
  destruct (hl2ss.struct_pack_QI ts (Z.of_nat (length pl))) as [h|] eqn:Hh;
    [|discriminate].
  destruct mode.
  - intros [= <-]. exists ts, pl, h, []. rewrite app_nil_r. auto.
  - destruct (hl2ss.pose p) as [ps|]; [|discriminate].
    intros [= <-]. exists ts, pl, h, ps. auto.
  - intros [= <-]. exists ts, pl, h, []. rewrite app_nil_r. auto.
Qed.

(** The bytes of one packet on the wire: the header [h], the payload [pl]
    and the trailer [tr] (the pose in mode 1, nothing otherwise). *)
Section Receive.
Variable mode : hl2ss.StreamMode.
Variables (ts : Z) (pl h tr : bytes).
Hypothesis header : hl2ss.struct_pack_QI ts (Z.of_nat (length pl)) = Some h.
Hypothesis trailer :
  length tr = match mode with hl2ss.MODE_1 => 64%nat | _ => O end.

Local Abbreviation b := (h ++ pl ++ tr).
Local Abbreviation receiving u :=
  (hl2ss._mode u = mode
   /\ (hl2ss._state u = 0
       \/ (hl2ss._state u = 1 /\ hl2ss._timestamp u = Some ts
           /\ hl2ss._size u = Some (Z.of_nat (length b))))).

Lemma header_length : length h = 12%nat.
Proof. exact (proj1 (struct_pack_unpack _ _ _ header)). Qed.

Lemma wire_size :
  Z.of_nat (length b)
  = match mode with
    | hl2ss.MODE_1 => 12 + Z.of_nat (length pl) + 64
    | _ => 12 + Z.of_nat (length pl)
    end.
Proof.
  rewrite !length_app, header_length, trailer. destruct mode; lia.
Qed.

Lemma receiving_extend (u : hl2ss.unpacker) (chunk : bytes) :
  receiving u -> receiving (hl2ss.extend u chunk).
Proof. intros H. exact H. Qed.

Lemma unpack_payload_short (u : hl2ss.unpacker) :
  hl2ss._size u = Some (Z.of_nat (length b)) ->
  (length (hl2ss._buffer u) < length b)%nat ->
  hl2ss.unpack_payload u (Z.of_nat (length (hl2ss._buffer u))) = Some (u, false).
Proof.
  intros Hs Hl. unfold hl2ss.unpack_payload. rewrite Hs.
  destruct (Z.of_nat (length b) <=? Z.of_nat (length (hl2ss._buffer u))) eqn:E;
    [lia|reflexivity].
Qed.

Lemma unpack_payload_whole (u : hl2ss.unpacker) (rest : bytes) :
  hl2ss._mode u = mode ->
  hl2ss._size u = Some (Z.of_nat (length b)) ->
  hl2ss._buffer u = b ++ rest ->
  hl2ss.unpack_payload u (Z.of_nat (length (hl2ss._buffer u)))
    = Some (hl2ss.Unpacker mode 0 rest (hl2ss._timestamp u)
              (Some (Z.of_nat (length b))) (Some pl)
              (match mode with
               | hl2ss.MODE_1 => Some tr
               | _ => hl2ss._pose u
               end), true).
Proof.
  intros Hm Hs Hb. unfold hl2ss.unpack_payload. rewrite Hs, Hm, Hb.
  pose proof header_length as Hh.
  destruct (Z.of_nat (length b) <=? Z.of_nat (length (b ++ rest))) eqn:E.
  2:{ rewrite (length_app b rest) in E. apply Z.leb_gt in E. lia. }
  rewrite Nat2Z.id, drop_app_length.
  assert (Hpl : forall e : Z,
            e = 12 + Z.of_nat (length pl) ->
            hl2ss.slice (b ++ rest) 12 e = pl).
  { intros e ->. unfold hl2ss.slice.
    replace (Z.to_nat (12 + Z.of_nat (length pl))) with (length (h ++ pl)).
    2:{ rewrite length_app. lia. }
    rewrite <- !app_assoc, (app_assoc h pl), take_app_length.
    change (Z.to_nat 12) with 12%nat. rewrite <- Hh, drop_app_length.
    reflexivity. }
  pose proof wire_size as Hw. pose proof trailer as Htr.
  destruct mode.
  - rewrite Hpl by exact Hw. reflexivity.
  - rewrite Hpl by lia.
    do 3 f_equal. unfold hl2ss.slice.
    rewrite Nat2Z.id, take_app_length.
    replace (Z.to_nat (Z.of_nat (length b) - 64)) with (length (h ++ pl))
      by (rewrite !length_app, Htr; lia).
    rewrite (app_assoc h pl), drop_app_length. reflexivity.
  - rewrite Hpl by exact Hw. reflexivity.
Qed.

Lemma header_of_buffer (buf more : bytes) :
  (12 <= length buf)%nat ->
  (exists k, buf ++ more = b ++ k) ->
  hl2ss.struct_unpack_QI (take 12 buf) = Some (ts, Z.of_nat (length pl)).
Proof.
  intros Hl [k Hk]. pose proof header_length as Hh.
  assert (take 12 buf = h) as ->.
  { rewrite <- (take_app_le buf more) by lia. rewrite Hk.
    rewrite <- !app_assoc. rewrite <- Hh at 1. apply take_app_length. }
  exact (proj2 (struct_pack_unpack _ _ _ header)).
Qed.

Lemma unpack_incomplete (u : hl2ss.unpacker) (more : bytes) :
  receiving u ->
  hl2ss._buffer u ++ more = b ->
  more <> [] ->
  exists u',
    hl2ss.unpack u = Some (u', false)
    /\ receiving u'
    /\ hl2ss._buffer u' = hl2ss._buffer u
    /\ hl2ss._pose u' = hl2ss._pose u.
Proof.
  intros [Hm Hst] Hb Hmore.
  assert (Hlt : (length (hl2ss._buffer u) < length b)%nat).
  { rewrite <- Hb, length_app. destruct more; [contradiction|cbn; lia]. }
  unfold hl2ss.unpack. destruct Hst as [H0|(H1 & Ht & Hs)].
  - rewrite H0. cbn [Z.eqb].
    destruct (12 <=? Z.of_nat (length (hl2ss._buffer u))) eqn:E.
    + rewrite (header_of_buffer (hl2ss._buffer u) more) by (try lia; exists []; rewrite app_nil_r; exact Hb).
      rewrite Hm.
      match goal with
      | |- context [hl2ss.unpack_payload ?v _] =>
          pose proof (unpack_payload_short v) as Hshort
      end.
      cbn [hl2ss._size hl2ss._buffer] in Hshort.
      pose proof wire_size as Hw.
      assert (Hsz : Some (match mode with
                          | hl2ss.MODE_1 => 12 + Z.of_nat (length pl) + 64
                          | _ => 12 + Z.of_nat (length pl)
                          end) = Some (Z.of_nat (length b))).
      { rewrite Hw. reflexivity. }
      rewrite Hshort; [|exact Hsz|exact Hlt].
      eexists. split; [reflexivity|]. cbn.
      split; [|auto]. split; [reflexivity|]. right.
      split; [reflexivity|]. split; [reflexivity|]. exact Hsz.
    + exists u. split; [reflexivity|]. auto.
  - rewrite H1. cbn [Z.eqb].
    rewrite (unpack_payload_short u Hs Hlt).
    exists u. split; [reflexivity|]. auto 10.
Qed.

Lemma unpack_complete (u : hl2ss.unpacker) (rest : bytes) :
  receiving u ->
  hl2ss._buffer u = b ++ rest ->
  exists u',
    hl2ss.unpack u = Some (u', true)
    /\ hl2ss.get u'
         = hl2ss.Packet (Some ts) (Some pl)
             (match mode with
              | hl2ss.MODE_1 => Some tr
              | _ => hl2ss._pose u
              end)
    /\ hl2ss._buffer u' = rest
    /\ hl2ss._state u' = 0
    /\ hl2ss._mode u' = mode.
Proof.
  intros [Hm Hst] Hb.
  assert (Hge : (12 <= length (hl2ss._buffer u))%nat).
  { rewrite Hb, !length_app, header_length. lia. }
  unfold hl2ss.unpack. destruct Hst as [H0|(H1 & Ht & Hs)].
  - rewrite H0. cbn [Z.eqb].
    destruct (12 <=? Z.of_nat (length (hl2ss._buffer u))) eqn:E; [|lia].
    rewrite (header_of_buffer (hl2ss._buffer u) []) by (try lia; exists rest; rewrite app_nil_r; exact Hb).
    rewrite Hm.
    match goal with
    | |- context [hl2ss.unpack_payload ?v _] =>
        pose proof (unpack_payload_whole v rest) as Hwhole
    end.
    cbn [hl2ss._size hl2ss._buffer hl2ss._mode hl2ss._timestamp hl2ss._pose]
      in Hwhole.
    rewrite Hwhole; [|reflexivity|rewrite wire_size; reflexivity|exact Hb].
    eexists. split; [reflexivity|]. cbn. auto.
  - rewrite H1. cbn [Z.eqb].
    rewrite (unpack_payload_whole u rest Hm Hs Hb).
    eexists. split; [reflexivity|]. cbn. rewrite Ht. auto.
Qed.

Lemma gather (cs1 : list bytes) (c : bytes) (cs2 : list bytes)
    (u : hl2ss.unpacker) (rest : bytes) :
  receiving u ->
  Forall (fun x => x <> []) (cs1 ++ [c]) ->
  hl2ss._buffer u ++ concat cs1 ++ c = b ++ rest ->
  (cs1 = [] \/ (length (hl2ss._buffer u ++ concat cs1) < length b)%nat) ->
  exists u',
    hl2ss.get_next_packet u (cs1 ++ c :: cs2) = Some (hl2ss.get u', u', cs2)
    /\ hl2ss.get u'
         = hl2ss.Packet (Some ts) (Some pl)
             (match mode with
              | hl2ss.MODE_1 => Some tr
              | _ => hl2ss._pose u
              end)
    /\ hl2ss._buffer u' = rest
    /\ hl2ss._state u' = 0
    /\ hl2ss._mode u' = mode.
Proof.
  revert u. induction cs1 as [|c1 cs1 IH]; intros u Hrec Hne Hcat Hlt.
  - cbn [app concat] in *. apply Forall_cons_1 in Hne as [Hc _].
    destruct (unpack_complete (hl2ss.extend u c) rest (receiving_extend u c Hrec))
      as (u' & Eu & Hget & Hbuf & Hst & Hmd).
    { exact Hcat. }
    exists u'. cbn [hl2ss.get_next_packet].
    destruct c as [|a c]; [contradiction|].
    rewrite Eu. auto.
  - destruct Hlt as [N|Hlt]; [discriminate|].
    cbn [app concat] in *. apply Forall_cons_1 in Hne as [Hc1 Hne].
    rewrite length_app, length_app in Hlt.
    assert (Hx : exists more, (hl2ss._buffer u ++ c1) ++ more = b /\ more <> []).
    { assert (Hcat' : (hl2ss._buffer u ++ c1) ++ (concat cs1 ++ c) = b ++ rest).
      { rewrite <- Hcat, <- !app_assoc. reflexivity. }
      apply app_eq_app in Hcat' as [l [[E1 E2]|[E1 E2]]].
      - apply (f_equal length) in E1. rewrite !length_app in E1.
        rewrite !length_app in Hlt. lia.
      - exists l. split; [symmetry; exact E1|].
        intros ->. rewrite app_nil_r in E1.
        apply (f_equal length) in E1. rewrite !length_app in *. lia. }
    destruct Hx as (more & Hmore & Hmne).
    destruct (unpack_incomplete (hl2ss.extend u c1) more
                (receiving_extend u c1 Hrec) Hmore Hmne)
      as (u1 & Eu & Hrec1 & Hbuf1 & Hpose1).
    cbn [hl2ss.get_next_packet].
    destruct c1 as [|a c1]; [contradiction|].
    rewrite Eu.
    destruct (IH u1 Hrec1 Hne) as (u' & Eg & Hrest).
    { rewrite Hbuf1. cbn [hl2ss.extend hl2ss._buffer].
      rewrite <- Hcat, <- !app_assoc. reflexivity. }
    { destruct cs1 as [|c2 cs1]; [left; reflexivity|right].
      rewrite Hbuf1. cbn [hl2ss.extend hl2ss._buffer].
      rewrite !length_app. rewrite !length_app in Hlt. lia. }
    exists u'. rewrite Eg. destruct Hrest as (Hg & Hr).
    rewrite Hpose1 in Hg. auto.
Qed.

End Receive.

Lemma get_next_packet_chunks
    (mode : hl2ss.StreamMode) (p : hl2ss.packet) (b : bytes)
    (cs1 : list bytes) (c : bytes) (cs2 : list bytes) (rest : bytes) :
  hl2ss.pack p mode = Some b ->
  (mode = hl2ss.MODE_1 ->
   exists ps, hl2ss.pose p = Some ps /\ length ps = 64%nat) ->
  Forall (fun x => x <> []) (cs1 ++ [c]) ->
  concat cs1 ++ c = b ++ rest ->
  (length (concat cs1) < length b)%nat ->
  exists u',
    hl2ss.get_next_packet (hl2ss.new mode) (cs1 ++ c :: cs2)
      = Some (hl2ss.Packet (hl2ss.timestamp p) (hl2ss.payload p)
                (match mode with
                 | hl2ss.MODE_1 => hl2ss.pose p
                 | _ => None
                 end), u', cs2)
    /\ hl2ss._buffer u' = rest
    /\ hl2ss._state u' = 0.
Proof.
  intros Hpack Hpose Hne Hcat Hlt.
  destruct (pack_parts p mode b Hpack) as (ts & pl & h & tr & Hts & Hpl & Hh & -> & Htr).
  assert (Hlen : length tr = match mode with hl2ss.MODE_1 => 64%nat | _ => O end).
  { destruct mode; try (subst tr; reflexivity).
    destruct (Hpose eq_refl) as (ps & Hps & Hl). congruence. }
  destruct (gather mode ts pl h tr Hh Hlen cs1 c cs2 (hl2ss.new mode) rest)
    as (u' & Eg & Hget & Hbuf & Hst & _).
  - split; [reflexivity|left; reflexivity].
  - exact Hne.
  - exact Hcat.
  - right. exact Hlt.
  - exists u'. rewrite Eg, Hget, Hts, Hpl. split; [|auto].
    destruct mode; rewrite ?Htr; reflexivity.
Qed.

(** X24: [gatherer.get_next_packet] gives back what [packet.pack] packed,
    however the stream is cut into chunks. When the bytes of [pack(mode)] of
    a packet (in mode 1, with a pose of 64 bytes) arrive in chunks, none
    empty, [get_next_packet] on a new unpacker returns at the chunk that
    brings the last byte of the packet, with the timestamp and the payload of
    the packet (and the pose in mode 1, [None] otherwise); the bytes of that
    chunk behind the packet stay in the buffer, the later chunks are not
    read. *)
Theorem get_next_packet_any_chunking
    (mode : hl2ss.StreamMode) (p : hl2ss.packet) (b : bytes)
    (cs1 : list bytes) (c : bytes) (cs2 : list bytes) (rest : bytes) :
  hl2ss.pack p mode = Some b ->
  (mode = hl2ss.MODE_1 ->
   exists ps, hl2ss.pose p = Some ps /\ length ps = 64%nat) ->
  Forall (fun x => x <> []) (cs1 ++ [c]) ->
  concat cs1 ++ c = b ++ rest ->
  (length (concat cs1) < length b)%nat ->
  exists u',
    hl2ss.get_next_packet (hl2ss.new mode) (cs1 ++ c :: cs2)
      = Some (hl2ss.Packet (hl2ss.timestamp p) (hl2ss.payload p)
                (match mode with
                 | hl2ss.MODE_1 => hl2ss.pose p
                 | _ => None
                 end), u', cs2)
    /\ hl2ss._buffer u' = rest
    /\ hl2ss._state u' = 0.
Proof. apply get_next_packet_chunks. Qed.

(** X25: [get_next_packet] receives before it unpacks. When two packets
    arrive in one chunk, the first call returns the first and leaves the
    bytes of the second in the buffer; the second packet, complete as it is,
    is returned only by a call that gets one more chunk, whose bytes then
    stay in the buffer; with no chunk to come the call raises. *)
Theorem buffered_packet_waits_for_a_chunk
    (mode : hl2ss.StreamMode) (p1 p2 : hl2ss.packet) (b1 b2 : bytes) :
  hl2ss.pack p1 mode = Some b1 ->
  hl2ss.pack p2 mode = Some b2 ->
  (mode = hl2ss.MODE_1 ->
   exists ps1 ps2,
     hl2ss.pose p1 = Some ps1 /\ length ps1 = 64%nat
     /\ hl2ss.pose p2 = Some ps2 /\ length ps2 = 64%nat) ->
  exists u1,
    hl2ss.get_next_packet (hl2ss.new mode) [b1 ++ b2]
      = Some (hl2ss.Packet (hl2ss.timestamp p1) (hl2ss.payload p1)
                (match mode with
                 | hl2ss.MODE_1 => hl2ss.pose p1
                 | _ => None
                 end), u1, [])
    /\ hl2ss._buffer u1 = b2
    /\ hl2ss.get_next_packet u1 [] = None
    /\ forall c cs, c <> [] ->
         exists u2,
           hl2ss.get_next_packet u1 (c :: cs)
             = Some (hl2ss.Packet (hl2ss.timestamp p2) (hl2ss.payload p2)
                       (match mode with
                        | hl2ss.MODE_1 => hl2ss.pose p2
                        | _ => None
                        end), u2, cs)
           /\ hl2ss._buffer u2 = c.
Proof.
  intros Hpack1 Hpack2 Hpose.
  destruct (pack_parts p1 mode b1 Hpack1)
    as (ts1 & pl1 & h1 & tr1 & Hts1 & Hpl1 & Hh1 & -> & Htr1).
  destruct (pack_parts p2 mode b2 Hpack2)
    as (ts2 & pl2 & h2 & tr2 & Hts2 & Hpl2 & Hh2 & -> & Htr2).
  assert (Hlen1 : length tr1 = match mode with hl2ss.MODE_1 => 64%nat | _ => O end).
  { destruct mode; try (subst tr1; reflexivity).
    destruct (Hpose eq_refl) as (ps1 & ps2 & H1 & L1 & H2 & L2). congruence. }
  assert (Hlen2 : length tr2 = match mode with hl2ss.MODE_1 => 64%nat | _ => O end).
  { destruct mode; try (subst tr2; reflexivity).
    destruct (Hpose eq_refl) as (ps1 & ps2 & H1 & L1 & H2 & L2). congruence. }
  pose proof (header_length ts1 pl1 h1 Hh1) as L1.
  destruct (gather mode ts1 pl1 h1 tr1 Hh1 Hlen1 [] ((h1 ++ pl1 ++ tr1) ++ h2 ++ pl2 ++ tr2)
              [] (hl2ss.new mode) (h2 ++ pl2 ++ tr2))
    as (u1 & Eg & Hget & Hbuf & Hst & Hmd).
  { split; [reflexivity|left; reflexivity]. }
  { constructor; [|constructor]. intros E. apply (f_equal length) in E.
    rewrite !length_app, L1 in E. cbn in E. lia. }
  { reflexivity. }
  { left. reflexivity. }
  exists u1. cbn [app] in Eg. rewrite Eg, Hget, Hts1, Hpl1.
  assert (Hp1 : hl2ss._pose u1
                = match mode with hl2ss.MODE_1 => hl2ss.pose p1 | _ => None end).
  { apply (f_equal hl2ss.pose) in Hget. cbn in Hget. rewrite Hget.
    destruct mode; rewrite ?Htr1; reflexivity. }
  split.
  { destruct mode; rewrite ?Htr1; reflexivity. }
  split; [exact Hbuf|]. split; [reflexivity|].
  intros c cs Hc.
  destruct (gather mode ts2 pl2 h2 tr2 Hh2 Hlen2 [] c cs u1 c)
    as (u2 & Eg2 & Hget2 & Hbuf2 & _).
  { split; [exact Hmd|left; exact Hst]. }
  { constructor; [exact Hc|constructor]. }
  { rewrite Hbuf. reflexivity. }
  { left. reflexivity. }
  exists u2. cbn [app] in Eg2. rewrite Eg2, Hget2, Hts2, Hpl2.
  split; [|exact Hbuf2].
  destruct mode; rewrite ?Hp1, ?Htr2; reflexivity.
Qed.

(** ** Whatever the stream holds *)

Lemma cut3 {A : Type} (l : list A) (i j : nat) :
  (i <= j)%nat -> take i l ++ drop i (take j l) ++ drop j l = l.
Proof.
  intros H. rewrite drop_take_drop by exact H. apply take_drop.
Qed.

Lemma cut4 {A : Type} (l : list A) (i j k : nat) :
  (i <= j)%nat -> (j <= k)%nat ->
  take i l ++ drop i (take j l) ++ drop j (take k l) ++ drop k l = l.
Proof.
  intros H1 H2. rewrite (drop_take_drop l j k) by exact H2.
  apply cut3. exact H1.
Qed.

Section Repack.

Local Abbreviation header_read u :=
  (exists ts n,
     hl2ss.struct_unpack_QI (take 12 (hl2ss._buffer u)) = Some (ts, n)
     /\ hl2ss._timestamp u = Some ts
     /\ hl2ss._size u
        = Some (match hl2ss._mode u with
                | hl2ss.MODE_1 => 12 + n + 64
                | _ => 12 + n
                end)).
Local Abbreviation between_calls u :=
  (hl2ss._state u = 0 \/ (hl2ss._state u = 1 /\ header_read u)).

Lemma unpack_payload_repacks (u : hl2ss.unpacker) :
  header_read u ->
  match hl2ss.unpack_payload u (Z.of_nat (length (hl2ss._buffer u))) with
  | Some (u', true) =>
      (exists b,
         hl2ss.pack (hl2ss.get u') (hl2ss._mode u) = Some b
         /\ hl2ss._buffer u = b ++ hl2ss._buffer u')
      /\ (exists ts, hl2ss._timestamp u' = Some ts /\ 0 <= ts < 2 ^ 64)
      /\ hl2ss._state u' = 0 /\ hl2ss._mode u' = hl2ss._mode u
  | Some (u', false) => u' = u
  | None => False
  end.
Proof.
  intros (ts & n & Hh & Hts & Hs).
  unfold hl2ss.unpack_payload. rewrite Hs.
  remember (hl2ss._buffer u) as buf eqn:Hbuf.
  assert (H12 : length (take 12 buf) = 12%nat).
  { unfold hl2ss.struct_unpack_QI in Hh.
    destruct (decide (length (take 12 buf) = 12%nat)); [assumption|discriminate]. }
  assert (Hlen : (12 <= length buf)%nat).
  { rewrite length_take in H12. lia. }
  assert (Hn : 0 <= n).
  { unfold hl2ss.struct_unpack_QI in Hh.
    destruct (decide (length (take 12 buf) = 12%nat)); [|discriminate].
    injection Hh as _ <-. apply from_bytes_bounds. }
  assert (Hrange : 0 <= ts < 2 ^ 64).
  { unfold hl2ss.struct_unpack_QI in Hh.
    destruct (decide (length (take 12 buf) = 12%nat)); [|discriminate].
    injection Hh as <- _.
    pose proof (from_bytes_bounds (take 8 (take 12 buf))) as B.
    rewrite length_take, H12 in B. exact B. }
  pose proof (struct_unpack_pack _ _ _ Hh) as Hpack.
  destruct (hl2ss._mode u) eqn:Hm.
  - destruct (12 + n <=? Z.of_nat (length buf)) eqn:E; [|reflexivity].
    apply Z.leb_le in E. cbn [hl2ss.get hl2ss._timestamp hl2ss._payload
                               hl2ss._pose hl2ss._buffer hl2ss._state hl2ss._mode].
    split; [|rewrite Hts; eauto].
    assert (Hl : Z.of_nat (length (hl2ss.slice buf 12 (12 + n))) = n).
    { unfold hl2ss.slice. rewrite length_drop, length_take. lia. }
    unfold hl2ss.pack, hl2ss.get.
    cbn [hl2ss.timestamp hl2ss.payload hl2ss.pose hl2ss._timestamp
         hl2ss._payload hl2ss._pose hl2ss._buffer].
    rewrite Hts, Hl, Hpack. eexists. split; [reflexivity|].
    unfold hl2ss.slice. change (Z.to_nat 12) with 12%nat.
    symmetry. rewrite <- !app_assoc. apply cut3. lia.
  - destruct (12 + n + 64 <=? Z.of_nat (length buf)) eqn:E; [|reflexivity].
    apply Z.leb_le in E. cbn [hl2ss.get hl2ss._timestamp hl2ss._payload
                               hl2ss._pose hl2ss._buffer hl2ss._state hl2ss._mode].
    split; [|rewrite Hts; eauto].
    assert (Hl : Z.of_nat (length (hl2ss.slice buf 12 (12 + n + 64 - 64))) = n).
    { unfold hl2ss.slice. rewrite length_drop, length_take. lia. }
    unfold hl2ss.pack, hl2ss.get.
    cbn [hl2ss.timestamp hl2ss.payload hl2ss.pose hl2ss._timestamp
         hl2ss._payload hl2ss._pose hl2ss._buffer].
    rewrite Hts, Hl, Hpack. eexists. split; [reflexivity|].
    unfold hl2ss.slice. change (Z.to_nat 12) with 12%nat.
    symmetry. rewrite <- !app_assoc. apply cut4; lia.
  - destruct (12 + n <=? Z.of_nat (length buf)) eqn:E; [|reflexivity].
    apply Z.leb_le in E. cbn [hl2ss.get hl2ss._timestamp hl2ss._payload
                               hl2ss._pose hl2ss._buffer hl2ss._state hl2ss._mode].
    split; [|rewrite Hts; eauto].
    assert (Hl : Z.of_nat (length (hl2ss.slice buf 12 (12 + n))) = n).
    { unfold hl2ss.slice. rewrite length_drop, length_take. lia. }
    unfold hl2ss.pack, hl2ss.get.
    cbn [hl2ss.timestamp hl2ss.payload hl2ss.pose hl2ss._timestamp
         hl2ss._payload hl2ss._pose hl2ss._buffer].
    rewrite Hts, Hl, Hpack. eexists. split; [reflexivity|].
    unfold hl2ss.slice. change (Z.to_nat 12) with 12%nat.
    symmetry. rewrite <- !app_assoc. apply cut3. lia.
Qed.

Lemma unpack_repacks (u : hl2ss.unpacker) :
  between_calls u ->
  match hl2ss.unpack u with
  | Some (u', true) =>
      (exists b,
         hl2ss.pack (hl2ss.get u') (hl2ss._mode u) = Some b
         /\ hl2ss._buffer u = b ++ hl2ss._buffer u')
      /\ (exists ts, hl2ss._timestamp u' = Some ts /\ 0 <= ts < 2 ^ 64)
      /\ hl2ss._state u' = 0 /\ hl2ss._mode u' = hl2ss._mode u
  | Some (u', false) =>
      between_calls u' /\ hl2ss._buffer u' = hl2ss._buffer u
      /\ hl2ss._mode u' = hl2ss._mode u
  | None => False
  end.
Proof.
  intros Hbc. unfold hl2ss.unpack.
  destruct Hbc as [H0|[H1 Hh]].
  - rewrite H0. cbn [Z.eqb].
    destruct (12 <=? Z.of_nat (length (hl2ss._buffer u))) eqn:E; [|auto].
    apply Z.leb_le in E.
    destruct (hl2ss.struct_unpack_QI (take 12 (hl2ss._buffer u)))
      as [[ts n]|] eqn:Hh.
    2:{ unfold hl2ss.struct_unpack_QI in Hh. rewrite length_take in Hh.
        destruct (decide _) as [|N]; [discriminate|]. lia. }
    match goal with
    | |- context [hl2ss.unpack_payload ?v _] =>
        pose proof (unpack_payload_repacks v) as Hp
    end.
    cbn [hl2ss._size hl2ss._buffer hl2ss._mode hl2ss._timestamp] in Hp.
    specialize (Hp ltac:(eauto)).
    destruct (hl2ss.unpack_payload _ _) as [[u' []]|]; [exact Hp| |exact Hp].
    subst u'. cbn. split; [|auto]. right. split; [reflexivity|]. eauto.
  - rewrite H1. change (1 =? 0) with false. change (1 =? 1) with true.
    cbv iota.
    pose proof (unpack_payload_repacks u Hh) as Hp.
    destruct (hl2ss.unpack_payload _ _) as [[u' []]|]; [exact Hp| |exact Hp].
    subst u'. auto.
Qed.

Lemma between_calls_extend (u : hl2ss.unpacker) (chunk : bytes) :
  between_calls u -> between_calls (hl2ss.extend u chunk).
Proof.
  intros [H0|[H1 (ts & n & Hh & Hts & Hs)]]; [left; exact H0|].
  right. split; [exact H1|]. exists ts, n. cbn.
  split; [|auto].
  assert (H12 : (12 <= length (hl2ss._buffer u))%nat).
  { unfold hl2ss.struct_unpack_QI in Hh. rewrite length_take in Hh.
    destruct (decide _) as [|N]; [lia|discriminate]. }
  rewrite take_app_le by exact H12. exact Hh.
Qed.

Lemma gather_repacks (chunks : list bytes) :
  forall (u : hl2ss.unpacker) data u' rest,
    between_calls u ->
    hl2ss.get_next_packet u chunks = Some (data, u', rest) ->
    exists used b,
      chunks = used ++ rest
      /\ hl2ss.pack data (hl2ss._mode u) = Some b
      /\ hl2ss._buffer u ++ concat used = b ++ hl2ss._buffer u'
      /\ exists ts, hl2ss.timestamp data = Some ts /\ 0 <= ts < 2 ^ 64.
Proof.
  induction chunks as [|c cs IH]; intros u data u' rest Hbc E; [discriminate|].
  cbn [hl2ss.get_next_packet] in E. destruct c as [|a c]; [discriminate|].
  pose proof (unpack_repacks (hl2ss.extend u (a :: c))
                (between_calls_extend u (a :: c) Hbc)) as Hu.
  destruct (hl2ss.unpack (hl2ss.extend u (a :: c))) as [[u1 []]|];
    [| |contradiction].
  - injection E as <- <- <-.
    destruct Hu as ((b & Hb & Hbuf) & Hts & _).
    exists [a :: c], b. split; [reflexivity|]. split; [exact Hb|].
    split; [|exact Hts].
    cbn [concat]. rewrite app_nil_r. exact Hbuf.
  - destruct Hu as (Hbc1 & Hbuf1 & Hm1). cbn in Hm1.
    destruct (IH u1 data u' rest Hbc1 E) as (used & b & -> & Hb & Hcat & Hts).
    exists ((a :: c) :: used), b. split; [reflexivity|].
    split; [rewrite <- Hm1; exact Hb|]. split; [|exact Hts].
    rewrite <- Hcat, Hbuf1. cbn [hl2ss.extend hl2ss._buffer concat].
    rewrite <- !app_assoc. reflexivity.
Qed.

End Repack.

Lemma get_next_packet_any_chunking_witness :
  exists u',
    hl2ss.get_next_packet (hl2ss.new hl2ss.MODE_0)
      ([Stream.head] ++ Stream.tail :: [])
      = Some (hl2ss.Packet (hl2ss.timestamp Stream.p1) (hl2ss.payload Stream.p1)
                None, u', [])
    /\ hl2ss._buffer u' = take 3 Stream.wire2
    /\ hl2ss._state u' = 0.
Proof.
  apply (get_next_packet_any_chunking hl2ss.MODE_0 Stream.p1 Stream.wire1
           [Stream.head] Stream.tail [] (take 3 Stream.wire2)).
  - vm_compute. reflexivity.
  - discriminate.
  - repeat constructor; vm_compute; discriminate.
  - vm_compute. reflexivity.
  - vm_compute. lia.
Defined.

Lemma buffered_packet_waits_for_a_chunk_witness :
  exists u1,
    hl2ss.get_next_packet (hl2ss.new hl2ss.MODE_0) [Stream.wire1 ++ Stream.wire2]
      = Some (hl2ss.Packet (hl2ss.timestamp Stream.p1) (hl2ss.payload Stream.p1)
                None, u1, [])
    /\ hl2ss._buffer u1 = Stream.wire2
    /\ hl2ss.get_next_packet u1 [] = None
    /\ forall c cs, c <> [] ->
         exists u2,
           hl2ss.get_next_packet u1 (c :: cs)
             = Some (hl2ss.Packet (hl2ss.timestamp Stream.p2)
                       (hl2ss.payload Stream.p2) None, u2, cs)
           /\ hl2ss._buffer u2 = c.
Proof.
  apply (buffered_packet_waits_for_a_chunk hl2ss.MODE_0 Stream.p1 Stream.p2
           Stream.wire1 Stream.wire2).
  - vm_compute. reflexivity.
  - vm_compute. reflexivity.
  - discriminate.
Defined.

(** X26: nothing is lost and nothing is made up. Whatever bytes come in,
    when [get_next_packet] on a new unpacker returns a packet, the chunks it
    has read are, put together, the bytes of [pack(mode)] of that packet
    followed by what is left in the buffer; and the timestamp of the packet
    is a number of 64 bits. *)
Theorem get_next_packet_repacks
    (mode : hl2ss.StreamMode) (chunks : list bytes) (data : hl2ss.packet)
    (u' : hl2ss.unpacker) (rest : list bytes) :
  hl2ss.get_next_packet (hl2ss.new mode) chunks = Some (data, u', rest) ->
  exists used b ts,
    chunks = used ++ rest
    /\ hl2ss.pack data mode = Some b
    /\ concat used = b ++ hl2ss._buffer u'
    /\ hl2ss.timestamp data = Some ts
    /\ 0 <= ts < 2 ^ 64.
Proof.
  intros E.
  destruct (gather_repacks chunks (hl2ss.new mode) data u' rest
              ltac:(left; reflexivity) E)
    as (used & b & Hc & Hb & Hcat & ts & Hts & Hr).
  exists used, b, ts. auto.
Qed.

Lemma get_next_packet_repacks_witness :
  exists used b ts,
    [Stream.head; Stream.tail; Stream.wire2] = used ++ [Stream.wire2]
    /\ hl2ss.pack (hl2ss.Packet (Some 100) (Some T1.frame1) None) hl2ss.MODE_0
       = Some b
    /\ concat used
       = b ++ hl2ss._buffer
                (hl2ss.Unpacker hl2ss.MODE_0 0 (take 3 Stream.wire2) (Some 100)
                   (Some 16) (Some T1.frame1) None)
    /\ hl2ss.timestamp (hl2ss.Packet (Some 100) (Some T1.frame1) None) = Some ts
    /\ 0 <= ts < 2 ^ 64.
Proof.
  apply (get_next_packet_repacks hl2ss.MODE_0
           [Stream.head; Stream.tail; Stream.wire2]).
  vm_compute. reflexivity.
Defined.

Lemma struct_pack_range (a b : Z) (h : bytes) :
  hl2ss.struct_pack_QI a b = Some h -> 0 <= a < 2 ^ 64.
Proof.
  unfold hl2ss.struct_pack_QI, Py.to_bytes.
  destruct ((0 <=? a) && (a <? 256 ^ Z.of_nat 8)) eqn:E; [|discriminate].
  intros _. apply andb_prop in E as [E1 E2].
  change (256 ^ Z.of_nat 8) with (2 ^ 64) in E2. lia.
Qed.

(** X27: from the sensor to the subscriber. A packet whose payload has the
    size of the frame arrives, in chunks cut anywhere, at a sensor that runs
    [Sensor.run]: [get_next_packet] returns its payload and its timestamp,
    the [write] of the two on a topic at rest returns, and the [read] of the
    subscriber then gives that payload with that timestamp. The timestamp
    comes out of eight bytes, so that [write] cannot fail on it. *)
Theorem sensor_packet_reaches_reader
    (system : platform) (np_itemsize : string -> option nat)
    (pub sub : SharedFrame) (r_id : string) (wake : sem) (sh : list Z)
    (w : world) (mode : hl2ss.StreamMode) (p : hl2ss.packet) (b : bytes)
    (cs1 : list bytes) (c : bytes) (cs2 : list bytes) (rest : bytes)
    (ts : Z) (pl : bytes) :
  at_rest np_itemsize pub sub r_id wake sh w ->
  hl2ss.pack p mode = Some b ->
  (mode = hl2ss.MODE_1 ->
   exists ps, hl2ss.pose p = Some ps /\ length ps = 64%nat) ->
  Forall (fun x => x <> []) (cs1 ++ [c]) ->
  concat cs1 ++ c = b ++ rest ->
  (length (concat cs1) < length b)%nat ->
  hl2ss.timestamp p = Some ts ->
  hl2ss.payload p = Some pl ->
  length pl = frame_bytes w ->
  exists data u' w1 w2,
    hl2ss.get_next_packet (hl2ss.new mode) (cs1 ++ c :: cs2)
      = Some (data, u', cs2)
    /\ hl2ss.payload data = Some pl
    /\ hl2ss.timestamp data = Some ts
    /\ exec (write system pub pl ts) w = Returned tt w1
    /\ exec (read np_itemsize sub r_id) w1
         = Returned (Ndarray sh (dtype sub) pl, ts) w2.
Proof.
  intros Hrest Hpack Hpose Hne Hcat Hlt Hts Hpl Hlen.
  destruct (get_next_packet_chunks mode p b cs1 c cs2 rest
              Hpack Hpose Hne Hcat Hlt) as (u' & Eg & _).
  destruct (pack_parts p mode b Hpack)
    as (ts' & pl' & h & tr & Hts' & Hpl' & Hh & _ & _).
  assert (ts' = ts) as -> by congruence.
  pose proof (struct_pack_range _ _ _ Hh) as Hr.
  destruct (write_runs system pub pl ts w) as [w1 E1];
    [apply Hrest|exact Hlen|exact Hr|apply Hrest|].
  pose proof (write_keeps_rest system np_itemsize pub sub r_id wake sh pl ts
                w w1 Hrest E1) as Hrest1.
  destruct (write_returned system pub pl ts w w1 E1) as (Hram & Hb & _).
  pose proof (read_at_rest_exact np_itemsize pub sub r_id wake sh w1 Hrest1) as Er.
  rewrite Hram in Er.
  rewrite (proj1 (to_bytes_from_bytes ts 8 _ Hb)) in Er.
  eexists _, u', w1, _. split; [exact Eg|]. cbn.
  split; [exact Hpl|]. split; [exact Hts|]. split; [exact E1|exact Er].
Qed.

Lemma sensor_packet_reaches_reader_witness :
  exists data u' w1 w2,
    hl2ss.get_next_packet (hl2ss.new hl2ss.MODE_0)
      ([Stream.head] ++ Stream.tail :: [])
      = Some (data, u', [])
    /\ hl2ss.payload data = Some T1.frame1
    /\ hl2ss.timestamp data = Some 100
    /\ exec (write Linux T1.pub T1.frame1 100) T1.w0 = Returned tt w1
    /\ exec (read T1.np_itemsize T1.sub "aaaa") w1
         = Returned (Ndarray [2; 2] (dtype T1.sub) T1.frame1, 100) w2.
Proof.
  apply (sensor_packet_reaches_reader Linux T1.np_itemsize T1.pub T1.sub "aaaa"
           T1.wake [2; 2] T1.w0 hl2ss.MODE_0 Stream.p1 Stream.wire1
           [Stream.head] Stream.tail [] (take 3 Stream.wire2) 100 T1.frame1).
  - constructor; try (vm_compute; reflexivity); try (vm_compute; lia).
    + repeat constructor; lia.
    + exists 1%nat. split; vm_compute; reflexivity.
  - vm_compute. reflexivity.
  - discriminate.
  - repeat constructor; vm_compute; discriminate.
  - vm_compute. reflexivity.
  - vm_compute. lia.
  - reflexivity.
  - reflexivity.
  - reflexivity.
Defined.

(** * The publisher's [signout] on Darwin *)

(** X28: on Darwin the [CommMech] of a publisher has no [connection], so
    that in the publisher's [signout] of a registered id [comm.send] raises
    [AttributeError] after the name was unlinked and before the entry is
    deleted, and the handler swallows it: [signout] returns with the registry
    as it was, the name gone, no message sent. Every later [write] still
    releases that semaphore (the registered semaphores being different kernel
    objects). *)
Theorem darwin_publisher_signout_keeps_entry
    (pub : SharedFrame) (r_id : string) (s : sem) (i : nat) (w : world) :
  mode pub = ModeW ->
  sems pub !! r_id = Some s ->
  sem_names w !! sem_name s = Some i ->
  distinct_objects pub ->
  exists w1,
    exec (signout Darwin pub r_id) w = Returned pub w1
    /\ sem_names w1 !! sem_name s = None
    /\ mq w1 = mq w
    /\ sem_vals w1 = sem_vals w
    /\ forall data ts w2,
         exec (write Darwin pub data ts) w1 = Returned tt w2 ->
         count w2 s = S (count w s).
Proof.
  intros Hm Hr Hn Hd. eexists.
  split; [exact (signout_darwin_publisher Darwin pub r_id s w Hr i Hn eq_refl Hm)|].
  cbn. split; [apply lookup_delete_eq|]. split; [reflexivity|].
  split; [reflexivity|].
  intros data ts w2 E.
  pose proof (write_darwin_counts pub data ts _ w2 E (sem_id s)) as H1.
  rewrite (hits_registered pub r_id s Hd Hr) in H1.
  unfold count. cbn in H1. lia.
Qed.

Lemma darwin_publisher_signout_keeps_entry_witness :
  exists w1,
    exec (signout Darwin T1.pub "aaaa") T1.w0 = Returned T1.pub w1
    /\ sem_names w1 !! sem_name T1.wake = None
    /\ mq w1 = mq T1.w0
    /\ sem_vals w1 = sem_vals T1.w0
    /\ forall data ts w2,
         exec (write Darwin T1.pub data ts) w1 = Returned tt w2 ->
         count w2 T1.wake = S (count T1.w0 T1.wake).
Proof.
  apply (darwin_publisher_signout_keeps_entry T1.pub "aaaa" T1.wake 4 T1.w0);
    try (vm_compute; reflexivity).
  unfold distinct_objects. apply (bool_decide_unpack _). vm_compute. exact I.
Defined.
